(** * Audio-track scanner (scan.py): shallow embedding and properties

    The development follows the layout of [scan.py]:

    - [PyStr]     : the Python string and [os.path] primitives the script
                    uses; a text is held as its UTF-8 bytes, [split],
                    [strip], [isdigit] and [int] read its code points, the
                    other primitives are those of ASCII text; binary
                    floating point is idealised by the rationals;
    - [stream], [probe], [audio_track] : the probe document and the track
                    dictionaries built from it;
    - [Extractor] : [get_audio_track_info], the extraction and filter loop;
    - [Planner]   : the planning loop of [tmdb_delete_track];
    - [Os], [Executor] : the remux loops of [tmdb_delete_track] and
                    [delete_tracks_from_files], over an explicit world
                    (file system, standard input and output, shell calls);
    - [Spec], [Sample] : the classification as the specification words it,
                    and sample inputs;
    - [Finder]    : [get_movie_files], the directory scan;
    - [Ident], [Resolver] : [extract_movie_id], and the language lookups
                    [convert_iso_639_1_to_639_3] and
                    [get_original_language];
    - [Metadata]  : [TMDB_pull_language], the prompts, the list of the
                    files to look up and the wrong-language report;
    - [Table], [Main] : [print_audio_track_table], the grouping by file
                    and [main];
    - [Cases]     : more sample inputs;
    - the properties, component by component. *)

From Stdlib Require Import QArith Qabs Ascii String.
From stdpp Require Import gmap strings list pretty.

Local Open Scope string_scope.
Local Open Scope list_scope.
Local Open Scope Z_scope.

(** ** Exceptions and the result monad *)

(** The exceptions the modelled code can raise. [str_exn] is Python's
    [str(e)]. *)
Inductive exn :=
  | KeyError (key : string)
  | ValueError (msg : string)
  | IndexError (msg : string)
  | FileNotFoundError (path : string)
  | EOFError.

Definition str_exn (e : exn) : string :=
  match e with
  | KeyError k => "'" +:+ k +:+ "'"
  | ValueError m => m
  | IndexError m => m
  | FileNotFoundError p =>
      "[Errno 2] No such file or directory: '" +:+ p +:+ "'"
  | EOFError => "EOF when reading a line"
  end.

Inductive result (A : Type) :=
  | Ok (a : A)
  | Raise (e : exn).
Arguments Ok {A} a.
Arguments Raise {A} e.

#[global] Instance result_ret : MRet result := fun A a => Ok a.
#[global] Instance result_bind : MBind result := fun A B f m =>
  match m with
  | Ok a => f a
  | Raise e => Raise e
  end.

(** [d[k]] on a dictionary entry that may be missing. *)
Definition getitem {A} (key : string) (v : option A) : result A :=
  match v with
  | Some a => Ok a
  | None => Raise (KeyError key)
  end.

(** ** Python strings *)

Module PyStr.

Definition code (c : ascii) : Z := Z.of_N (N_of_ascii c).

(** [str.lower] on ASCII text. *)
Definition lower_ascii (c : ascii) : ascii :=
  if (65 <=? code c) && (code c <=? 90)
  then ascii_of_N (N_of_ascii c + 32)
  else c.

Fixpoint lower (s : string) : string :=
  match s with
  | EmptyString => EmptyString
  | String c s' => String (lower_ascii c) (lower s')
  end.

(** A text is held as the bytes of its UTF-8 encoding; ASCII text is
    its own encoding. [code_points] decodes it: [need] counts the
    continuation bytes still to come of the character being read and
    [acc] holds the bits read of it. *)
Fixpoint code_points_go (s : string) (need : nat) (acc : Z) : list Z :=
  match s with
  | EmptyString => []
  | String c s' =>
      let b := code c in
      match need with
      | O =>
          if b <? 128 then b :: code_points_go s' 0 0
          else if b <? 224 then code_points_go s' 1 (b - 192)
          else if b <? 240 then code_points_go s' 2 (b - 224)
          else code_points_go s' 3 (b - 240)
      | S O => (64 * acc + (b - 128)) :: code_points_go s' 0 0
      | S n => code_points_go s' n (64 * acc + (b - 128))
      end
  end.
Definition code_points (s : string) : list Z := code_points_go s 0 0.

Definition chr (b : Z) : ascii := ascii_of_N (Z.to_N b).

(** The UTF-8 bytes of a code point, and of a list of them. *)
Definition encode_point (cp : Z) : string :=
  if cp <? 128 then String (chr cp) EmptyString
  else if cp <? 2048 then
    String (chr (192 + cp / 64))
      (String (chr (128 + cp mod 64)) EmptyString)
  else if cp <? 65536 then
    String (chr (224 + cp / 4096))
      (String (chr (128 + (cp / 64) mod 64))
         (String (chr (128 + cp mod 64)) EmptyString))
  else
    String (chr (240 + cp / 262144))
      (String (chr (128 + (cp / 4096) mod 64))
         (String (chr (128 + (cp / 64) mod 64))
            (String (chr (128 + cp mod 64)) EmptyString))).
Definition encode (cps : list Z) : string :=
  foldr (fun cp s => encode_point cp +:+ s) EmptyString cps.

(** [c.isspace()]: tab, line feed, vertical tab, form feed, carriage
    return, the four separators [0x1c]..[0x1f], the space, and the white
    space beyond ASCII (next line, no-break space, Ogham space mark, the
    spaces [U+2000]..[U+200A], line and paragraph separator, narrow
    no-break space, medium mathematical space, ideographic space). *)
Definition isspace (cp : Z) : bool :=
  ((9 <=? cp) && (cp <=? 13))
  || ((28 <=? cp) && (cp <=? 32))
  || (cp =? 133) || (cp =? 160) || (cp =? 5760)
  || ((8192 <=? cp) && (cp <=? 8202))
  || (cp =? 8232) || (cp =? 8233) || (cp =? 8239) || (cp =? 8287)
  || (cp =? 12288).

(** [s.split()]: the maximal runs of characters that are not white
    space. [cur] is the run being read, reversed. *)
Fixpoint split_go (cur : option (list Z)) (cps : list Z) : list string :=
  match cps with
  | [] => option_list ((fun run => encode (rev run)) <$> cur)
  | cp :: rest =>
      if isspace cp
      then option_list ((fun run => encode (rev run)) <$> cur)
             ++ split_go None rest
      else split_go (Some (cp :: default [] cur)) rest
  end.
Definition split (s : string) : list string :=
  split_go None (code_points s).

(** [s.split(sep)[0]]: the text before the first [sep]. *)
Fixpoint before (sep : ascii) (s : string) : string :=
  match s with
  | EmptyString => EmptyString
  | String a s' => if Ascii.eqb a sep then EmptyString
                   else String a (before sep s')
  end.

Definition digit_val (c : ascii) : option Z :=
  if (48 <=? code c) && (code c <=? 57) then Some (code c - 48) else None.

(** Text made of ASCII decimal digits only, and such text that is not
    empty. *)
Fixpoint all_digits (s : string) : bool :=
  match s with
  | EmptyString => true
  | String c s' => bool_decide (is_Some (digit_val c)) && all_digits s'
  end.
Definition ascii_digits (s : string) : bool :=
  match s with
  | EmptyString => false
  | _ => all_digits s
  end.

Fixpoint digits_go (s : string) (acc : Z) : option Z :=
  match s with
  | EmptyString => Some acc
  | String c s' =>
      match digit_val c with
      | Some d => digits_go s' (10 * acc + d)
      | None => None
      end
  end.

(** The decimal digits of Unicode 14 (Python 3.11) come in runs of ten,
    zero to nine; these are the code points of the zeros. *)
Definition decimal_zeros : list Z :=
  [48; 1632; 1776; 1984; 2406; 2534; 2662; 2790; 2918; 3046; 3174; 3302;
   3430; 3558; 3664; 3792; 3872; 4160; 4240; 6112; 6160; 6470; 6608;
   6784; 6800; 6992; 7088; 7232; 7248; 42528; 43216; 43264; 43472;
   43504; 43600; 44016; 65296; 66720; 68912; 69734; 69872; 69942; 70096;
   70384; 70736; 70864; 71248; 71360; 71472; 71904; 72016; 72784; 73040;
   73120; 92768; 92864; 93008; 120782; 120792; 120802; 120812; 120822;
   123200; 123632; 125264; 130032].

(** [unicodedata.decimal(c)], when the character has one. *)
Definition decimal_value (cp : Z) : option Z :=
  (fun zero => cp - zero)
    <$> find (fun zero => (zero <=? cp) && (cp <=? zero + 9))
             decimal_zeros.

(** The characters that are digits without being decimal digits
    (superscripts, subscripts, circled digits and the like), as ranges
    with both ends included. *)
Definition other_digits : list (Z * Z) :=
  [(178, 179); (185, 185); (4969, 4977); (6618, 6618); (8304, 8304);
   (8308, 8313); (8320, 8329); (9312, 9320); (9332, 9340); (9352, 9360);
   (9450, 9450); (9461, 9469); (9471, 9471); (10102, 10110);
   (10112, 10120); (10122, 10130); (68160, 68163); (69216, 69224);
   (69714, 69722); (127232, 127242)].

(** [c.isdigit()] for one character. *)
Definition isdigit_point (cp : Z) : bool :=
  bool_decide (is_Some (decimal_value cp))
  || existsb (fun r => (r.1 <=? cp) && (cp <=? r.2)) other_digits.

(** [s.isdigit()]: not empty, digits only. *)
Definition isdigit (s : string) : bool :=
  match code_points s with
  | [] => false
  | cps => forallb isdigit_point cps
  end.

(** [s.strip()]. *)
Fixpoint lstrip (cps : list Z) : list Z :=
  match cps with
  | [] => []
  | cp :: rest => if isspace cp then lstrip rest else cps
  end.
Definition rstrip (cps : list Z) : list Z := rev (lstrip (rev cps)).
Definition strip (s : string) : string :=
  encode (rstrip (lstrip (code_points s))).

(** What [int] makes of a character. Below 127 the character is read as
    it is, and only tab to carriage return and the space are white
    space; from 127 on a white-space character counts as a space and a
    decimal digit as its value. *)
Inductive int_char :=
  | Space
  | Plus
  | Minus
  | Underscore
  | Digit (d : Z)
  | Other.

Definition int_char_of (cp : Z) : int_char :=
  if cp <? 127 then
    if ((9 <=? cp) && (cp <=? 13)) || (cp =? 32) then Space
    else if cp =? 43 then Plus
    else if cp =? 45 then Minus
    else if cp =? 95 then Underscore
    else if (48 <=? cp) && (cp <=? 57) then Digit (cp - 48)
    else Other
  else if isspace cp then Space
  else match decimal_value cp with
       | Some d => Digit d
       | None => Other
       end.

Fixpoint skip_spaces (l : list int_char) : list int_char :=
  match l with
  | Space :: rest => skip_spaces rest
  | _ => l
  end.

(** The run of digits and single underscores at the start of [l]: its
    value, the number of its digits and what follows it. There is no
    such run when an underscore follows an underscore or ends the
    run. *)
Fixpoint digits_of (l : list int_char) (after_underscore : bool)
    (acc count : Z) : option (Z * Z * list int_char) :=
  match l with
  | Digit d :: rest => digits_of rest false (10 * acc + d) (count + 1)
  | Underscore :: rest =>
      if after_underscore then None else digits_of rest true acc count
  | _ => if after_underscore then None else Some (acc, count, l)
  end.

Definition max_str_digits : Z := 4300.

(** [int(s)] for a string: white space, an optional sign, decimal digits
    that single underscores may separate, white space. More than 4300
    digits are refused (the default of [sys.set_int_max_str_digits]).
    The message quotes the literal as [repr] does for printable text
    without quotes or backslashes. *)
Definition int (s : string) : result Z :=
  let invalid :=
    Raise (ValueError
             ("invalid literal for int() with base 10: '" +:+ s +:+ "'")) in
  let l := skip_spaces (int_char_of <$> code_points s) in
  let '(sign, l) :=
    match l with
    | Plus :: rest => (1, rest)
    | Minus :: rest => (-1, rest)
    | _ => (1, l)
    end in
  match l with
  | Digit _ :: _ =>
      match digits_of l false 0 0 with
      | Some (value, count, rest) =>
          if max_str_digits <? count then
            Raise (ValueError
                     ("Exceeds the limit (4300 digits) for integer string "
                      +:+ "conversion: value has " +:+ pretty count
                      +:+ " digits; use sys.set_int_max_str_digits() to "
                      +:+ "increase the limit"))
          else
            match skip_spaces rest with
            | [] => Ok (sign * value)
            | _ => invalid
            end
      | None => invalid
      end
  | _ => invalid
  end.

(** [str(z)] for an integer of at most 4300 digits, the longest one
    [str] writes and [int] reads. *)
Definition str (z : Z) : string := pretty z.

(** [sep.join(l)]. *)
Fixpoint join (sep : string) (l : list string) : string :=
  match l with
  | [] => EmptyString
  | [x] => x
  | x :: l' => x +:+ sep +:+ join sep l'
  end.

(** [s[:n]]. *)
Fixpoint take (n : nat) (s : string) : string :=
  match n, s with
  | S n', String a s' => String a (take n' s')
  | _, _ => EmptyString
  end.

Fixpoint drop (n : nat) (s : string) : string :=
  match n, s with
  | S n', String _ s' => drop n' s'
  | _, _ => s
  end.

(** [s.rfind(c)], [-1] when [c] does not occur. *)
Fixpoint rfind_go (c : ascii) (s : string) (i last : Z) : Z :=
  match s with
  | EmptyString => last
  | String a s' => rfind_go c s' (i + 1) (if Ascii.eqb a c then i else last)
  end.
Definition rfind (c : ascii) (s : string) : Z := rfind_go c s 0 (-1).

Fixpoint all_dots (s : string) : bool :=
  match s with
  | EmptyString => true
  | String a s' => Ascii.eqb a "." && all_dots s'
  end.

(** [os.path.basename] (POSIX). *)
Definition basename (p : string) : string :=
  drop (Z.to_nat (rfind "/" p + 1)) p.

(** [os.path.splitext] (POSIX): split at the last dot of the last
    component, unless only dots precede it there. *)
Definition splitext (p : string) : string * string :=
  let sepIndex := rfind "/" p in
  let dotIndex := rfind "." p in
  if sepIndex <? dotIndex then
    let stem := take (Z.to_nat (dotIndex - sepIndex - 1))
                     (drop (Z.to_nat (sepIndex + 1)) p) in
    if all_dots stem then (p, EmptyString)
    else (take (Z.to_nat dotIndex) p, drop (Z.to_nat dotIndex) p)
  else (p, EmptyString).

Fixpoint last_char (s : string) : option ascii :=
  match s with
  | EmptyString => None
  | String a EmptyString => Some a
  | String _ s' => last_char s'
  end.

(** [os.path.join(a, b)] (POSIX) for a relative [b]. *)
Definition path_join (a b : string) : string :=
  match last_char a with
  | None => b
  | Some c => if Ascii.eqb c "/" then a +:+ b else a +:+ "/" +:+ b
  end.

(** Rounding to the nearest integer, ties to even. *)
Definition round_half_even (q : Q) : Z :=
  let n := Qnum q in
  let d := Z.pos (Qden q) in
  let fl := n / d in
  let r2 := 2 * (n mod d) in
  if r2 <? d then fl
  else if d <? r2 then fl + 1
  else if Z.even fl then fl else fl + 1.

Definition two_digits (z : Z) : string :=
  if z <? 10 then "0" +:+ pretty z else pretty z.

(** [f"{q:.2f}"], the floating-point value idealised as a rational. *)
Definition format_2f (q : Q) : string :=
  let c := round_half_even (Qabs q * 100) in
  (if Qnum q <? 0 then "-" else "")
    +:+ pretty (c / 100) +:+ "." +:+ two_digits (c mod 100).

End PyStr.


(** ** Probe records and audio-track dictionaries *)

(** A stream of the probe document. [codec_type] is read when the audio
    streams are selected; the other keys are read per audio stream and may
    be missing. [tags] is the optional dictionary of stream tags. The
    numeric strings of the document ([sample_rate], [bit_rate]) are kept as
    strings and converted with [int], as the script does. *)
Record stream := {
  index : option Z;
  codec_type : string;
  codec_name : option string;
  channels : option Z;
  sample_rate : option string;
  bit_rate : option string;
  tags : option (gmap string string)
}.

(** What lines 47-51 leave of a successfully probed file: the streams of
    the document and [float(info['format']['duration'])]. *)
Record probe := {
  streams : list stream;
  duration : Q
}.

(** The dictionary appended to [audio_tracks]. *)
Record audio_track := {
  File : string;
  FullFilePath : string;
  Track : Z;
  Language : string;
  Format : string;
  Channels : Z;
  Bitrate : string;
  Title : string;
  Size : string
}.

(** The argument dictionary of [get_audio_track_info] ([ffmpeg_folder] only
    locates the probe tool and is part of the probe function below). *)
Record args := {
  movie_files : list string;
  show_errors : bool;
  exclude_same : bool;
  only_same : bool;
  track_number : option Z;
  no_unknown : bool;
  only_unknown : bool;
  foreign_only : bool;
  work : bool;
  wrong_language : bool
}.

(** [stream.get('tags', {}).get('language', dflt)]. *)
Definition tag_get (key dflt : string) (s : stream) : string :=
  default dflt (default ∅ (tags s) !! key).

(** The English test of the filters (lines 58 and 67): the tag, lower-cased,
    is [eng]. *)
Definition english_equivalent (language : string) : Prop :=
  PyStr.lower language = "eng".

(** Truth value of an optional integer: [None] and [0] are false. *)
Definition truthy (b : option Z) : bool :=
  match b with
  | Some z => negb (z =? 0)
  | None => false
  end.

Module Extractor.

(** Lines 81-89: the bit rate and its display string. *)
Definition stream_bitrate (audio_stream : stream)
    (codec_name : string) (channels sample_rate : Z)
    : result (option Z * string) :=
  match bit_rate audio_stream with
  | Some br =>
      bitrate ← PyStr.int br;
      Ok (Some bitrate, PyStr.str (bitrate / 1000) +:+ " Kbps")
  | None =>
      if bool_decide (PyStr.lower codec_name = "aac") then
        let bitrate := channels * sample_rate in
        Ok (Some bitrate, "~" +:+ PyStr.str (bitrate / 1000) +:+ " Kbps")
      else Ok (None, "N/A")
  end.

(** Line 94: the track size in MB, with exact arithmetic. *)
Definition track_size (bitrate : Z) (file_duration : Q) : Q :=
  (inject_Z bitrate * file_duration / (8 * 1024 * 1024))%Q.

(** Lines 93-97. *)
Definition track_size_str (bitrate : option Z) (file_duration : Q)
    : string :=
  match bitrate with
  | Some b =>
      if truthy bitrate
      then PyStr.format_2f (track_size b file_duration) +:+ " MB"
      else "N/A"
  | None => "N/A"
  end.

(** Lines 69-110, the body of the loop over the audio streams of one
    file: [Ok None] is a [continue], [Ok (Some t)] an append. *)
Definition stream_track (a : args) (movie_file : string)
    (file_duration : Q) (audio_stream : stream)
    : result (option audio_track) :=
  let language := tag_get "language" "unknown" audio_stream in
  let title := tag_get "title" "" audio_stream in
  if no_unknown a && bool_decide (PyStr.lower language = "unknown")
  then Ok None
  else if only_unknown a
          && negb (bool_decide (PyStr.lower language = "unknown"))
  then Ok None
  else
    codec_name ← getitem "codec_name" (codec_name audio_stream);
    channels ← getitem "channels" (channels audio_stream);
    sample_rate ← getitem "sample_rate" (sample_rate audio_stream)
                    ≫= PyStr.int;
    '(bitrate, bitrate_str) ←
      stream_bitrate audio_stream codec_name channels sample_rate;
    let title := PyStr.take 40 title in
    let track_size_str := track_size_str bitrate file_duration in
    idx ← getitem "index" (index audio_stream);
    Ok (Some {| File := movie_file;
                FullFilePath := movie_file;
                Track := idx;
                Language := language;
                Format := codec_name;
                Channels := channels;
                Bitrate := bitrate_str;
                Title := title;
                Size := track_size_str |}).

(** The loop of line 68: tracks are appended until a stream raises. *)
Fixpoint stream_tracks (a : args) (movie_file : string)
    (file_duration : Q) (audio_streams : list stream)
    (audio_tracks : list audio_track)
    : list audio_track * option exn :=
  match audio_streams with
  | [] => (audio_tracks, None)
  | audio_stream :: rest =>
      match stream_track a movie_file file_duration audio_stream with
      | Raise e => (audio_tracks, Some e)
      | Ok None => stream_tracks a movie_file file_duration rest audio_tracks
      | Ok (Some t) =>
          stream_tracks a movie_file file_duration rest
                        (audio_tracks ++ [t])
      end
  end.

(** Line 50. *)
Definition audio_streams_of (info : probe) : list stream :=
  filter (fun s => codec_type s = "audio") (streams info).

(** Line 53: the English test of the [foreign_only] gate, on the tag as
    it is. *)
Definition has_eng_exact (audio_streams : list stream) : bool :=
  existsb (fun s => bool_decide (tag_get "language" "" s = "eng"))
          audio_streams.

(** Lines 58-60. *)
Definition has_eng_track (audio_streams : list stream) : bool :=
  existsb (fun s =>
             bool_decide (PyStr.lower (tag_get "language" "" s) = "eng"))
          audio_streams.

Definition has_another_language (audio_streams : list stream) : bool :=
  existsb (fun s =>
             negb (bool_decide
                     (PyStr.lower (tag_get "language" "" s)
                        ∈ ["unknown"; "eng"])))
          audio_streams.

Definition all_same_language (audio_streams : list stream) : bool :=
  bool_decide
    (size (list_to_set
             ((fun s => PyStr.lower (tag_get "language" "" s))
                <$> audio_streams) : gset string) = 1%nat).

Definition error_line (movie_file : string) (e : string) : string :=
  "Error processing " +:+ movie_file +:+ ": " +:+ e.

Section WithProbe.

(** The external probe, lines 46-51: the [ffprobe] invocation, the JSON
    decoding and the reads of [streams], [codec_type] and
    [format.duration]. [inl msg] stands for an exception raised there,
    [msg] being its [str]. Nothing is appended before line 52, so all
    these failures have the same effect: the handler of line 111. *)
Variable ffprobe : string -> string + probe.

(** Lines 45-112, the body of the loop over the files. *)
Definition file_step (a : args)
    (st : list audio_track * list string) (movie_file : string)
    : list audio_track * list string :=
  let '(audio_tracks, errors) := st in
  match ffprobe movie_file with
  | inl msg => (audio_tracks, errors ++ [error_line movie_file msg])
  | inr info =>
      let audio_streams := audio_streams_of info in
      let file_duration := duration info in
      if foreign_only a && has_eng_exact audio_streams then st
      else if match track_number a with
              | None => true
              | Some n => n <=? Z.of_nat (length audio_streams)
              end
      then
        let has_eng_track := has_eng_track audio_streams in
        let has_another_language := has_another_language audio_streams in
        let all_same_language := all_same_language audio_streams in
        if exclude_same a && all_same_language then st
        else if only_same a && negb all_same_language then st
        else if negb (foreign_only a)
                || (negb has_eng_track && has_another_language)
        then
          match stream_tracks a movie_file file_duration
                              audio_streams audio_tracks with
          | (audio_tracks', None) => (audio_tracks', errors)
          | (audio_tracks', Some e) =>
              (audio_tracks',
               errors ++ [error_line movie_file (str_exn e)])
          end
        else st
      else st
  end.

(** Lines 44-112: the loop over the files, from the lists built so
    far. *)
Definition scan_files (a : args) (files : list string)
    (st : list audio_track * list string)
    : list audio_track * list string :=
  fold_left (file_step a) files st.

(** Lines 41-112 and 120: both lists start empty and are returned.
    (The error lines printed under [show_errors] and the hand-over to
    the metadata mode under [work] come after the loop and do not
    change the pair.) *)
Definition get_audio_track_info (a : args)
    : list audio_track * list string :=
  scan_files a (movie_files a) ([], []).

End WithProbe.

End Extractor.

(** ** The deletion planner of the metadata mode *)

(** The [movie_data] dictionaries built by [TMDB_pull_language]: three keys
    are always set, [original_language] is set only when the identifier is
    found again in the base name (line 296), and its value may be [None]. *)
Record movie_data := {
  md_File : string;
  md_FullFilePath : string;
  md_movie_id : string;
  md_original_language : option (option string)
}.

(** The entries of [file_summary]. *)
Record summary := {
  file_name : string;
  original_language : option string;
  tracks_to_delete : list string;
  tracks_to_keep : list string
}.

Module Planner.

(** [f"{track['Track']}({track['Language']})"]. *)
Definition label (track : audio_track) : string :=
  PyStr.str (Track track) +:+ "(" +:+ Language track +:+ ")".

(** Lines 181-185. A language is a string, so it differs from [None]. *)
Fixpoint partition_tracks (original_language : option string)
    (file_audio_tracks : list audio_track)
    (tracks_to_delete tracks_to_keep : list string)
    : list string * list string :=
  match file_audio_tracks with
  | [] => (tracks_to_delete, tracks_to_keep)
  | track :: rest =>
      if bool_decide (Some (Language track) ≠ original_language)
      then partition_tracks original_language rest
             (tracks_to_delete ++ [label track]) tracks_to_keep
      else partition_tracks original_language rest
             tracks_to_delete (tracks_to_keep ++ [label track])
  end.

(** Line 179. *)
Definition tracks_of_file (audio_tracks : list audio_track)
    (md : movie_data) : list audio_track :=
  filter (fun track => File track = md_FullFilePath md) audio_tracks.

(** Lines 173-194, the body of the planning loop: the summary appended
    for [md], if any. *)
Definition plan_file (audio_tracks : list audio_track) (md : movie_data)
    : result (option summary) :=
  let file_name := md_File md in
  original_language ←
    getitem "original_language" (md_original_language md);
  let file_audio_tracks := tracks_of_file audio_tracks md in
  let '(tracks_to_delete, tracks_to_keep) :=
    partition_tracks original_language file_audio_tracks [] [] in
  match tracks_to_keep with
  | [] => Ok None
  | _ => Ok (Some {| file_name := file_name;
                     original_language := original_language;
                     tracks_to_delete := tracks_to_delete;
                     tracks_to_keep := tracks_to_keep |})
  end.

(** Lines 172-194. *)
Fixpoint plan_files (audio_tracks : list audio_track)
    (movie_data_list : list movie_data) (file_summary : list summary)
    : result (list summary) :=
  match movie_data_list with
  | [] => Ok file_summary
  | md :: rest =>
      s ← plan_file audio_tracks md;
      plan_files audio_tracks rest (file_summary ++ option_list s)
  end.

End Planner.

(** ** The world of the remux executor *)

(** The file system maps the paths of the existing files to their sizes;
    [stdin] holds the lines still to be read, [stdout] what has been
    written (one entry per [print] or prompt), [shell] the command lines
    run so far. *)
Record world := {
  fs : gmap string Z;
  stdin : list string;
  stdout : list string;
  shell : list string
}.

Definition M (A : Type) : Type := world -> result A * world.

#[global] Instance M_ret : MRet M := fun A a w => (Ok a, w).
#[global] Instance M_bind : MBind M := fun A B f m w =>
  match m w with
  | (Ok a, w') => f a w'
  | (Raise e, w') => (Raise e, w')
  end.

Definition lift {A} (r : result A) : M A := fun w => (r, w).

Definition nl : string := String "010" EmptyString.
Definition tab : string := String "009" EmptyString.
Definition dq : string := String "034" EmptyString.

Module Os.

Definition print (line : string) : M unit := fun w =>
  (Ok tt, {| fs := fs w; stdin := stdin w;
             stdout := stdout w ++ [line]; shell := shell w |}).

(** [input(prompt)]: the prompt is written, a line is read. *)
Definition input (prompt : string) : M string := fun w =>
  match stdin w with
  | [] => (Raise EOFError,
           {| fs := fs w; stdin := [];
              stdout := stdout w ++ [prompt]; shell := shell w |})
  | line :: rest =>
      (Ok line, {| fs := fs w; stdin := rest;
                   stdout := stdout w ++ [prompt]; shell := shell w |})
  end.

(** [os.path.getsize]. *)
Definition getsize (path : string) : M Z := fun w =>
  match fs w !! path with
  | Some n => (Ok n, w)
  | None => (Raise (FileNotFoundError path), w)
  end.

(** [os.remove]. *)
Definition remove (path : string) : M unit := fun w =>
  match fs w !! path with
  | Some _ => (Ok tt, {| fs := delete path (fs w); stdin := stdin w;
                         stdout := stdout w; shell := shell w |})
  | None => (Raise (FileNotFoundError path), w)
  end.

(** [os.rename] (POSIX): the destination is replaced. *)
Definition rename (src dst : string) : M unit := fun w =>
  match fs w !! src with
  | Some n => (Ok tt, {| fs := <[dst := n]> (delete src (fs w));
                         stdin := stdin w; stdout := stdout w;
                         shell := shell w |})
  | None => (Raise (FileNotFoundError src), w)
  end.

End Os.

(** ** The remux executor *)

Module Executor.

(** [[f(x) for x in l]] where [f] may raise. *)
Fixpoint traverse {A B} (f : A -> result B) (l : list A)
    : result (list B) :=
  match l with
  | [] => Ok []
  | x :: l' => y ← f x; ys ← traverse f l'; Ok (y :: ys)
  end.

(** Lines 218 and 401. *)
Definition temp_path (input_file_path : string) : string :=
  (PyStr.splitext input_file_path).1 +:+ "_temp"
    +:+ (PyStr.splitext input_file_path).2.

(** Lines 221-222 and 404-405. *)
Definition ffmpeg_command (ffmpeg_folder input_file_path map_options
    temp_output_file_path : string) : string :=
  let ffmpeg_path := PyStr.path_join ffmpeg_folder "ffmpeg" in
  dq +:+ ffmpeg_path +:+ dq +:+ " -i " +:+ dq +:+ input_file_path +:+ dq
     +:+ " -map 0 " +:+ map_options +:+ " -c copy "
     +:+ dq +:+ temp_output_file_path +:+ dq.

(** Line 220: one exclusion per entry of [tracks_to_delete], numbered by
    the integer before the parenthesis, minus one. *)
Definition tmdb_map_option (track : string) : result string :=
  n ← PyStr.int (PyStr.before "(" track);
  Ok ("-map -0:a:" +:+ PyStr.str (n - 1)).

(** Line 403. *)
Definition manual_map_option (track : string) : result string :=
  n ← PyStr.int track;
  Ok ("-map -0:a:" +:+ PyStr.str (n - 1)).

Definition mb (bytes : Z) : Q := (inject_Z bytes / 1024 / 1024)%Q.

Definition first_track (file_audio_tracks : list audio_track)
    : result audio_track :=
  match file_audio_tracks with
  | track :: _ => Ok track
  | [] => Raise (IndexError "list index out of range")
  end.

(** [s[:k]] for an integer [k], negative [k] counting from the end. *)
Definition slice_to (k : Z) (s : string) : string :=
  if k <? 0 then PyStr.take (Z.to_nat (Z.of_nat (String.length s) + k)) s
  else PyStr.take (Z.to_nat k) s.

(** Lines 375-382: the display name written back into the track. *)
Definition display_name (track : audio_track) : string :=
  let file_name := PyStr.basename (FullFilePath track) in
  let file_ext := (PyStr.splitext file_name).2 in
  let max_length := 70 in
  if max_length <? Z.of_nat (String.length file_name)
  then slice_to (max_length - Z.of_nat (String.length file_ext) - 3)
                file_name +:+ "[...]" +:+ file_ext
  else file_name.

Definition set_File (track : audio_track) (file_name : string)
    : audio_track :=
  {| File := file_name;
     FullFilePath := FullFilePath track;
     Track := Track track;
     Language := Language track;
     Format := Format track;
     Channels := Channels track;
     Bitrate := Bitrate track;
     Title := Title track;
     Size := Size track |}.

(** Line 391, left operand: [all(...)] stops at the first false entry. *)
Fixpoint all_valid (valid_tracks : list Z) (tracks_to_delete : list string)
    : result bool :=
  match tracks_to_delete with
  | [] => Ok true
  | track :: rest =>
      if PyStr.isdigit track then
        n ← PyStr.int track;
        if bool_decide (n ∈ valid_tracks)
        then all_valid valid_tracks rest
        else Ok false
      else Ok false
  end.

(** Line 391. *)
Definition accepted (valid_tracks : list Z)
    (tracks_to_delete : list string) : result bool :=
  ok ← all_valid valid_tracks tracks_to_delete;
  Ok (ok || bool_decide ("s" ∈ tracks_to_delete)).

Section WithTools.

(** The external remux tool as the shell runs it: from the command line
    and the file system to the exit status and the file system it
    leaves. *)
Variable ffmpeg : string -> gmap string Z -> Z * gmap string Z.

(** The rendering of a table of track rows by [PrettyTable]. *)
Variable pretty_table : list audio_track -> string.

(** [subprocess.run(cmd, shell=True, ...)]: the exit status is
    returned, not raised. *)
Definition run (cmd : string) : M Z := fun w =>
  let '(returncode, fs') := ffmpeg cmd (fs w) in
  (Ok returncode, {| fs := fs'; stdin := stdin w; stdout := stdout w;
                     shell := shell w ++ [cmd] |}).

(** *** Metadata mode: [tmdb_delete_track] *)

(** Lines 212-241: the plan is applied; the space saved is returned to
    be added to the total (line 231). *)
Definition apply_summary (audio_tracks : list audio_track)
    (ffmpeg_folder : string) (s : summary) : M Z :=
  Os.print (nl +:+ "Applying modifications to " +:+ file_name s);;
  let file_audio_tracks :=
    filter (fun track => PyStr.basename (File track) = file_name s)
           audio_tracks in
  first ← lift (first_track file_audio_tracks);
  let input_file_path := FullFilePath first in
  let temp_output_file_path := temp_path input_file_path in
  options ← lift (traverse tmdb_map_option (tracks_to_delete s));
  let map_options := PyStr.join " " options in
  let ffmpeg_command :=
    ffmpeg_command ffmpeg_folder input_file_path map_options
                   temp_output_file_path in
  Os.print "Deleting specified tracks...";;
  Os.print ("Executing command: " +:+ ffmpeg_command);;
  returncode ← run ffmpeg_command;
  initial_size ← Os.getsize input_file_path;
  final_size ← Os.getsize temp_output_file_path;
  let space_saved := initial_size - final_size in
  Os.print ("Deleted tracks successfully. Space saved: "
              +:+ PyStr.format_2f (mb space_saved) +:+ " MB");;
  (if returncode =? 0 then
     Os.remove input_file_path;;
     Os.rename temp_output_file_path input_file_path
   else
     Os.print ("An error occurred while processing " +:+ file_name s
                 +:+ ". Skipping this file.");;
     Os.remove temp_output_file_path);;
  mret space_saved.

(** Lines 210-244: [i] is the 1-based position, [total_space_saved]
    the running total. *)
Fixpoint apply_summaries (audio_tracks : list audio_track)
    (ffmpeg_folder : string) (skipped_files : list Z)
    (file_summary : list summary) (i total_space_saved : Z) : M Z :=
  match file_summary with
  | [] => mret total_space_saved
  | s :: rest =>
      if bool_decide (i ∉ skipped_files) then
        space_saved ← apply_summary audio_tracks ffmpeg_folder s;
        apply_summaries audio_tracks ffmpeg_folder skipped_files rest
                        (i + 1) (total_space_saved + space_saved)
      else
        Os.print (nl +:+ "Skipping modifications for " +:+ file_name s);;
        apply_summaries audio_tracks ffmpeg_folder skipped_files rest
                        (i + 1) total_space_saved
  end.

Definition str_option (o : option string) : string :=
  default "None" o.

(** Lines 196-200. *)
Fixpoint print_summaries (file_summary : list summary) (i : Z)
    : M unit :=
  match file_summary with
  | [] => mret tt
  | s :: rest =>
      Os.print (nl +:+ PyStr.str i +:+ ". " +:+ file_name s +:+ ":");;
      Os.print (tab +:+ "Original_Language: "
                  +:+ str_option (original_language s));;
      Os.print (tab +:+ "Tracks to delete: "
                  +:+ PyStr.join ", " (tracks_to_delete s));;
      Os.print (tab +:+ "Tracks to Keep: "
                  +:+ PyStr.join ", " (tracks_to_keep s));;
      print_summaries rest (i + 1)
  end.

Definition total_line (total_space_saved : Z) : string :=
  "Total space saved: " +:+ PyStr.format_2f (mb total_space_saved)
    +:+ " MB".

(** Lines 168-246. *)
Definition tmdb_delete_track (movie_data_list : list movie_data)
    (audio_tracks : list audio_track) (ffmpeg_folder : string)
    : M unit :=
  file_summary ← lift (Planner.plan_files audio_tracks movie_data_list []);
  print_summaries file_summary 1;;
  action ← Os.input (nl +:+ "Proceed with the suggested modifications?"
                       +:+ "(Y/N or provide the line numbers to skip): ");
  if bool_decide (PyStr.lower action = "n") then
    Os.print "No modifications made. Exiting."
  else
    skipped_files ←
      lift (if bool_decide (PyStr.lower action ≠ "y")
            then traverse PyStr.int (PyStr.split action)
            else Ok []);
    total_space_saved ←
      apply_summaries audio_tracks ffmpeg_folder skipped_files
                      file_summary 1 0;
    Os.print (total_line total_space_saved);;
    Os.print "Done. Exiting.".

(** *** Manual mode: [delete_tracks_from_files] *)

Definition select_prompt : string :=
  "Tracks to delete (space-separated, e.g. 1 3 - "
    +:+ "enter s to skip this file): ".

(** Lines 369-394, the [while True] loop. [lines] bounds the number of
    rounds: one per line still on standard input, which is what
    [select_tracks] passes; with none left [input] raises. *)
Fixpoint ask_tracks (file_audio_tracks : list audio_track)
    (lines : list string) : M (list string) :=
  let rows :=
    (fun track => set_File track (display_name track))
      <$> file_audio_tracks in
  Os.print (pretty_table rows);;
  let valid_tracks := Track <$> file_audio_tracks in
  line ← Os.input select_prompt;
  let tracks_to_delete := PyStr.split line in
  ok ← lift (accepted valid_tracks tracks_to_delete);
  if (ok : bool) then mret tracks_to_delete
  else
    Os.print ("Invalid input. Please enter valid track numbers "
                +:+ "or 's' to skip.");;
    match lines with
    | [] => lift (Raise EOFError)
    | _ :: rest => ask_tracks file_audio_tracks rest
    end.

Definition select_tracks (file_audio_tracks : list audio_track)
    : M (list string) :=
  fun w => ask_tracks file_audio_tracks (stdin w) w.

(** The world once the table and the prompt have been written and one
    line has been read, [rest] being the lines left. *)
Definition asked (file_audio_tracks : list audio_track) (w : world)
    (rest : list string) : world :=
  {| fs := fs w;
     stdin := rest;
     stdout := stdout w
               ++ [pretty_table
                     ((fun track => set_File track (display_name track))
                        <$> file_audio_tracks);
                   select_prompt];
     shell := shell w |}.

(** Lines 400-421: the remux of the selected tracks; the space saved is
    returned to be added to the total (line 415). *)
Definition remux_selected (ffmpeg_folder : string)
    (file_audio_tracks : list audio_track)
    (tracks_to_delete : list string) : M Z :=
  first ← lift (first_track file_audio_tracks);
  let input_file_path := FullFilePath first in
  let temp_output_file_path := temp_path input_file_path in
  options ← lift (traverse manual_map_option tracks_to_delete);
  let map_options := PyStr.join " " options in
  let ffmpeg_command :=
    ffmpeg_command ffmpeg_folder input_file_path map_options
                   temp_output_file_path in
  Os.print "Deleting specified tracks...";;
  Os.print ("Executing command: " +:+ ffmpeg_command);;
  process ← run ffmpeg_command;
  initial_size ← Os.getsize input_file_path;
  final_size ← Os.getsize temp_output_file_path;
  let space_saved := initial_size - final_size in
  Os.print ("Deleted tracks successfully. Space saved: "
              +:+ PyStr.format_2f (mb space_saved) +:+ " MB");;
  Os.remove input_file_path;;
  Os.rename temp_output_file_path input_file_path;;
  mret space_saved.

(** Lines 369-421, the work on one file: [None] when the file is
    skipped (the [continue] of line 398), else the space saved. *)
Definition delete_tracks_of_file (ffmpeg_folder : string)
    (file_audio_tracks : list audio_track) : M (option Z) :=
  tracks_to_delete ← select_tracks file_audio_tracks;
  if bool_decide ("s" ∈ tracks_to_delete) then
    Os.print "File will be skipped.";;
    mret None
  else
    space_saved ←
      remux_selected ffmpeg_folder file_audio_tracks tracks_to_delete;
    mret (Some space_saved).

(** Lines 368-429: [idx] is the 0-based position, [len] the number of
    files. *)
Fixpoint delete_loop (ffmpeg_folder : string)
    (items : list (string * list audio_track))
    (idx len total_space_saved : Z) : M Z :=
  match items with
  | [] => mret total_space_saved
  | (file_key, file_audio_tracks) :: rest =>
      outcome ← delete_tracks_of_file ffmpeg_folder file_audio_tracks;
      match outcome with
      | None =>
          delete_loop ffmpeg_folder rest (idx + 1) len total_space_saved
      | Some space_saved =>
          let total_space_saved := total_space_saved + space_saved in
          if idx =? len - 1 then mret total_space_saved
          else
            proceed ← Os.input "Proceed to the next file? (Y/N): ";
            if bool_decide (PyStr.lower proceed = "n")
            then mret total_space_saved
            else delete_loop ffmpeg_folder rest (idx + 1) len
                             total_space_saved
      end
  end.

(** Lines 366-430. [audio_tracks] is the dictionary of the tracks by
    file, in insertion order. *)
Definition delete_tracks_from_files
    (audio_tracks : list (string * list audio_track))
    (path ffmpeg_folder : string) : M unit :=
  total_space_saved ←
    delete_loop ffmpeg_folder audio_tracks 0
                (Z.of_nat (length audio_tracks)) 0;
  Os.print (total_line total_space_saved).

End WithTools.

End Executor.

(** ** The classification as the specification words it *)

Module Spec.

(** The language code of a stream in the data model: the [language] tag
    in lower case, [unknown] when the tag is missing. *)
Definition language_code (s : stream) : string :=
  match tags s ≫= (.!! "language") with
  | Some language => PyStr.lower language
  | None => "unknown"
  end.

(** [allSameLanguage]: the set of the language codes has exactly one
    element. *)
Definition all_same_language (audio_streams : list stream) : bool :=
  bool_decide
    (size (list_to_set (language_code <$> audio_streams) : gset string)
     = 1%nat).

(** The ordinal of the stream numbered [idx] among the audio streams of
    the file, counted from 0. *)
Fixpoint ordinal_in (idx : Z) (audio_streams : list stream) : option Z :=
  match audio_streams with
  | [] => None
  | s :: rest =>
      if bool_decide (index s = Some idx) then Some 0
      else Z.succ <$> ordinal_in idx rest
  end.
Definition audio_ordinal (info : probe) (idx : Z) : option Z :=
  ordinal_in idx (Extractor.audio_streams_of info).

End Spec.

(** ** Sample inputs *)

Module Sample.

Definition audio (idx : Z) (language : option string) (codec : string)
    (rate : option string) : stream :=
  {| index := Some idx;
     codec_type := "audio";
     codec_name := Some codec;
     channels := Some 2;
     sample_rate := Some "48000";
     bit_rate := rate;
     tags := (fun l => {[ "language" := l ]}) <$> language |}.

Definition other (idx : Z) (kind codec : string) : stream :=
  {| index := Some idx;
     codec_type := kind;
     codec_name := Some codec;
     channels := None;
     sample_rate := None;
     bit_rate := None;
     tags := None |}.

Definition no_filter (files : list string) : args :=
  {| movie_files := files;
     show_errors := false;
     exclude_same := false;
     only_same := false;
     track_number := None;
     no_unknown := false;
     only_unknown := false;
     foreign_only := false;
     work := false;
     wrong_language := false |}.

Definition foreign (files : list string) : args :=
  {| movie_files := files;
     show_errors := false;
     exclude_same := false;
     only_same := false;
     track_number := None;
     no_unknown := false;
     only_unknown := false;
     foreign_only := true;
     work := false;
     wrong_language := false |}.

(** A film with a video stream, a subtitle stream and two audio streams,
    English and French. *)
Definition film : string := "/m/Heat {tmdb-949}.mkv".
Definition film_temp : string := "/m/Heat {tmdb-949}_temp.mkv".
Definition film_probe : probe :=
  {| streams := [other 0 "video" "h264"; other 1 "subtitle" "subrip";
                 audio 2 (Some "eng") "aac" None;
                 audio 3 (Some "fre") "ac3" (Some "448000")];
     duration := 3600 |}.

(** A French film whose only audio stream is tagged in upper case. *)
Definition amelie : string := "/m/Amelie {tmdb-194}.mkv".
Definition amelie_probe : probe :=
  {| streams := [other 0 "video" "h264"; audio 1 (Some "FRE") "aac" None];
     duration := 7200 |}.

Definition amelie_track : audio_track :=
  {| File := amelie;
     FullFilePath := amelie;
     Track := 1;
     Language := "FRE";
     Format := "aac";
     Channels := 2;
     Bitrate := "~96 Kbps";
     Title := "";
     Size := "82.40 MB" |}.

(** A dubbed film whose English stream is tagged in upper case. *)
Definition dubbed : string := "/m/Ran {tmdb-11645}.mkv".
Definition dubbed_probe : probe :=
  {| streams := [other 0 "video" "h264"; audio 1 (Some "jpn") "aac" None;
                 audio 2 (Some "ENG") "aac" None];
     duration := 9600 |}.

Definition broken_message : string :=
  "Command '['/ff/ffprobe', '-v', 'quiet', '-print_format', 'json', "
    +:+ "'-show_streams', '-show_format', '/m/notes.mkv']' "
    +:+ "returned non-zero exit status 1.".

Definition ffprobe (movie_file : string) : string + probe :=
  if bool_decide (movie_file = film) then inr film_probe
  else if bool_decide (movie_file = amelie) then inr amelie_probe
  else if bool_decide (movie_file = dubbed) then inr dubbed_probe
  else inl broken_message.

Definition film_tracks : list audio_track :=
  (Extractor.get_audio_track_info ffprobe (no_filter [film])).1.

Definition film_data : movie_data :=
  {| md_File := "Heat {tmdb-949}.mkv";
     md_FullFilePath := film;
     md_movie_id := "949";
     md_original_language := Some (Some "eng") |}.

(** A stream with the language tag in upper case and a declared bit rate
    of zero. *)
Definition upper_zero : stream := audio 1 (Some "ENG") "ac3" (Some "0").

Definition upper_zero_track : audio_track :=
  {| File := film;
     FullFilePath := film;
     Track := 1;
     Language := "ENG";
     Format := "ac3";
     Channels := 2;
     Bitrate := "0 Kbps";
     Title := "";
     Size := "N/A" |}.

(** A file of two audio streams, one untagged and one tagged
    [unknown]. *)
Definition untagged_and_unknown : list stream :=
  [audio 1 None "aac" None; audio 2 (Some "unknown") "aac" None].

Definition mib : Z := 1024 * 1024.

(** A world with the film, 100 MiB large, and the given input lines. *)
Definition world_with (lines : list string) : world :=
  {| fs := {[ film := 100 * mib ]};
     stdin := lines;
     stdout := [];
     shell := [] |}.

(** A remux that fails with exit status 1 after writing 50 MiB of the
    temporary file. *)
Definition failing_ffmpeg (cmd : string) (files : gmap string Z)
    : Z * gmap string Z :=
  (1, <[ film_temp := 50 * mib ]> files).

(** A remux that succeeds and writes a temporary file of 90 MiB. *)
Definition working_ffmpeg (cmd : string) (files : gmap string Z)
    : Z * gmap string Z :=
  (0, <[ film_temp := 90 * mib ]> files).

Definition table (rows : list audio_track) : string := "<table>".

(** The command line of a remux of the film with the tools in [/ff]. *)
Definition film_command (map_options : string) : string :=
  dq +:+ "/ff/ffmpeg" +:+ dq +:+ " -i " +:+ dq +:+ film +:+ dq
     +:+ " -map 0 " +:+ map_options +:+ " -c copy "
     +:+ dq +:+ film_temp +:+ dq.

Definition film_plan_lines : list string :=
  [nl +:+ "1. Heat {tmdb-949}.mkv:";
   tab +:+ "Original_Language: eng";
   tab +:+ "Tracks to delete: 3(fre)";
   tab +:+ "Tracks to Keep: 2(eng)";
   nl +:+ "Proceed with the suggested modifications?"
      +:+ "(Y/N or provide the line numbers to skip): "].

End Sample.

(** ** The directory scan *)

(** One triple yielded by [os.walk]: a directory, its sub-directories and
    its files. *)
Record walk_entry := {
  root : string;
  dirnames : list string;
  filenames : list string
}.

Module Finder.

(** [s.endswith(suffix)]. *)
Fixpoint endswith (suffix s : string) : bool :=
  bool_decide (s = suffix)
  || match s with
     | EmptyString => false
     | String _ s' => endswith suffix s'
     end.

(** [fnmatch.filter(filenames, f'*.{extension}')] (POSIX, where the match
    is case-sensitive) for an extension without pattern characters: the
    names that end with a dot and the extension, in the order of the
    listing. *)
Definition fnmatch_filter (filenames : list string) (extension : string)
    : list string :=
  filter (fun filename => endswith ("." +:+ extension) filename) filenames.

(** Whether a name ends with a dot and one of the extensions. *)
Definition has_extension (extensions : list string) (filename : string)
    : bool :=
  existsb (fun extension => endswith ("." +:+ extension) filename)
          extensions.

(** No name can end with two of the extensions: none of them, behind
    its dot, ends with another one. *)
Fixpoint incompatible (extensions : list string) : bool :=
  match extensions with
  | [] => true
  | x :: rest =>
      forallb (fun y => negb (endswith ("." +:+ x) ("." +:+ y)
                             || endswith ("." +:+ y) ("." +:+ x))) rest
      && incompatible rest
  end.

(** Lines 20-23: the three nested loops, each match appended. *)
Definition collect (walk : list walk_entry) (extensions : list string)
    : list string :=
  e ← walk;
  extension ← extensions;
  filename ← fnmatch_filter (filenames e) extension;
  [PyStr.path_join (root e) filename].

Section WithWalk.

(** [os.walk(path)], the directory tree as it is when the scan starts. *)
Variable os_walk : string -> list walk_entry.

(** Lines 17-26. *)
Definition get_movie_files (path : string) (extensions : list string)
    : M (list string) :=
  Os.print ("Scanning directory for movie files: " +:+ path);;
  let movie_files := collect (os_walk path) extensions in
  Os.print ("Found " +:+ PyStr.str (Z.of_nat (length movie_files))
              +:+ " movie files.");;
  mret movie_files.

End WithWalk.

End Finder.

(** ** Movie identifiers *)

Module Ident.

(** [s.startswith(prefix)]. *)
Fixpoint startswith (prefix s : string) : bool :=
  match prefix, s with
  | EmptyString, _ => true
  | String a prefix', String b s' => Ascii.eqb a b && startswith prefix' s'
  | String _ _, EmptyString => false
  end.

(** The longest run of decimal digits at the start of [s], and what
    follows it: what a greedy [\d+] takes, the digits being the ASCII
    ones of the identifiers. *)
Fixpoint span_digits (s : string) : string * string :=
  match s with
  | EmptyString => (EmptyString, EmptyString)
  | String c s' =>
      if bool_decide (is_Some (PyStr.digit_val c))
      then (String c (span_digits s').1, (span_digits s').2)
      else (EmptyString, s)
  end.

(** A match of [opening \d+ }] at the start of [s]: the digits. The run
    of digits must be followed by the closing brace; a shorter run is
    followed by a digit, so backtracking finds no other match. *)
Definition match_at (opening s : string) : option string :=
  if startswith opening s then
    let '(digits, rest) :=
      span_digits (PyStr.drop (String.length opening) s) in
    if negb (bool_decide (digits = EmptyString)) && startswith "}" rest
    then Some digits
    else None
  else None.

(** [re.search]: the leftmost match. *)
Fixpoint search (opening s : string) : option string :=
  match match_at opening s with
  | Some digits => Some digits
  | None =>
      match s with
      | EmptyString => None
      | String _ s' => search opening s'
      end
  end.

(** Lines 131-143. The patterns are [{imdb-(tt\d+)}] and [{tmdb-(\d+)}];
    the group of the first one starts with [tt]. *)
Definition extract_movie_id (file_name : string)
    : option string * option string :=
  let imdb_match := search "{imdb-tt" file_name in
  let tmdb_match := search "{tmdb-" file_name in
  match imdb_match, tmdb_match with
  | Some digits, _ => (Some "imdb", Some ("tt" +:+ digits))
  | None, Some digits => (Some "tmdb", Some digits)
  | None, None => (None, None)
  end.

(** [c in s] for a character. *)
Fixpoint contains (c : ascii) (s : string) : bool :=
  match s with
  | EmptyString => false
  | String a s' => Ascii.eqb a c || contains c s'
  end.

(** The text holds a token: the opening, one decimal digit or more, the
    closing brace. *)
Definition has_token (opening s : string) : Prop :=
  exists pre digits post,
    PyStr.ascii_digits digits = true
    /\ s = pre +:+ opening +:+ digits +:+ "}" +:+ post.

(** Truth value of an optional string: [None] and the empty string are
    false. *)
Definition nonempty (o : option string) : bool :=
  match o with
  | Some s => negb (bool_decide (s = EmptyString))
  | None => false
  end.

End Ident.

(** ** Original languages *)

Module Resolver.

Section WithServices.

(** [pycountry.languages.get(alpha_2=x)] followed by the read of
    [alpha_3]: [Ok (Some a)] for a record whose three-letter code is [a],
    [Ok None] when there is no record (the attribute read then raises the
    [AttributeError] that line 151 catches), [Raise e] when the lookup
    itself raises. *)
Variable languages_get : option string -> result (option string).

(** [Movie().external(external_id, "imdb_id")]: the [id]s of the entries
    of [movie_results]; no entry when the answer is empty or lacks the
    key. *)
Variable external : string -> result (list Z).

(** [Movie().details(id)] followed by
    [getattr(movie, 'original_language', None)]. The identifier is the
    integer of an external lookup or the text found in the file name. *)
Variable details : Z + string -> result (option string).

(** Lines 145-152. *)
Definition convert_iso_639_1_to_639_3 (iso_639_1 : option string)
    : result (option string) :=
  language ← languages_get iso_639_1;
  match language with
  | Some alpha_3 =>
      if bool_decide (alpha_3 = "zho") then Ok (Some "chi")
      else Ok (Some alpha_3)
  | None => Ok None
  end.

(** Lines 154-166. *)
Definition get_original_language (source movie_id : string)
    : result (option string) :=
  if bool_decide (source = "imdb") then
    movie_results ← external movie_id;
    match movie_results with
    | tmdb_id :: _ =>
        original_language_iso_639_1 ← details (inl tmdb_id);
        convert_iso_639_1_to_639_3 original_language_iso_639_1
    | [] => Ok None
    end
  else
    original_language_iso_639_1 ← details (inr movie_id);
    convert_iso_639_1_to_639_3 original_language_iso_639_1.

End WithServices.

End Resolver.

(** ** The metadata mode: [TMDB_pull_language] *)

(** The entries of [wrong_language_movies]. *)
Record wrong_movie := {
  wm_file_name : string;
  wm_original_language : option string;
  wrong_language_tracks : list string
}.

Module Metadata.

Definition set_original_language (md : movie_data)
    (original_language : option string) : movie_data :=
  {| md_File := md_File md;
     md_FullFilePath := md_FullFilePath md;
     md_movie_id := md_movie_id md;
     md_original_language := Some original_language |}.

(** Lines 250-254, the [while True] loop. [lines] bounds the number of
    rounds by the lines still on standard input. *)
Fixpoint ask_proceed (lines : list string) : M string :=
  line ← Os.input "Do you want to proceed? (y/n): ";
  let proceed := PyStr.lower line in
  if bool_decide (proceed ∈ ["y"; "n"]) then mret proceed
  else
    Os.print "Invalid input. Please enter 'y' or 'n'.";;
    match lines with
    | [] => lift (Raise EOFError)
    | _ :: rest => ask_proceed rest
    end.

(** Lines 271-290: one entry per distinct [File] that carries an
    identifier, in the order of the first occurrences. *)
Fixpoint collect_movie_data (audio_tracks : list audio_track)
    (processed_files : gset string) (movie_data_list : list movie_data)
    : M (list movie_data) :=
  match audio_tracks with
  | [] => mret movie_data_list
  | file_info :: rest =>
      let file_name := File file_info in
      if bool_decide (file_name ∈ processed_files)
      then collect_movie_data rest processed_files movie_data_list
      else
        let processed_files := processed_files ∪ {[ file_name ]} in
        match Ident.extract_movie_id file_name with
        | (Some source, Some movie_id) =>
            let movie_data :=
              {| md_File := PyStr.basename file_name;
                 md_FullFilePath := file_name;
                 md_movie_id := movie_id;
                 md_original_language := None |} in
            collect_movie_data rest processed_files
                               (movie_data_list ++ [movie_data])
        | _ =>
            Os.print ("Skipping file " +:+ PyStr.basename file_name
                        +:+ " as it doesn't conform to the standard.");;
            collect_movie_data rest processed_files movie_data_list
        end
  end.

(** Lines 307-309. *)
Definition wrong_tracks (original_language : option string)
    (file_audio_tracks : list audio_track) : list string :=
  Planner.label
    <$> filter (fun track => Some (Language track) ≠ original_language)
               file_audio_tracks.

(** Lines 301-316, the body of the report loop. *)
Definition wrong_file (audio_tracks : list audio_track) (md : movie_data)
    : result (option wrong_movie) :=
  let file_name := md_File md in
  original_language ←
    getitem "original_language" (md_original_language md);
  let file_audio_tracks := Planner.tracks_of_file audio_tracks md in
  match wrong_tracks original_language file_audio_tracks with
  | [] => Ok None
  | wrong => Ok (Some {| wm_file_name := file_name;
                         wm_original_language := original_language;
                         wrong_language_tracks := wrong |})
  end.

(** Lines 300-316. *)
Fixpoint wrong_files (audio_tracks : list audio_track)
    (movie_data_list : list movie_data)
    (wrong_language_movies : list wrong_movie)
    : result (list wrong_movie) :=
  match movie_data_list with
  | [] => Ok wrong_language_movies
  | md :: rest =>
      m ← wrong_file audio_tracks md;
      wrong_files audio_tracks rest (wrong_language_movies ++ option_list m)
  end.

(** Lines 320-322. *)
Fixpoint print_wrong (wrong_language_movies : list wrong_movie) : M unit :=
  match wrong_language_movies with
  | [] => mret tt
  | movie :: rest =>
      Os.print (wm_file_name movie +:+ " (Original: "
                  +:+ Executor.str_option (wm_original_language movie)
                  +:+ ")");;
      Os.print ("Wrong language tracks: "
                  +:+ PyStr.join ", " (wrong_language_tracks movie)
                  +:+ nl);;
      print_wrong rest
  end.

(** Lines 318-324. *)
Definition report_wrong (wrong_language_movies : list wrong_movie)
    : M unit :=
  match wrong_language_movies with
  | [] => Os.print "No files with wrong language tracks were found."
  | _ =>
      Os.print (nl +:+ "Files with wrong language tracks:");;
      print_wrong wrong_language_movies
  end.

Section WithServices.

Variable ffmpeg : string -> gmap string Z -> Z * gmap string Z.

(** [test_api_key] (lines 122-129): whether [Configuration().info()]
    returns with the key; every exception is caught there. *)
Variable test_api_key : string -> bool.

Variable languages_get : option string -> result (option string).
Variable external : string -> result (list Z).
Variable details : Z + string -> result (option string).

(** Lines 261-267, the loop on the key, from the key first entered:
    [None] when the user gives up. [lines] bounds the number of
    rounds. *)
Fixpoint ask_api_key (lines : list string) (api_key : string)
    : M (option string) :=
  if test_api_key api_key then mret (Some api_key)
  else
    Os.print ("Error: Invalid API key or failed to connect "
                +:+ "to TheMovieDatabase.");;
    retry ← Os.input "Do you want to try again? (y/n): ";
    if bool_decide (PyStr.lower retry = "n") then
      Os.print "Aborted by user.";;
      mret None
    else
      line ← Os.input "Please enter your TheMovieDatabase API Key: ";
      match lines with
      | [] => lift (Raise EOFError)
      | _ :: rest => ask_api_key rest (PyStr.strip line)
      end.

(** Lines 295-297, the body of the loop: the identifier is looked for
    again, in the base name, and the language is stored only when it is
    found there. *)
Definition fetch_language (md : movie_data) : result movie_data :=
  match Ident.extract_movie_id (md_File md) with
  | (source, movie_id) =>
      if Ident.nonempty source && Ident.nonempty movie_id then
        original_language ←
          Resolver.get_original_language languages_get external details
            (default EmptyString source) (default EmptyString movie_id);
        Ok (set_original_language md original_language)
      else Ok md
  end.

(** Lines 294-297. *)
Definition fetch_languages (movie_data_list : list movie_data)
    : result (list movie_data) :=
  Executor.traverse fetch_language movie_data_list.

(** Lines 248-328. The result is [Some false] for [return False],
    [None] for the bare [return] of the report, [Some true] at the
    end. *)
Definition TMDB_pull_language (audio_tracks : list audio_track)
    (ffmpeg_folder : string) (wrong_language : bool) : M (option bool) :=
  Os.print (nl +:+ "This feature only works if your files contain either "
              +:+ "'{imdb-imdbID}' or '{tmdb-tmdbID}' within the "
              +:+ "file names.");;
  proceed ← (fun w => ask_proceed (stdin w) w);
  if bool_decide (proceed = "n") then
    Os.print "Aborted by user.";;
    mret (Some false)
  else
    line ← Os.input "Please enter your TheMovieDatabase API Key: ";
    api_key ← (fun w => ask_api_key (stdin w) (PyStr.strip line) w);
    match api_key with
    | None => mret (Some false)
    | Some _ =>
        movie_data_list ← collect_movie_data audio_tracks ∅ [];
        movie_data_list ← lift (fetch_languages movie_data_list);
        if wrong_language then
          wrong_language_movies ←
            lift (wrong_files audio_tracks movie_data_list []);
          report_wrong wrong_language_movies;;
          mret None
        else
          Executor.tmdb_delete_track ffmpeg movie_data_list audio_tracks
                                     ffmpeg_folder;;
          mret (Some true)
    end.

End WithServices.

End Metadata.

(** ** The table of the tracks *)

(** A value of a table row. *)
Inductive cell :=
  | Text (s : string)
  | Number (z : Z).

Module Table.

(** The grouping loops of lines 337-342 and 492-497: a dictionary from
    the key to the list of its tracks, as the list of its items in
    insertion order. *)
Fixpoint add_to_group {A} (file_key : string) (x : A)
    (groups : list (string * list A)) : list (string * list A) :=
  match groups with
  | [] => [(file_key, [x])]
  | (k, xs) :: rest =>
      if bool_decide (k = file_key) then (k, xs ++ [x]) :: rest
      else (k, xs) :: add_to_group file_key x rest
  end.

Definition group_by {A} (key : A -> string) (l : list A)
    : list (string * list A) :=
  fold_left (fun groups x => add_to_group (key x) x groups) l [].

(** Line 358: the values of a track under the field names of
    line 332. *)
Definition values (track : audio_track) : list cell :=
  [Text (File track); Number (Track track); Text (Language track);
   Text (Format track); Number (Channels track); Text (Bitrate track);
   Text (Title track); Text (Size track)].

(** ["-" * n]. *)
Fixpoint dashes (n : nat) : string :=
  match n with
  | O => EmptyString
  | S n' => String "-" (dashes n')
  end.

(** Line 347. *)
Definition separator_row : list cell :=
  [Text (dashes 75); Text ""; Text ""; Text ""; Text ""; Text "";
   Text ""; Text ""].

(** The update of line 357, on the track dictionary itself. *)
Definition renamed (track : audio_track) : audio_track :=
  Executor.set_File track (Executor.display_name track).

(** Lines 349-362: the rows of one file, [idx] being the position of
    the first of them. *)
Fixpoint file_rows (file_audio_tracks : list audio_track) (idx : Z)
    : list (list cell) :=
  match file_audio_tracks with
  | [] => []
  | track :: rest =>
      let values := values (renamed track) in
      (if idx =? 0 then values else <[ 0%nat := Text "" ]> values)
        :: file_rows rest (idx + 1)
  end.

(** Lines 345-362. *)
Fixpoint table_rows (audio_tracks_by_file : list (string * list audio_track))
    (file_idx : Z) : list (list cell) :=
  match audio_tracks_by_file with
  | [] => []
  | (file_key, file_audio_tracks) :: rest =>
      (if 0 <? file_idx then [separator_row] else [])
        ++ file_rows file_audio_tracks 0
        ++ table_rows rest (file_idx + 1)
  end.

Section WithRenderer.

(** The text of a [PrettyTable] with the field names and alignments of
    lines 332-334 and the given rows. *)
Variable render : list (list cell) -> string.

(** Lines 330-364. The track dictionaries are those of the caller's
    list, so the update of line 357 is seen there: the result is that
    list as the call leaves it. *)
Definition print_audio_track_table (audio_tracks : list audio_track)
    : M (list audio_track) :=
  let audio_tracks_by_file := group_by FullFilePath audio_tracks in
  Os.print (render (table_rows audio_tracks_by_file 0));;
  mret (renamed <$> audio_tracks).

End WithRenderer.

End Table.

(** ** The command line *)

(** The attributes of the parsed arguments that [main] reads. *)
Record namespace := {
  arg_directory : string;
  arg_show_errors : bool;
  arg_track_number : option Z;
  arg_no_unknown : bool;
  arg_only_unknown : bool;
  arg_foreign_only : bool;
  arg_exclude_same : bool;
  arg_only_same : bool;
  arg_no_output : bool;
  arg_no_delete : bool;
  arg_ffmpeg_folder : string;
  arg_work : bool;
  arg_wrong_language : bool
}.

Module Main.

(** Line 454. *)
Definition movie_extensions : list string :=
  ["mkv"; "mp4"; "avi"; "mov"; "wmv"; "flv"; "m4v"; "m2ts"; "iso"].

(** [for error in errors: print(error)]. *)
Fixpoint print_all (lines : list string) : M unit :=
  match lines with
  | [] => mret tt
  | line :: rest => Os.print line;; print_all rest
  end.

(** Lines 484-489, the [while True] loop; the answer is returned as it
    was typed. [lines] bounds the number of rounds. *)
Fixpoint ask_delete (lines : list string) : M string :=
  delete_tracks ←
    Os.input "Do you want to proceed with deleting tracks? (Y/N): ";
  if bool_decide (PyStr.lower delete_tracks ∈ ["y"; "n"])
  then mret delete_tracks
  else
    Os.print "Invalid input. Please enter either Y or N.";;
    match lines with
    | [] => lift (Raise EOFError)
    | _ :: rest => ask_delete rest
    end.

Section WithEnvironment.

Variable os_walk : string -> list walk_entry.
Variable ffprobe : string -> string + probe.
Variable ffmpeg : string -> gmap string Z -> Z * gmap string Z.
Variable pretty_table : list audio_track -> string.
Variable render : list (list cell) -> string.
Variable test_api_key : string -> bool.
Variable languages_get : option string -> result (option string).
Variable external : string -> result (list Z).
Variable details : Z + string -> result (option string).

(** Lines 28-120: the extraction loop, then the error lines under
    [show_errors] and the metadata mode under [work], whose result is
    dropped. *)
Definition get_audio_track_info (a : args) (ffmpeg_folder : string)
    : M (list audio_track * list string) :=
  let '(audio_tracks, errors) := Extractor.get_audio_track_info ffprobe a in
  (if show_errors a then print_all errors else mret tt);;
  (if work a then
     Metadata.TMDB_pull_language ffmpeg test_api_key languages_get
       external details audio_tracks ffmpeg_folder (wrong_language a);;
     mret tt
   else mret tt);;
  mret (audio_tracks, errors).

(** Lines 472-477: the table and the errors; the track list is returned
    as the table printer leaves it. *)
Definition show_output (ns : namespace) (audio_tracks : list audio_track)
    (errors : list string) : M (list audio_track) :=
  if negb (arg_no_output ns) then
    audio_tracks ← Table.print_audio_track_table render audio_tracks;
    (if arg_show_errors ns && negb (bool_decide (errors = [])) then
       Os.print (nl +:+ "Errors encountered during processing:");;
       print_all errors
     else mret tt);;
    mret audio_tracks
  else mret audio_tracks.

(** Lines 454-498, from the parsed arguments. *)
Definition main (ns : namespace) : M unit :=
  movie_files ←
    Finder.get_movie_files os_walk (arg_directory ns) movie_extensions;
  let audio_track_args :=
    {| movie_files := movie_files;
       show_errors := arg_show_errors ns;
       exclude_same := arg_exclude_same ns;
       only_same := arg_only_same ns;
       track_number := arg_track_number ns;
       no_unknown := arg_no_unknown ns;
       only_unknown := arg_only_unknown ns;
       foreign_only := arg_foreign_only ns;
       work := arg_work ns;
       wrong_language := arg_wrong_language ns |} in
  '(audio_tracks, errors) ←
    get_audio_track_info audio_track_args (arg_ffmpeg_folder ns);
  if negb (arg_work ns) then
    audio_tracks ← show_output ns audio_tracks errors;
    if arg_no_delete ns then
      if arg_no_output ns then Os.print "Why would you do this?"
      else mret tt
    else
      delete_tracks ← (fun w => ask_delete (stdin w) w);
      if bool_decide (PyStr.lower delete_tracks = "y") then
        let audio_tracks_by_file := Table.group_by File audio_tracks in
        Executor.delete_tracks_from_files ffmpeg pretty_table
          audio_tracks_by_file (arg_directory ns) (arg_ffmpeg_folder ns)
      else mret tt
  else mret tt.

End WithEnvironment.

End Main.

(** ** More sample inputs *)

Module Cases.

Definition filters (exclude only : bool) (number : option Z)
    (hide_unknown unknown_only : bool) (files : list string) : args :=
  {| movie_files := files;
     show_errors := false;
     exclude_same := exclude;
     only_same := only;
     track_number := number;
     no_unknown := hide_unknown;
     only_unknown := unknown_only;
     foreign_only := false;
     work := false;
     wrong_language := false |}.

(** A file whose second audio stream lacks its codec name. *)
Definition damaged : string := "/m/Damaged.mkv".
Definition nameless : stream :=
  {| index := Some 2;
     codec_type := "audio";
     codec_name := None;
     channels := Some 2;
     sample_rate := Some "48000";
     bit_rate := None;
     tags := None |}.
Definition damaged_probe : probe :=
  {| streams := [Sample.other 0 "video" "h264";
                 Sample.audio 1 (Some "eng") "aac" None;
                 nameless;
                 Sample.audio 3 (Some "fre") "aac" None];
     duration := 3600 |}.

Definition ffprobe (movie_file : string) : string + probe :=
  if bool_decide (movie_file = damaged) then inr damaged_probe
  else Sample.ffprobe movie_file.

(** A language table and a movie service that know two films. *)
Definition languages_get (iso_639_1 : option string)
    : result (option string) :=
  Ok (code ← iso_639_1;
      if bool_decide (code = "zh") then Some "zho"
      else if bool_decide (code = "en") then Some "eng"
      else None).

Definition external (movie_id : string) : result (list Z) := Ok [].

Definition details (movie_id : Z + string) : result (option string) :=
  Ok (if bool_decide (movie_id = inr "79") then Some "zh"
      else if bool_decide (movie_id = inr "949") then Some "en"
      else None).

Definition test_api_key (api_key : string) : bool :=
  bool_decide (api_key = "secret").

Definition track (file : string) (idx : Z) (language : string)
    : audio_track :=
  {| File := file;
     FullFilePath := file;
     Track := idx;
     Language := language;
     Format := "ac3";
     Channels := 6;
     Bitrate := "448 Kbps";
     Title := "";
     Size := "N/A" |}.

(** A Chinese film with one audio track tagged [zho] and one tagged
    [chi]. *)
Definition hero : string := "/m/Hero {tmdb-79}.mkv".
Definition hero_tracks : list audio_track :=
  [track hero 1 "zho"; track hero 2 "chi"].
Definition hero_data : movie_data :=
  {| md_File := "Hero {tmdb-79}.mkv";
     md_FullFilePath := hero;
     md_movie_id := "79";
     md_original_language := None |}.

(** A film whose identifier is in the name of its directory. *)
Definition alien : string := "/m/Alien {tmdb-348}/film.mkv".

(** The two tracks of the sample film and its plan. *)
Definition film_eng : audio_track :=
  {| File := Sample.film;
     FullFilePath := Sample.film;
     Track := 2;
     Language := "eng";
     Format := "aac";
     Channels := 2;
     Bitrate := "~96 Kbps";
     Title := "";
     Size := "41.20 MB" |}.
Definition film_fre : audio_track :=
  {| File := Sample.film;
     FullFilePath := Sample.film;
     Track := 3;
     Language := "fre";
     Format := "ac3";
     Channels := 2;
     Bitrate := "448 Kbps";
     Title := "";
     Size := "192.26 MB" |}.

(** A remux tool that cannot be started: the shell reports status 127
    and no file is written. *)
Definition absent_ffmpeg (cmd : string) (files : gmap string Z)
    : Z * gmap string Z :=
  (127, files).

(** A file whose base name has 81 characters. *)
Definition long_file : string :=
  "/m/The Assassination of Jesse James by the Coward Robert Ford "
    +:+ "(2007) {tmdb-4512}.mkv".

(** A directory with one film and one text file. *)
Definition os_walk (path : string) : list walk_entry :=
  [{| root := "/m";
      dirnames := [];
      filenames := ["Heat {tmdb-949}.mkv"; "notes.txt"] |}].

Definition render (rows : list (list cell)) : string := "<table>".

(** The arguments [-d /m -ff /ff], with or without [-no] and [-nd]. *)
Definition listing (no_output no_delete : bool) : namespace :=
  {| arg_directory := "/m";
     arg_show_errors := false;
     arg_track_number := None;
     arg_no_unknown := false;
     arg_only_unknown := false;
     arg_foreign_only := false;
     arg_exclude_same := false;
     arg_only_same := false;
     arg_no_output := no_output;
     arg_no_delete := no_delete;
     arg_ffmpeg_folder := "/ff";
     arg_work := false;
     arg_wrong_language := false |}.

(** The superscript two, [U+00B2], as its two UTF-8 bytes, and an
    answer to the selection prompt made of it, a space and [s]. *)
Definition superscript_two : string :=
  String "194" (String "178" EmptyString).
Definition superscript_answer : string := superscript_two +:+ " s".

(** Two copies of a film under one name in two libraries. The first
    copy has a single audio track, in French; the second has a French
    and an English one. *)
Definition copy1 : string := "/lib1/Heat {tmdb-949}.mkv".
Definition copy1_temp : string := "/lib1/Heat {tmdb-949}_temp.mkv".
Definition copy2 : string := "/lib2/Heat {tmdb-949}.mkv".
Definition copy2_temp : string := "/lib2/Heat {tmdb-949}_temp.mkv".

Definition copies_tracks : list audio_track :=
  [track copy1 1 "fre"; track copy2 1 "fre"; track copy2 2 "eng"].

Definition copy_data (file : string) : movie_data :=
  {| md_File := "Heat {tmdb-949}.mkv";
     md_FullFilePath := file;
     md_movie_id := "949";
     md_original_language := Some (Some "eng") |}.

Definition copy_command (file temp map_options : string) : string :=
  dq +:+ "/ff/ffmpeg" +:+ dq +:+ " -i " +:+ dq +:+ file +:+ dq
     +:+ " -map 0 " +:+ map_options +:+ " -c copy "
     +:+ dq +:+ temp +:+ dq.

(** A remux tool that succeeds on the two copies: it writes the
    temporary file the command names, 40 MiB large for the first copy
    and 110 MiB for the second. *)
Definition copies_ffmpeg (cmd : string) (files : gmap string Z)
    : Z * gmap string Z :=
  if bool_decide (cmd = copy_command copy1 copy1_temp "-map -0:a:0")
  then (0, <[ copy1_temp := 40 * Sample.mib ]> files)
  else if bool_decide (cmd = copy_command copy2 copy2_temp "-map -0:a:0")
  then (0, <[ copy2_temp := 110 * Sample.mib ]> files)
  else (1, files).

Definition copies_world (lines : list string) : world :=
  {| fs := {[ copy1 := 100 * Sample.mib; copy2 := 120 * Sample.mib ]};
     stdin := lines;
     stdout := [];
     shell := [] |}.



End Cases.

(** ** Frame conditions *)

(** The world after some lines have been written. *)
Definition printed (w : world) (lines : list string) : world :=
  {| fs := fs w; stdin := stdin w;
     stdout := stdout w ++ lines; shell := shell w |}.

(** A computation that leaves the files alone and runs no command,
    whether it returns or raises. *)
Definition read_only {A} (m : M A) : Prop :=
  forall w, fs (m w).2 = fs w /\ shell (m w).2 = shell w.

(** A computation that returns and does nothing but write to standard
    output. *)
Definition prints_only {A} (m : M A) : Prop :=
  forall w, exists a lines, m w = (Ok a, printed w lines).

(** The groups hold, key by key, the elements of [l] with that key, in
    the order of [l]. *)
Definition grouped {A} (key : A -> string) (l : list A)
    (groups : list (string * list A)) : Prop :=
  NoDup groups.*1
  /\ (forall k xs, (k, xs) ∈ groups ->
        xs <> [] /\ xs = filter (fun x => key x = k) l)
  /\ (forall x, x ∈ l -> key x ∈ groups.*1).

(** ** Answers to the selection prompt *)

(** A word that the test of line 391 can look at without raising: when
    [isdigit] passes it, [int] reads it. *)
Definition readable (track : string) : Prop :=
  PyStr.isdigit track = true -> exists n, PyStr.int track = Ok n.

(** A word that passes the test: digits whose value is the number of a
    listed track. *)
Definition listed (valid_tracks : list Z) (track : string) : Prop :=
  PyStr.isdigit track = true
  /\ exists n, PyStr.int track = Ok n /\ n ∈ valid_tracks.

(** The test of line 391 meets a word that [isdigit] passes and [int]
    refuses with [e], every word before it being listed. *)
Definition meets_unreadable (valid_tracks : list Z)
    (tracks_to_delete : list string) (e : exn) : Prop :=
  exists pre track post,
    tracks_to_delete = pre ++ track :: post
    /\ Forall (listed valid_tracks) pre
    /\ PyStr.isdigit track = true
    /\ PyStr.int track = Raise e.
(** * Properties *)

(** ** The extractor *)

Section ExtractorFacts.

Import Extractor.

Variable ffprobe : string -> string + probe.

Lemma stream_tracks_acc a movie_file d ss acc :
  stream_tracks a movie_file d ss acc
  = (acc ++ (stream_tracks a movie_file d ss []).1,
     (stream_tracks a movie_file d ss []).2).
Proof.
  revert acc. induction ss as [|s ss IH]; intros acc; simpl.
  - by rewrite app_nil_r.
  - destruct (stream_track a movie_file d s) as [[t|]|e]; simpl.
    + rewrite (IH (acc ++ [t])), (IH [t]). simpl.
      by rewrite <- app_assoc.
    + apply IH.
    + by rewrite app_nil_r.
Qed.

(** A file only appends to the two lists. *)
Lemma file_step_acc a tracks errors movie_file :
  file_step ffprobe a (tracks, errors) movie_file
  = (tracks ++ (file_step ffprobe a ([], []) movie_file).1,
     errors ++ (file_step ffprobe a ([], []) movie_file).2).
Proof.
  unfold file_step.
  destruct (ffprobe movie_file) as [msg|info]; simpl;
    [by rewrite app_nil_r|].
  repeat case_match; simpl; rewrite ?app_nil_r; try reflexivity.
  all: match goal with
       | H : stream_tracks _ _ _ _ ?t = _,
         H' : stream_tracks _ _ _ _ [] = _ |- _ =>
           rewrite stream_tracks_acc, H' in H; simpl in H;
           by simplify_eq
       end.
Qed.


Lemma scan_files_app a pre post st :
  scan_files ffprobe a (pre ++ post) st
  = scan_files ffprobe a post (scan_files ffprobe a pre st).
Proof. unfold scan_files. apply fold_left_app. Qed.




(** What an appended track was built from. *)
Lemma stream_track_inv a movie_file d s t :
  stream_track a movie_file d s = Ok (Some t) ->
  exists codec ch sr rate bitrate bitrate_str idx,
    codec_name s = Some codec /\ channels s = Some ch
    /\ sample_rate s = Some sr /\ PyStr.int sr = Ok rate
    /\ stream_bitrate s codec ch rate = Ok (bitrate, bitrate_str)
    /\ index s = Some idx
    /\ t = {| File := movie_file;
              FullFilePath := movie_file;
              Track := idx;
              Language := tag_get "language" "unknown" s;
              Format := codec;
              Channels := ch;
              Bitrate := bitrate_str;
              Title := PyStr.take 40 (tag_get "title" "" s);
              Size := track_size_str bitrate d |}.
Proof.
  unfold stream_track. intros H.
  destruct (no_unknown a && _); [done|].
  destruct (only_unknown a && _); [done|].
  destruct (codec_name s) as [codec|]; [|done].
  destruct (channels s) as [ch|]; [|done].
  destruct (sample_rate s) as [sr|]; [|done]. simpl in H.
  destruct (PyStr.int sr) as [rate|] eqn:Hrate; [|done]. simpl in H.
  destruct (stream_bitrate s codec ch rate) as [[bitrate bitrate_str]|]
    eqn:Hb; [|done]. simpl in H.
  destruct (index s) as [idx|]; [|done]. simpl in H.
  exists codec, ch, sr, rate, bitrate, bitrate_str, idx.
  by simplify_eq.
Qed.

Lemma stream_track_path a movie_file d s t :
  stream_track a movie_file d s = Ok (Some t) -> FullFilePath t = movie_file.
Proof.
  intros (? & ? & ? & ? & ? & ? & ? & _ & _ & _ & _ & _ & _ & ->)
    %stream_track_inv.
  done.
Qed.

Lemma stream_tracks_paths a movie_file d ss t :
  t ∈ (stream_tracks a movie_file d ss []).1 -> FullFilePath t = movie_file.
Proof.
  induction ss as [|s ss IH]; simpl; [by intros ?%elem_of_nil|].
  destruct (stream_track a movie_file d s) as [[t'|]|e] eqn:Hs; simpl.
  - rewrite stream_tracks_acc. simpl.
    intros [->|?]%elem_of_cons; [|by auto].
    by eapply stream_track_path.
  - done.
  - by intros ?%elem_of_nil.
Qed.

(** The tracks a file adds carry its path, and under [foreign_only] the
    file went through the gate of line 67. *)
Lemma file_step_tracks a movie_file t :
  t ∈ (file_step ffprobe a ([], []) movie_file).1 ->
  FullFilePath t = movie_file
  /\ exists info, ffprobe movie_file = inr info
       /\ (foreign_only a = true ->
           has_eng_track (audio_streams_of info) = false).
Proof.
  unfold file_step.
  destruct (ffprobe movie_file) as [msg|info]; simpl;
    [by intros ?%elem_of_nil|].
  repeat (case_match; simpl; try by intros ?%elem_of_nil).
  all: match goal with
       | H : stream_tracks _ _ _ _ [] = (?l, _) |- _ ∈ ?l -> _ =>
           intros Ht; split;
           [ eapply stream_tracks_paths; by rewrite H
           | eexists; split; [done|] ]
       end.
  all: intros Hfo;
    match goal with
    | H : negb (foreign_only _) || _ = true |- _ =>
        rewrite Hfo in H; simpl in H;
        apply andb_prop in H as [H _]; by apply negb_true_iff in H
    end.
Qed.

Lemma scan_files_tracks a files t :
  t ∈ (scan_files ffprobe a files ([], [])).1 ->
  exists movie_file,
    movie_file ∈ files /\ t ∈ (file_step ffprobe a ([], []) movie_file).1.
Proof.
  induction files as [|f files IH] using rev_ind.
  - by intros ?%elem_of_nil.
  - rewrite scan_files_app.
    destruct (scan_files ffprobe a files ([], [])) as [t1 e1].
    unfold scan_files at 1. cbn [fold_left]. rewrite file_step_acc.
    cbn [fst]. intros [Ht|Ht]%elem_of_app.
    + destruct (IH Ht) as (f' & ? & ?). exists f'. split; [|done].
      apply elem_of_app. by left.
    + exists f. split; [|done]. apply elem_of_app. right.
      by apply list_elem_of_singleton.
Qed.

(** C4: under [foreign_only], every track of the output belongs to a file
    that was probed successfully and none of whose audio streams carries
    a language tag that is English once lower-cased, whatever the case of
    the tag in the probe document. *)
Theorem C4_foreign_only_has_no_english_file a t :
  foreign_only a = true ->
  t ∈ (get_audio_track_info ffprobe a).1 ->
  exists info,
    ffprobe (FullFilePath t) = inr info
    /\ forall s language,
         s ∈ streams info -> codec_type s = "audio" ->
         tags s ≫= (.!! "language") = Some language ->
         ~ english_equivalent language.
Proof.
  intros Hfo Ht. unfold get_audio_track_info in Ht.
  apply scan_files_tracks in Ht as (f & _ & Ht).
  apply file_step_tracks in Ht as (-> & info & Hp & Heng).
  exists info. split; [done|]. intros s language Hs Haudio Htag Hen.
  specialize (Heng Hfo). unfold has_eng_track in Heng.
  apply not_true_iff_false in Heng. apply Heng.
  apply existsb_exists. exists s. split.
  - apply list_elem_of_In. unfold audio_streams_of.
    by apply list_elem_of_filter.
  - apply bool_decide_eq_true. unfold tag_get.
    destruct (tags s) as [tg|]; simpl in *; [|done].
    by rewrite Htag.
Qed.

End ExtractorFacts.

(** Under [foreign_only] the dubbed film, whose English stream is tagged
    [ENG], passes the gate of line 53 and is stopped at line 67; the French
    film is listed. *)
Example foreign_only_upper_case_tag :
  Extractor.has_eng_exact (Extractor.audio_streams_of Sample.dubbed_probe)
  = false
  /\ Extractor.get_audio_track_info Sample.ffprobe
       (Sample.foreign [Sample.dubbed; Sample.amelie])
     = ([Sample.amelie_track], []).
Proof. split; vm_compute; reflexivity. Qed.

Lemma C4_foreign_only_has_no_english_file_witness :
  foreign_only (Sample.foreign [Sample.dubbed; Sample.amelie]) = true
  /\ Sample.amelie_track
       ∈ (Extractor.get_audio_track_info Sample.ffprobe
            (Sample.foreign [Sample.dubbed; Sample.amelie])).1
  /\ exists info,
       Sample.ffprobe (FullFilePath Sample.amelie_track) = inr info
       /\ forall s language,
            s ∈ streams info -> codec_type s = "audio" ->
            tags s ≫= (.!! "language") = Some language ->
            ~ english_equivalent language.
Proof.
  assert (Hin : Sample.amelie_track
                  ∈ (Extractor.get_audio_track_info Sample.ffprobe
                       (Sample.foreign [Sample.dubbed; Sample.amelie])).1).
  { replace (Extractor.get_audio_track_info Sample.ffprobe
               (Sample.foreign [Sample.dubbed; Sample.amelie]))
      with ([Sample.amelie_track], @nil string)
      by (vm_compute; reflexivity).
    apply list_elem_of_singleton. reflexivity. }
  split; [reflexivity|]. split; [exact Hin|].
  exact (C4_foreign_only_has_no_english_file Sample.ffprobe
           (Sample.foreign [Sample.dubbed; Sample.amelie])
           Sample.amelie_track eq_refl Hin).
Defined.

(** ** The attributes of a track *)

Section TrackFacts.

Import Extractor.




(** The three bit-rate rules of lines 81-89. *)
Lemma stream_bitrate_declared s codec ch rate br b :
  bit_rate s = Some br -> PyStr.int br = Ok b ->
  stream_bitrate s codec ch rate
  = Ok (Some b, PyStr.str (b / 1000) +:+ " Kbps").
Proof. unfold stream_bitrate. by intros -> ->. Qed.

Lemma stream_bitrate_aac s codec ch rate :
  bit_rate s = None -> PyStr.lower codec = "aac" ->
  stream_bitrate s codec ch rate
  = Ok (Some (ch * rate), "~" +:+ PyStr.str (ch * rate / 1000) +:+ " Kbps").
Proof.
  unfold stream_bitrate. intros -> H. by rewrite bool_decide_eq_true_2.
Qed.

Lemma stream_bitrate_absent s codec ch rate :
  bit_rate s = None -> PyStr.lower codec <> "aac" ->
  stream_bitrate s codec ch rate = Ok (None, "N/A").
Proof.
  unfold stream_bitrate. intros -> H. by rewrite bool_decide_eq_false_2.
Qed.

Lemma string_length_app (s1 s2 : string) :
  String.length (s1 +:+ s2) = (String.length s1 + String.length s2)%nat.
Proof. induction s1 as [|c s1 IH]; simpl; [done|]. by rewrite IH. Qed.

(** The size is shown exactly for the bit rates that are neither absent
    nor zero (line 93). *)
Lemma track_size_str_present bitrate d :
  track_size_str bitrate d <> "N/A"
  <-> exists b, bitrate = Some b /\ b <> 0.
Proof.
  unfold track_size_str, truthy. destruct bitrate as [b|].
  - destruct (Z.eqb_spec b 0) as [->|Hb]; simpl.
    + split; [done|]. by intros (b & [= <-] & ?).
    + split; [by exists b|]. intros _ H.
      apply (f_equal String.length) in H.
      rewrite string_length_app in H. simpl in H.
      destruct (PyStr.format_2f (track_size b d)) as [|c r] eqn:Hf;
        [|simpl in H; lia].
      unfold PyStr.format_2f in Hf.
      apply (f_equal String.length) in Hf.
      rewrite !string_length_app in Hf. simpl in Hf. lia.
  - split; [done|]. by intros (b & [=] & _).
Qed.

(** The size of line 94, in MB of 2^20 bytes, is bit rate times duration
    over 8 bytes. *)
Lemma track_size_bytes b d :
  (track_size b d * (1024 * 1024) == inject_Z b * d / 8)%Q.
Proof. unfold track_size. field. Qed.

(** C7, at a declared bit rate of zero: the bit rate is present (it is
    shown as [0 Kbps]) and the size is absent. *)
Theorem C7_zero_bit_rate_has_no_size :
  bit_rate Sample.upper_zero = Some "0"
  /\ stream_bitrate Sample.upper_zero "ac3" 2 48000
     = Ok (Some 0, "0 Kbps")
  /\ track_size_str (Some 0) 3600%Q = "N/A"
  /\ stream_track (Sample.no_filter []) Sample.film 3600%Q
                  Sample.upper_zero
     = Ok (Some Sample.upper_zero_track)
  /\ Bitrate Sample.upper_zero_track = "0 Kbps"
  /\ Size Sample.upper_zero_track = "N/A".
Proof. repeat split; vm_compute; reflexivity. Qed.

(** A file with one audio stream is all of one language. *)
Lemma all_same_language_single s : all_same_language [s] = true.
Proof.
  unfold all_same_language. apply bool_decide_eq_true.
  cbn [fmap list_fmap]. rewrite list_to_set_singleton_L.
  apply size_singleton.
Qed.

(** C8, at a file with an untagged stream and a stream tagged [unknown]:
    both have the language code [unknown], so the set of codes has one
    element, yet the code classifies the file as not all of one language,
    because it reads the missing tag as the empty string. *)
Theorem C8_untagged_differs_from_unknown :
  Spec.language_code <$> Sample.untagged_and_unknown
  = ["unknown"; "unknown"]
  /\ Spec.all_same_language Sample.untagged_and_unknown = true
  /\ all_same_language Sample.untagged_and_unknown = false.
Proof. repeat split; vm_compute; reflexivity. Qed.

End TrackFacts.

(** ** The deletion planner *)

Section PlannerFacts.

Import Planner.

Lemma partition_tracks_spec ol tracks del keep :
  partition_tracks ol tracks del keep
  = (del ++ (label <$> filter (fun t => Some (Language t) <> ol) tracks),
     keep ++ (label <$> filter (fun t => Some (Language t) = ol) tracks)).
Proof.
  revert del keep. induction tracks as [|t tracks IH]; intros del keep.
  - by rewrite !app_nil_r.
  - cbn [partition_tracks]. case_bool_decide as Ht; rewrite IH.
    + rewrite filter_cons_True, filter_cons_False by done.
      by rewrite fmap_cons, <- app_assoc.
    + rewrite filter_cons_False, filter_cons_True by (done || by auto).
      by rewrite fmap_cons, <- app_assoc.
Qed.

(** Every track of the file is in exactly one of the two lists. *)
Lemma partition_tracks_length ol tracks :
  (length (filter (fun t => Some (Language t) <> ol) tracks)
   + length (filter (fun t => Some (Language t) = ol) tracks)
   = length tracks)%nat.
Proof.
  induction tracks as [|t tracks IH]; [done|].
  destruct (decide (Some (Language t) = ol)) as [Ht|Ht].
  - rewrite filter_cons_False, filter_cons_True by (done || by auto).
    simpl. lia.
  - rewrite filter_cons_True, filter_cons_False by done. simpl. lia.
Qed.

Lemma plan_file_cases audio_tracks md :
  match plan_file audio_tracks md with
  | Raise e => md_original_language md = None
  | Ok None =>
      exists ol, md_original_language md = Some ol
        /\ filter (fun t => Some (Language t) = ol)
                  (tracks_of_file audio_tracks md) = []
  | Ok (Some s) =>
      file_name s = md_File md
      /\ md_original_language md = Some (original_language s)
      /\ tracks_to_delete s
         = label <$> filter (fun t => Some (Language t)
                                       <> original_language s)
                            (tracks_of_file audio_tracks md)
      /\ tracks_to_keep s
         = label <$> filter (fun t => Some (Language t)
                                       = original_language s)
                            (tracks_of_file audio_tracks md)
      /\ tracks_to_keep s <> []
  end.
Proof.
  unfold plan_file. destruct (md_original_language md) as [ol|]; [|done].
  simpl. rewrite partition_tracks_spec. simpl.
  destruct (filter (fun t => Some (Language t) = ol) _) as [|t l] eqn:Hk.
  - simpl. by exists ol.
  - simpl. by rewrite Hk.
Qed.

Lemma plan_files_acc audio_tracks mds acc :
  plan_files audio_tracks mds acc
  = (rest ← plan_files audio_tracks mds []; Ok (acc ++ rest)).
Proof.
  revert acc. induction mds as [|md mds IH]; intros acc; simpl.
  - by rewrite app_nil_r.
  - destruct (plan_file audio_tracks md) as [s|e]; simpl; [|done].
    rewrite IH, (IH (option_list s)).
    destruct (plan_files audio_tracks mds []) as [rest|e]; simpl; [|done].
    by rewrite app_assoc.
Qed.

Lemma plan_files_cons audio_tracks md mds :
  plan_files audio_tracks (md :: mds) []
  = (s ← plan_file audio_tracks md;
     rest ← plan_files audio_tracks mds [];
     Ok (option_list s ++ rest)).
Proof.
  simpl. destruct (plan_file audio_tracks md) as [s|e]; simpl; [|done].
  apply plan_files_acc.
Qed.

Lemma plan_files_app audio_tracks pre post :
  plan_files audio_tracks (pre ++ post) []
  = (s1 ← plan_files audio_tracks pre [];
     s2 ← plan_files audio_tracks post [];
     Ok (s1 ++ s2)).
Proof.
  induction pre as [|md pre IH].
  - simpl. by destruct (plan_files audio_tracks post []).
  - rewrite <- app_comm_cons, !plan_files_cons, IH.
    destruct (plan_file audio_tracks md) as [s|e]; simpl; [|done].
    destruct (plan_files audio_tracks pre []) as [s1|e]; simpl; [|done].
    destruct (plan_files audio_tracks post []) as [s2|e]; simpl; [|done].
    by rewrite app_assoc.
Qed.

(** The planning loop returns a batch whenever every file carries its
    [original_language] key. *)
Lemma plan_files_total audio_tracks mds :
  Forall (fun md => is_Some (md_original_language md)) mds ->
  exists file_summary, plan_files audio_tracks mds [] = Ok file_summary.
Proof.
  induction 1 as [|md mds [ol Hol] _ [rest IH]]; [by exists []|].
  rewrite plan_files_cons, IH.
  pose proof (plan_file_cases audio_tracks md) as Hc.
  destruct (plan_file audio_tracks md) as [s|e]; simpl; [by eauto|].
  congruence.
Qed.

Lemma plan_files_elem audio_tracks mds file_summary s :
  plan_files audio_tracks mds [] = Ok file_summary ->
  s ∈ file_summary ->
  exists md, md ∈ mds /\ plan_file audio_tracks md = Ok (Some s).
Proof.
  revert file_summary.
  induction mds as [|md mds IH]; intros file_summary.
  - intros [= <-] ?%elem_of_nil. done.
  - rewrite plan_files_cons.
    destruct (plan_file audio_tracks md) as [o|e] eqn:Hmd; simpl; [|done].
    destruct (plan_files audio_tracks mds []) as [rest|e]; simpl; [|done].
    intros [= <-] [Hs|Hs]%elem_of_app.
    + exists md. split; [by left|].
      destruct o; simpl in Hs; [|by apply elem_of_nil in Hs].
      by apply list_elem_of_singleton in Hs as ->.
    + destruct (IH rest eq_refl Hs) as (md' & ? & ?).
      exists md'. split; [by right|done].
Qed.

(** A file none of whose tracks is in the original language gets no
    plan. *)
Lemma plan_file_none audio_tracks md ol :
  md_original_language md = Some ol ->
  Forall (fun t => Some (Language t) <> ol)
         (tracks_of_file audio_tracks md) ->
  plan_file audio_tracks md = Ok None.
Proof.
  intros Hol Hall. unfold plan_file. rewrite Hol. simpl.
  rewrite partition_tracks_spec. simpl.
  replace (filter (fun t => Some (Language t) = ol) _)
    with (@nil audio_track); [done|].
  induction Hall as [|t l Ht _ IH]; [done|].
  by rewrite filter_cons_False.
Qed.

(** The planning loop alone: every plan of the batch keeps at least one
    track; it belongs to an entry of the input, deletes the tracks
    selected for that entry whose language differs from the original
    language, keeps the others, and so deletes fewer tracks than were
    selected. An entry all of whose tracks differ from the original
    language, in particular one whose original language is absent, is
    left out of the plan: the plan is the one made without it. (Which
    file a plan is then applied to is another matter: the loop that
    applies the plans selects the tracks by base name.) *)
Lemma plans_keep_a_track
    audio_tracks movie_data_list file_summary :
  plan_files audio_tracks movie_data_list [] = Ok file_summary ->
  (forall s, s ∈ file_summary ->
     tracks_to_keep s <> []
     /\ exists md,
         md ∈ movie_data_list
         /\ file_name s = md_File md
         /\ md_original_language md = Some (original_language s)
         /\ tracks_to_delete s
            = label <$> filter (fun t => Some (Language t)
                                          <> original_language s)
                               (tracks_of_file audio_tracks md)
         /\ tracks_to_keep s
            = label <$> filter (fun t => Some (Language t)
                                          = original_language s)
                               (tracks_of_file audio_tracks md)
         /\ (length (tracks_to_delete s)
             < length (tracks_of_file audio_tracks md))%nat)
  /\ (forall pre md post ol,
        movie_data_list = pre ++ md :: post ->
        md_original_language md = Some ol ->
        Forall (fun t => Some (Language t) <> ol)
               (tracks_of_file audio_tracks md) ->
        plan_files audio_tracks (pre ++ post) [] = Ok file_summary)
  /\ (forall pre md post,
        movie_data_list = pre ++ md :: post ->
        md_original_language md = Some None ->
        plan_files audio_tracks (pre ++ post) [] = Ok file_summary).
Proof.
  intros Hplan.
  assert (Hout : forall pre md post ol,
             movie_data_list = pre ++ md :: post ->
             md_original_language md = Some ol ->
             Forall (fun t => Some (Language t) <> ol)
                    (tracks_of_file audio_tracks md) ->
             plan_files audio_tracks (pre ++ post) [] = Ok file_summary).
  { intros pre md post ol -> Hol Hall.
    rewrite plan_files_app, plan_files_cons in Hplan.
    rewrite (plan_file_none _ _ _ Hol Hall) in Hplan.
    rewrite plan_files_app.
    destruct (plan_files audio_tracks pre []) as [s1|e]; [|done].
    by destruct (plan_files audio_tracks post []) as [s2|e]. }
  split; [|split; [exact Hout|]].
  - intros s Hs.
    destruct (plan_files_elem _ _ _ _ Hplan Hs) as (md & Hmd & Hs').
    pose proof (plan_file_cases audio_tracks md) as Hc.
    rewrite Hs' in Hc. destruct Hc as (Hn & Hol & Hdel & Hkeep & Hne).
    split; [done|]. exists md. repeat split; try done.
    rewrite Hdel, length_fmap.
    pose proof (partition_tracks_length (original_language s)
                  (tracks_of_file audio_tracks md)) as Hlen.
    assert (length (tracks_to_keep s) <> 0%nat) as Hk
      by (by destruct (tracks_to_keep s)).
    rewrite Hkeep, length_fmap in Hk. lia.
  - intros pre md post Hlist Hol.
    eapply Hout; [done..|]. by apply Forall_forall.
Qed.

Lemma plans_keep_a_track_witness :
  plan_files Sample.film_tracks [Sample.film_data] []
  = Ok [{| file_name := "Heat {tmdb-949}.mkv";
           original_language := Some "eng";
           tracks_to_delete := ["3(fre)"];
           tracks_to_keep := ["2(eng)"] |}]
  /\ forall s,
      s ∈ [{| file_name := "Heat {tmdb-949}.mkv";
              original_language := Some "eng";
              tracks_to_delete := ["3(fre)"];
              tracks_to_keep := ["2(eng)"] |}] ->
      tracks_to_keep s <> [].
Proof.
  split; [vm_compute; reflexivity|].
  intros s Hs.
  apply (proj1 (plans_keep_a_track
                  Sample.film_tracks [Sample.film_data] _
                  ltac:(vm_compute; reflexivity)) s Hs).
Defined.

End PlannerFacts.

(** ** The selection prompt of the manual mode *)

Section SelectionFacts.

Import Executor.

Lemma digits_go_digits s acc :
  PyStr.all_digits s = true -> is_Some (PyStr.digits_go s acc).
Proof.
  revert acc. induction s as [|c s IH]; intros acc; simpl; [by eauto|].
  intros [Hc Hs]%andb_prop. apply bool_decide_eq_true in Hc as [d ->].
  by apply IH.
Qed.

(** An ASCII digit is one byte; [isdigit] passes it and [int] reads it
    as its value. *)
Lemma digit_point c d :
  PyStr.digit_val c = Some d ->
  (PyStr.code c <? 128) = true
  /\ PyStr.int_char_of (PyStr.code c) = PyStr.Digit d
  /\ PyStr.isdigit_point (PyStr.code c) = true.
Proof.
  destruct c as [[] [] [] [] [] [] [] []]; try discriminate;
    intros [= <-]; vm_compute; done.
Qed.

(** An ASCII character is its own code point. *)
Lemma code_points_ascii c s :
  (PyStr.code c <? 128) = true ->
  PyStr.code_points (String c s) = PyStr.code c :: PyStr.code_points s.
Proof.
  intros Hc. unfold PyStr.code_points.
  cbn [PyStr.code_points_go]. by rewrite Hc.
Qed.

Lemma code_points_digit c d s :
  PyStr.digit_val c = Some d ->
  PyStr.code_points (String c s) = PyStr.code c :: PyStr.code_points s.
Proof. intros (Hc & _)%digit_point. by apply code_points_ascii. Qed.

Lemma digits_of_digits s acc count :
  PyStr.all_digits s = true ->
  PyStr.digits_of (PyStr.int_char_of <$> PyStr.code_points s)
                  false acc count
  = (fun value => (value, count + Z.of_nat (String.length s), []))
      <$> PyStr.digits_go s acc.
Proof.
  revert acc count. induction s as [|c s IH]; intros acc count.
  - intros _. cbn. do 3 f_equal. lia.
  - cbn [PyStr.all_digits]. intros [Hc Hs]%andb_prop.
    apply bool_decide_eq_true in Hc as [d Hd].
    rewrite (code_points_digit c d s Hd). cbn [fmap list_fmap].
    destruct (digit_point c d Hd) as (_ & -> & _).
    cbn [PyStr.digits_of PyStr.digits_go String.length]. rewrite Hd.
    rewrite (IH _ _ Hs).
    destruct (PyStr.digits_go s (10 * acc + d)); cbn; [|done].
    do 3 f_equal. lia.
Qed.

Lemma isdigit_ascii_digits s :
  PyStr.ascii_digits s = true -> PyStr.isdigit s = true.
Proof.
  assert (Hall : forall s, PyStr.all_digits s = true ->
                   forallb PyStr.isdigit_point (PyStr.code_points s)
                   = true).
  { clear s. induction s as [|c s IH]; [done|].
    cbn [PyStr.all_digits]. intros [Hc Hs]%andb_prop.
    apply bool_decide_eq_true in Hc as [d Hd].
    rewrite (code_points_digit c d s Hd). cbn [forallb].
    destruct (digit_point c d Hd) as (_ & _ & ->). by apply IH. }
  destruct s as [|c s]; [done|]. cbn [PyStr.ascii_digits]. intros Hs.
  specialize (Hall _ Hs). unfold PyStr.isdigit.
  cbn [PyStr.all_digits] in Hs. apply andb_prop in Hs as [Hc _].
  apply bool_decide_eq_true in Hc as [d Hd].
  by rewrite (code_points_digit c d s Hd) in *.
Qed.

(** [int] reads a text of at most 4300 ASCII digits as its decimal
    value. *)
Lemma int_ascii_digits s n :
  PyStr.ascii_digits s = true ->
  (String.length s <= 4300)%nat ->
  PyStr.digits_go s 0 = Some n ->
  PyStr.int s = Ok n.
Proof.
  destruct s as [|c s]; [done|]. cbn [PyStr.ascii_digits].
  intros Hs Hlen Hn.
  pose proof (digits_of_digits (String c s) 0 0 Hs) as Hrun.
  rewrite Hn in Hrun. cbn [fmap option_fmap option_map] in Hrun.
  cbn [PyStr.all_digits] in Hs. apply andb_prop in Hs as [Hc _].
  apply bool_decide_eq_true in Hc as [d Hd].
  unfold PyStr.int.
  rewrite (code_points_digit c d s Hd) in *.
  cbn [fmap list_fmap] in *.
  destruct (digit_point c d Hd) as (_ & Hdigit & _).
  rewrite Hdigit in *. cbn [PyStr.skip_spaces]. rewrite Hrun.
  unfold PyStr.max_str_digits.
  rewrite (proj2 (Z.ltb_ge _ _)) by lia.
  cbn [PyStr.skip_spaces]. f_equal. lia.
Qed.

(** [int] refuses a text of more than 4300 ASCII digits, which [isdigit]
    passes: such a word is not readable. *)
Lemma int_long_digits s :
  PyStr.ascii_digits s = true ->
  (4300 < String.length s)%nat ->
  PyStr.int s
  = Raise (ValueError
             ("Exceeds the limit (4300 digits) for integer string "
              +:+ "conversion: value has "
              +:+ pretty (Z.of_nat (String.length s))
              +:+ " digits; use sys.set_int_max_str_digits() to "
              +:+ "increase the limit")).
Proof.
  destruct s as [|c s]; [done|]. cbn [PyStr.ascii_digits].
  intros Hs Hlen.
  pose proof (digits_of_digits (String c s) 0 0 Hs) as Hrun.
  destruct (digits_go_digits (String c s) 0 Hs) as [n Hn].
  rewrite Hn, Z.add_0_l in Hrun.
  cbn [fmap option_fmap option_map] in Hrun.
  cbn [PyStr.all_digits] in Hs. apply andb_prop in Hs as [Hc _].
  apply bool_decide_eq_true in Hc as [d Hd].
  unfold PyStr.int.
  rewrite (code_points_digit c d s Hd) in *.
  cbn [fmap list_fmap] in *.
  destruct (digit_point c d Hd) as (_ & Hdigit & _).
  rewrite Hdigit in *. cbn [PyStr.skip_spaces]. rewrite Hrun.
  unfold PyStr.max_str_digits.
  by rewrite (proj2 (Z.ltb_lt _ _)) by lia.
Qed.

Lemma long_digits_not_readable s :
  PyStr.ascii_digits s = true ->
  (4300 < String.length s)%nat ->
  ~ readable s.
Proof.
  intros Hs Hlen Hr.
  destruct (Hr (isdigit_ascii_digits s Hs)) as [n Hn].
  by rewrite (int_long_digits s Hs Hlen) in Hn.
Qed.

(** Line 391 on an answer all of whose words are readable: the test
    returns. *)
Lemma all_valid_readable valid_tracks tracks_to_delete :
  Forall readable tracks_to_delete ->
  exists ok, all_valid valid_tracks tracks_to_delete = Ok ok.
Proof.
  induction 1 as [|track rest Hr _ [ok IH]]; simpl; [by eauto|].
  destruct (PyStr.isdigit track) eqn:Hd; [|by eauto].
  destruct (Hr Hd) as [n ->]. simpl.
  case_bool_decide; by eauto.
Qed.

(** Line 391: a readable selection with the token [s] is accepted
    whatever its other tokens are. *)
Lemma accepted_skip valid_tracks tracks_to_delete :
  "s" ∈ tracks_to_delete ->
  Forall readable tracks_to_delete ->
  accepted valid_tracks tracks_to_delete = Ok true.
Proof.
  intros Hs Hr. unfold accepted.
  destruct (all_valid_readable valid_tracks tracks_to_delete Hr)
    as [ok ->].
  simpl. rewrite bool_decide_eq_true_2 by done. by rewrite orb_true_r.
Qed.


End SelectionFacts.

(** ** The stream selection of a remux *)

Section SelectionDirectiveFacts.

Import Executor.

Lemma string_app_assoc (a b c : string) :
  (a +:+ b) +:+ c = a +:+ (b +:+ c).
Proof.
  induction a as [|x a IH]; [done|].
  change (String x ((a +:+ b) +:+ c) = String x (a +:+ (b +:+ c))).
  by rewrite IH.
Qed.

Lemma pretty_N_go_app x s : pretty_N_go x s = pretty_N_go x "" +:+ s.
Proof.
  revert s. induction (N.lt_wf_0 x) as [x _ IH]; intros s.
  destruct (decide (0 < x)%N) as [Hx|Hx].
  - rewrite !(pretty_N_go_step x) by done.
    rewrite IH by (by apply N.div_lt).
    rewrite (IH (x `div` 10)%N (N.div_lt x 10 Hx eq_refl)
                (String _ "")).
    by rewrite string_app_assoc.
  - assert (x = 0%N) as -> by lia. by rewrite !pretty_N_go_0.
Qed.

Lemma digit_val_pretty_N_char m :
  (m < 10)%N -> PyStr.digit_val (pretty_N_char m) = Some (Z.of_N m).
Proof.
  intros Hm.
  do 10 (destruct m as [|m] using N.peano_ind; [done|]); lia.
Qed.

Lemma all_digits_pretty_N_go x s :
  PyStr.all_digits s = true -> PyStr.all_digits (pretty_N_go x s) = true.
Proof.
  revert s. induction (N.lt_wf_0 x) as [x _ IH]; intros s Hs.
  destruct (decide (0 < x)%N) as [Hx|Hx].
  - rewrite pretty_N_go_step by done.
    apply IH; [by apply N.div_lt|]. simpl. rewrite Hs.
    rewrite digit_val_pretty_N_char by (by apply N.mod_lt).
    by rewrite bool_decide_eq_true_2.
  - assert (x = 0%N) as -> by lia. by rewrite pretty_N_go_0.
Qed.

Lemma digits_go_app a b acc :
  PyStr.digits_go (a +:+ b) acc
  = PyStr.digits_go a acc ≫= PyStr.digits_go b.
Proof.
  revert acc. induction a as [|c a IH]; intros acc; [done|].
  change (String c a +:+ b) with (String c (a +:+ b)). simpl.
  destruct (PyStr.digit_val c); [apply IH|done].
Qed.

Lemma digits_go_pretty_N_go x :
  PyStr.digits_go (pretty_N_go x "") 0 = Some (Z.of_N x).
Proof.
  induction (N.lt_wf_0 x) as [x _ IH].
  destruct (decide (0 < x)%N) as [Hx|Hx].
  - rewrite pretty_N_go_step, pretty_N_go_app, digits_go_app by done.
    rewrite IH by (by apply N.div_lt). simpl.
    rewrite digit_val_pretty_N_char by (by apply N.mod_lt).
    f_equal. rewrite (N.div_mod x 10) at 3 by done. lia.
  - by assert (x = 0%N) as -> by lia.
Qed.

Lemma pretty_pos_digits p :
  PyStr.ascii_digits (pretty (N.pos p)) = true
  /\ PyStr.digits_go (pretty (N.pos p)) 0 = Some (Z.pos p).
Proof.
  unfold pretty, pretty_N. rewrite decide_False by done.
  split; [|apply (digits_go_pretty_N_go (N.pos p))].
  pose proof (all_digits_pretty_N_go (N.pos p) "" eq_refl) as Hall.
  pose proof (digits_go_pretty_N_go (N.pos p)) as Hval.
  by destruct (pretty_N_go (N.pos p) "").
Qed.

Lemma string_app_length (a b : string) :
  String.length (a +:+ b) = (String.length a + String.length b)%nat.
Proof.
  induction a as [|x a IH]; [done|].
  change (String x a +:+ b) with (String x (a +:+ b)).
  cbn [String.length]. by rewrite IH.
Qed.

(** A number below [10 ^ k] is written with at most [k] digits. *)
Lemma pretty_N_go_length (k : nat) x :
  (x < 10 ^ N.of_nat k)%N ->
  (String.length (pretty_N_go x "") <= k)%nat.
Proof.
  revert x. induction k as [|k IH]; intros x Hx.
  - assert (x = 0%N) as -> by (change (10 ^ N.of_nat 0)%N with 1%N in Hx; lia).
    by rewrite pretty_N_go_0.
  - destruct (decide (0 < x)%N) as [Hpos|Hpos].
    + rewrite pretty_N_go_step, pretty_N_go_app, string_app_length
        by done.
      assert (x `div` 10 < 10 ^ N.of_nat k)%N as Hdiv.
      { apply N.Div0.div_lt_upper_bound.
        rewrite Nat2N.inj_succ, N.pow_succ_r' in Hx. lia. }
      specialize (IH _ Hdiv). cbn [String.length]. lia.
    + assert (x = 0%N) as -> by lia. rewrite pretty_N_go_0. cbn. lia.
Qed.

Lemma pretty_pos_length p :
  Z.pos p < 10 ^ 4300 ->
  (String.length (pretty (N.pos p)) <= 4300)%nat.
Proof.
  intros Hp. unfold pretty, pretty_N. rewrite decide_False by done.
  apply pretty_N_go_length.
  apply N2Z.inj_lt. rewrite N2Z.inj_pow. exact Hp.
Qed.

(** [int(str(z)) = z], for an integer of at most 4300 digits. *)
Lemma int_str z : Z.abs z < 10 ^ 4300 -> PyStr.int (PyStr.str z) = Ok z.
Proof.
  unfold PyStr.str. destruct z as [|p|p]; intros Hz.
  - done.
  - destruct (pretty_pos_digits p) as [Hd Hv].
    change (pretty (Z.pos p)) with (pretty (N.pos p)).
    apply int_ascii_digits; [done| |done]. by apply pretty_pos_length.
  - destruct (pretty_pos_digits p) as [Hd Hv].
    pose proof (pretty_pos_length p Hz) as Hlen.
    change (pretty (Z.neg p)) with (String "-" (pretty (N.pos p))).
    destruct (pretty (N.pos p)) as [|c s] eqn:Hp; [done|].
    cbn [PyStr.ascii_digits] in Hd.
    pose proof (digits_of_digits (String c s) 0 0 Hd) as Hrun.
    rewrite Hv in Hrun. cbn [fmap option_fmap option_map] in Hrun.
    cbn [PyStr.all_digits] in Hd. apply andb_prop in Hd as [Hc _].
    apply bool_decide_eq_true in Hc as [d Hd].
    unfold PyStr.int.
    rewrite (code_points_ascii "-" (String c s) eq_refl).
    rewrite (code_points_digit c d s Hd) in *.
    cbn [fmap list_fmap] in *.
    destruct (digit_point c d Hd) as (_ & Hdigit & _).
    rewrite Hdigit in *.
    change (PyStr.int_char_of (PyStr.code "-")) with PyStr.Minus.
    cbn [PyStr.skip_spaces]. cbv beta iota zeta. rewrite Hrun.
    unfold PyStr.max_str_digits.
    rewrite (proj2 (Z.ltb_ge _ _)) by lia.
    cbn [PyStr.skip_spaces]. f_equal; lia.
Qed.

Lemma before_digits s rest :
  PyStr.all_digits s = true ->
  PyStr.before "(" (s +:+ String "(" rest) = s.
Proof.
  induction s as [|c s IH]; [done|]. simpl.
  intros [Hc Hs]%andb_prop. apply bool_decide_eq_true in Hc.
  change (String c s +:+ String "(" rest)
    with (String c (s +:+ String "(" rest)).
  cbn [PyStr.before]. rewrite (IH Hs).
  destruct (Ascii.eqb_spec c "(") as [->|]; [by destruct Hc|done].
Qed.

Lemma before_str z rest :
  PyStr.before "(" (PyStr.str z +:+ String "(" rest) = PyStr.str z.
Proof.
  unfold PyStr.str. destruct z as [|p|p].
  - done.
  - destruct (pretty_pos_digits p) as [Hd _].
    change (pretty (Z.pos p)) with (pretty (N.pos p)).
    apply before_digits. unfold PyStr.ascii_digits in Hd.
    by destruct (pretty (N.pos p)).
  - destruct (pretty_pos_digits p) as [Hd _].
    change (pretty (Z.neg p)) with (String "-" (pretty (N.pos p))).
    change (String "-" (pretty (N.pos p)) +:+ String "(" rest)
      with (String "-" (pretty (N.pos p) +:+ String "(" rest)).
    cbn [PyStr.before]. change (Ascii.eqb "-" "(") with false. cbv iota.
    rewrite before_digits; [done|]. unfold PyStr.ascii_digits in Hd.
    by destruct (pretty (N.pos p)).
Qed.

(** Metadata mode: the exclusion written for a planned track is the
    stream index recorded at probe time, minus one (an index of at most
    4300 digits, the longest an integer is read with). *)
Lemma tmdb_map_option_label track :
  Z.abs (Track track) < 10 ^ 4300 ->
  tmdb_map_option (Planner.label track)
  = Ok ("-map -0:a:" +:+ PyStr.str (Track track - 1)).
Proof.
  intros Hidx. unfold tmdb_map_option, Planner.label.
  change ("(" +:+ Language track +:+ ")")
    with (String "(" (Language track +:+ ")")).
  by rewrite before_str, int_str.
Qed.

(** Manual mode: the exclusion written for a selected track number is
    that number minus one. *)
Lemma manual_map_option_str idx :
  Z.abs idx < 10 ^ 4300 ->
  manual_map_option (PyStr.str idx)
  = Ok ("-map -0:a:" +:+ PyStr.str (idx - 1)).
Proof. intros Hidx. unfold manual_map_option. by rewrite int_str. Qed.

End SelectionDirectiveFacts.

(** ** The exit status of the remux *)

Section ExitStatusFacts.

Import Executor.

Variable ffmpeg : string -> gmap string Z -> Z * gmap string Z.

Lemma string_app_nil_r (s : string) : s +:+ "" = s.
Proof.
  induction s as [|c s IH]; [done|].
  change (String c s +:+ "") with (String c (s +:+ "")). by rewrite IH.
Qed.

Lemma take_drop_string n (s : string) :
  PyStr.take n s +:+ PyStr.drop n s = s.
Proof.
  revert s. induction n as [|n IH]; intros [|c s]; try done.
  cbn [PyStr.take PyStr.drop].
  change (String c (PyStr.take n s) +:+ PyStr.drop n s)
    with (String c (PyStr.take n s +:+ PyStr.drop n s)).
  by rewrite IH.
Qed.

Lemma splitext_app p : (PyStr.splitext p).1 +:+ (PyStr.splitext p).2 = p.
Proof.
  unfold PyStr.splitext. repeat case_match; simpl;
    auto using string_app_nil_r, take_drop_string.
Qed.

(** The temporary path is never the path of the original. *)
Lemma temp_path_fresh p : temp_path p <> p.
Proof.
  unfold temp_path. intros H. apply (f_equal String.length) in H.
  rewrite <- (splitext_app p) in H at 3.
  rewrite !string_length_app in H. simpl in H. lia.
Qed.

(** Metadata mode, lines 227-241: whatever the exit status, the size
    delta is reported as a successful deletion and returned to be added
    to the total; the original is replaced only on status 0, and on any
    other status the temporary file is removed and the original stays. *)
Lemma apply_summary_exit_status audio_tracks ffmpeg_folder s w
    first others options returncode fs' initial_size final_size :
  let input_file_path := FullFilePath first in
  let temp_output_file_path := temp_path input_file_path in
  let cmd := ffmpeg_command ffmpeg_folder input_file_path
               (PyStr.join " " options) temp_output_file_path in
  filter (fun track => PyStr.basename (File track) = file_name s)
         audio_tracks = first :: others ->
  traverse tmdb_map_option (tracks_to_delete s) = Ok options ->
  ffmpeg cmd (fs w) = (returncode, fs') ->
  fs' !! input_file_path = Some initial_size ->
  fs' !! temp_output_file_path = Some final_size ->
  exists w',
    apply_summary ffmpeg audio_tracks ffmpeg_folder s w
    = (Ok (initial_size - final_size), w')
    /\ shell w' = shell w ++ [cmd]
    /\ "Deleted tracks successfully. Space saved: "
         +:+ PyStr.format_2f (mb (initial_size - final_size)) +:+ " MB"
       ∈ stdout w'
    /\ fs w' = if returncode =? 0
               then <[input_file_path := final_size]>
                      (delete temp_output_file_path
                              (delete input_file_path fs'))
               else delete temp_output_file_path fs'.
Proof.
  intros input_file_path temp_output_file_path cmd
    Hfirst Hopt Hrun Hin Htmp.
  unfold apply_summary, run.
  unfold mbind, M_bind, mret, M_ret, lift, Os.print, Os.getsize,
    Os.remove, Os.rename.
  rewrite Hfirst, Hopt. cbn [first_track fs stdin stdout shell].
  fold input_file_path. fold temp_output_file_path. fold cmd.
  rewrite Hrun. cbn [fs stdin stdout shell]. rewrite Hin.
  cbn [fs stdin stdout shell]. rewrite Htmp.
  cbn [fs stdin stdout shell].
  destruct (returncode =? 0) eqn:Hrc.
  - cbn [fs stdin stdout shell]. rewrite Hin.
    cbn [fs stdin stdout shell].
    rewrite lookup_delete_ne by (symmetry; apply temp_path_fresh).
    rewrite Htmp. eexists. split; [reflexivity|].
    cbn [fs stdin stdout shell]. split; [done|]. split; [|done].
    apply elem_of_app. right. apply list_elem_of_singleton. done.
  - cbn [fs stdin stdout shell]. rewrite Htmp.
    eexists. split; [reflexivity|].
    cbn [fs stdin stdout shell]. split; [done|]. split; [|done].
    apply elem_of_app. left. apply elem_of_app. right.
    apply list_elem_of_singleton. done.
Qed.

(** Manual mode, lines 410-421: the exit status is not looked at; the
    original is replaced by the temporary file and the size delta is
    reported and returned whatever the status. *)
Lemma remux_selected_exit_status ffmpeg_folder first others
    tracks_to_delete w options returncode fs' initial_size final_size :
  let input_file_path := FullFilePath first in
  let temp_output_file_path := temp_path input_file_path in
  let cmd := ffmpeg_command ffmpeg_folder input_file_path
               (PyStr.join " " options) temp_output_file_path in
  traverse manual_map_option tracks_to_delete = Ok options ->
  ffmpeg cmd (fs w) = (returncode, fs') ->
  fs' !! input_file_path = Some initial_size ->
  fs' !! temp_output_file_path = Some final_size ->
  exists w',
    remux_selected ffmpeg ffmpeg_folder (first :: others)
                   tracks_to_delete w
    = (Ok (initial_size - final_size), w')
    /\ shell w' = shell w ++ [cmd]
    /\ "Deleted tracks successfully. Space saved: "
         +:+ PyStr.format_2f (mb (initial_size - final_size)) +:+ " MB"
       ∈ stdout w'
    /\ fs w' = <[input_file_path := final_size]>
                 (delete temp_output_file_path
                         (delete input_file_path fs')).
Proof.
  intros input_file_path temp_output_file_path cmd Hopt Hrun Hin Htmp.
  unfold remux_selected, run.
  unfold mbind, M_bind, mret, M_ret, lift, Os.print, Os.getsize,
    Os.remove, Os.rename.
  rewrite Hopt. cbn [first_track fs stdin stdout shell].
  fold input_file_path. fold temp_output_file_path. fold cmd.
  rewrite Hrun. cbn [fs stdin stdout shell]. rewrite Hin.
  cbn [fs stdin stdout shell]. rewrite Htmp.
  cbn [fs stdin stdout shell]. rewrite Hin.
  cbn [fs stdin stdout shell].
  rewrite lookup_delete_ne by (symmetry; apply temp_path_fresh).
  rewrite Htmp. eexists. split; [reflexivity|].
  cbn [fs stdin stdout shell]. split; [done|]. split; [|done].
  apply elem_of_app. right. apply list_elem_of_singleton. done.
Qed.

End ExitStatusFacts.

Section ManualModeFacts.

Import Executor.

Variable ffmpeg : string -> gmap string Z -> Z * gmap string Z.
Variable pretty_table : list audio_track -> string.

(** An accepted first answer ends the prompt loop at once. *)
Lemma select_tracks_accepted file_audio_tracks w line rest :
  stdin w = line :: rest ->
  accepted (Track <$> file_audio_tracks) (PyStr.split line) = Ok true ->
  select_tracks pretty_table file_audio_tracks w
  = (Ok (PyStr.split line), asked pretty_table file_audio_tracks w rest).
Proof.
  intros Hin Hacc. unfold select_tracks. rewrite Hin.
  cbn [ask_tracks]. unfold mbind, M_bind, Os.print, Os.input, lift.
  cbn [stdin stdout fs shell]. rewrite Hin, Hacc.
  unfold asked. by rewrite <- app_assoc.
Qed.



End ManualModeFacts.




(** ** The remux executor *)

Section ExecutorFacts.

Import Executor.

(** C1, at a remux that exits with status 1 in the manual mode: the
    original file is removed and the partial temporary file is renamed
    over it, and nothing reports the failure. The metadata mode checks
    the exit status at the same place: there the original is untouched
    and the temporary file is removed. *)
Theorem C1_manual_remux_failure_replaces_original :
  let manual :=
    delete_tracks_from_files Sample.failing_ffmpeg Sample.table
      [("Heat {tmdb-949}.mkv", Sample.film_tracks)] "/m" "/ff"
      (Sample.world_with ["3"]) in
  let automatic :=
    tmdb_delete_track Sample.failing_ffmpeg [Sample.film_data]
      Sample.film_tracks "/ff" (Sample.world_with ["y"]) in
  (Sample.world_with ["3"]).(fs) !! Sample.film = Some (100 * Sample.mib)
  /\ manual.1 = Ok tt
  /\ shell manual.2 = [Sample.film_command "-map -0:a:2"]
  /\ fs manual.2 !! Sample.film = Some (50 * Sample.mib)
  /\ fs manual.2 !! Sample.film_temp = None
  /\ stdout manual.2
     = ["<table>"; select_prompt; "Deleting specified tracks...";
        "Executing command: " +:+ Sample.film_command "-map -0:a:2";
        "Deleted tracks successfully. Space saved: 50.00 MB";
        "Total space saved: 50.00 MB"]
  /\ automatic.1 = Ok tt
  /\ fs automatic.2 !! Sample.film = Some (100 * Sample.mib)
  /\ fs automatic.2 !! Sample.film_temp = None.
Proof. repeat split; vm_compute; reflexivity. Qed.

(** C5, at a remux that exits with status 1 in the metadata mode: the
    size delta is measured, reported as a successful deletion and added
    to the total before the exit status is looked at. *)
Theorem C5_failed_remux_counts_as_space_saved :
  let automatic :=
    tmdb_delete_track Sample.failing_ffmpeg [Sample.film_data]
      Sample.film_tracks "/ff" (Sample.world_with ["y"]) in
  automatic.1 = Ok tt
  /\ shell automatic.2 = [Sample.film_command "-map -0:a:2"]
  /\ (Sample.failing_ffmpeg (Sample.film_command "-map -0:a:2")
                            (fs (Sample.world_with ["y"]))).1 = 1
  /\ stdout automatic.2
     = Sample.film_plan_lines
       ++ [nl +:+ "Applying modifications to Heat {tmdb-949}.mkv";
           "Deleting specified tracks...";
           "Executing command: " +:+ Sample.film_command "-map -0:a:2";
           "Deleted tracks successfully. Space saved: 50.00 MB";
           "An error occurred while processing Heat {tmdb-949}.mkv. "
             +:+ "Skipping this file.";
           "Total space saved: 50.00 MB";
           "Done. Exiting."]
  /\ (apply_summaries Sample.failing_ffmpeg Sample.film_tracks "/ff" []
        [{| file_name := "Heat {tmdb-949}.mkv";
            original_language := Some "eng";
            tracks_to_delete := ["3(fre)"];
            tracks_to_keep := ["2(eng)"] |}] 1 0
        (Sample.world_with [])).1 = Ok (50 * Sample.mib).
Proof. repeat split; vm_compute; reflexivity. Qed.

(** C2, at a film whose audio streams follow a video and a subtitle
    stream: the French track is the stream numbered 3 and the second
    audio stream, ordinal 1; both modes exclude the audio ordinal 2, the
    stream number minus one. *)
Theorem C2_exclusion_is_stream_index_minus_one :
  let automatic :=
    tmdb_delete_track Sample.working_ffmpeg [Sample.film_data]
      Sample.film_tracks "/ff" (Sample.world_with ["y"]) in
  let manual :=
    delete_tracks_from_files Sample.working_ffmpeg Sample.table
      [("Heat {tmdb-949}.mkv", Sample.film_tracks)] "/m" "/ff"
      (Sample.world_with ["3"]) in
  Sample.ffprobe Sample.film = inr Sample.film_probe
  /\ (Track <$> Sample.film_tracks) = [2; 3]
  /\ (Language <$> Sample.film_tracks) = ["eng"; "fre"]
  /\ Spec.audio_ordinal Sample.film_probe 3 = Some 1
  /\ Planner.plan_files Sample.film_tracks [Sample.film_data] []
     = Ok [{| file_name := "Heat {tmdb-949}.mkv";
              original_language := Some "eng";
              tracks_to_delete := ["3(fre)"];
              tracks_to_keep := ["2(eng)"] |}]
  /\ shell automatic.2 = [Sample.film_command "-map -0:a:2"]
  /\ shell manual.2 = [Sample.film_command "-map -0:a:2"].
Proof. repeat split; vm_compute; reflexivity. Qed.

End ExecutorFacts.

(** ** The filters of the extractor *)

Section FilterFacts.

Import Extractor.

Variable ffprobe : string -> string + probe.

Lemma stream_tracks_elem a movie_file d ss t :
  t ∈ (stream_tracks a movie_file d ss []).1 ->
  exists s, s ∈ ss /\ stream_track a movie_file d s = Ok (Some t).
Proof.
  induction ss as [|s ss IH]; simpl; [by intros ?%elem_of_nil|].
  destruct (stream_track a movie_file d s) as [[t'|]|e] eqn:Hs; simpl.
  - rewrite stream_tracks_acc. simpl.
    intros [->|Ht]%elem_of_cons.
    + exists s. split; [apply elem_of_cons; by left|done].
    + destruct (IH Ht) as (s' & ? & ?). exists s'.
      split; [apply elem_of_cons; by right|done].
  - intros Ht. destruct (IH Ht) as (s' & ? & ?). exists s'.
    split; [apply elem_of_cons; by right|done].
  - by intros ?%elem_of_nil.
Qed.

(** The gates a file went through when one of its tracks is in the
    output, and the stream the track was built from. *)
Lemma file_step_gates a movie_file t :
  t ∈ (file_step ffprobe a ([], []) movie_file).1 ->
  exists info,
    ffprobe movie_file = inr info
    /\ (forall n, track_number a = Some n ->
                  n <= Z.of_nat (length (audio_streams_of info)))
    /\ (exclude_same a = true ->
        all_same_language (audio_streams_of info) = false)
    /\ (only_same a = true ->
        all_same_language (audio_streams_of info) = true)
    /\ exists s, s ∈ audio_streams_of info
         /\ stream_track a movie_file (duration info) s = Ok (Some t).
Proof.
  unfold file_step.
  destruct (ffprobe movie_file) as [msg|info]; simpl;
    [by intros ?%elem_of_nil|].
  destruct (foreign_only a && has_eng_exact (audio_streams_of info));
    simpl; [by intros ?%elem_of_nil|].
  destruct (match track_number a with
            | Some n => n <=? Z.of_nat (length (audio_streams_of info))
            | None => true
            end) eqn:Hn; simpl; [|by intros ?%elem_of_nil].
  destruct (exclude_same a && all_same_language (audio_streams_of info))
    eqn:Hex; simpl; [by intros ?%elem_of_nil|].
  destruct (only_same a
            && negb (all_same_language (audio_streams_of info)))
    eqn:Hon; simpl; [by intros ?%elem_of_nil|].
  destruct (negb (foreign_only a) || _); simpl;
    [|by intros ?%elem_of_nil].
  destruct (stream_tracks a movie_file (duration info)
              (audio_streams_of info) []) as [l o] eqn:Hl.
  intros Ht. assert (t ∈ l) as Ht' by (by destruct o).
  exists info. split; [done|]. split; [|split; [|split]].
  - intros n Hn'. rewrite Hn' in Hn. by apply Z.leb_le.
  - intros He. rewrite He in Hex. done.
  - intros Ho. rewrite Ho in Hon. by apply negb_false_iff in Hon.
  - apply stream_tracks_elem. by rewrite Hl.
Qed.

Lemma get_audio_track_info_gates a t :
  t ∈ (get_audio_track_info ffprobe a).1 ->
  exists movie_file info,
    movie_file ∈ movie_files a
    /\ ffprobe movie_file = inr info
    /\ (forall n, track_number a = Some n ->
                  n <= Z.of_nat (length (audio_streams_of info)))
    /\ (exclude_same a = true ->
        all_same_language (audio_streams_of info) = false)
    /\ (only_same a = true ->
        all_same_language (audio_streams_of info) = true)
    /\ exists s, s ∈ audio_streams_of info
         /\ stream_track a movie_file (duration info) s = Ok (Some t).
Proof.
  intros (movie_file & Hin & Ht)%scan_files_tracks.
  destruct (file_step_gates _ _ _ Ht) as (info & ?).
  by exists movie_file, info.
Qed.

(** What the two [unknown] filters let through. *)
Lemma stream_track_unknown a movie_file d s t :
  stream_track a movie_file d s = Ok (Some t) ->
  (no_unknown a = true -> PyStr.lower (Language t) <> "unknown")
  /\ (only_unknown a = true -> PyStr.lower (Language t) = "unknown").
Proof.
  intros H.
  assert (Language t = tag_get "language" "unknown" s) as ->.
  { destruct (stream_track_inv _ _ _ _ _ H)
      as (? & ? & ? & ? & ? & ? & ? & _ & _ & _ & _ & _ & _ & ->).
    done. }
  unfold stream_track in H.
  destruct (no_unknown a); simpl in H.
  - case_bool_decide as Hu; [done|].
    split; [done|]. intros Ho. rewrite Ho in H. by simpl in H.
  - split; [done|]. intros Ho. rewrite Ho in H. simpl in H.
    by case_bool_decide.
Qed.

(** X1: a track is listed only if its file has at least as many audio
    streams as [track_number] asks for; non-audio streams do not
    count. *)
Theorem track_number_counts_audio_streams a n t :
  track_number a = Some n ->
  t ∈ (get_audio_track_info ffprobe a).1 ->
  exists info,
    ffprobe (FullFilePath t) = inr info
    /\ n <= Z.of_nat (length (audio_streams_of info)).
Proof.
  intros Hn (f & info & _ & Hp & Hg & _ & _ & s & _ & Hs)
    %get_audio_track_info_gates.
  rewrite (stream_track_path _ _ _ _ _ Hs).
  exists info. split; [done|]. by apply Hg.
Qed.

(** X2: under [exclude_same] every listed track belongs to a file whose
    audio streams do not all carry the same language (lower-cased, a
    missing tag counting as the empty language), under [only_same] to a
    file whose audio streams all do. *)
Theorem same_language_filters a t :
  t ∈ (get_audio_track_info ffprobe a).1 ->
  exists info,
    ffprobe (FullFilePath t) = inr info
    /\ (exclude_same a = true ->
        all_same_language (audio_streams_of info) = false)
    /\ (only_same a = true ->
        all_same_language (audio_streams_of info) = true).
Proof.
  intros (f & info & _ & Hp & _ & He & Ho & s & _ & Hs)
    %get_audio_track_info_gates.
  rewrite (stream_track_path _ _ _ _ _ Hs).
  by exists info.
Qed.

(** X3: under [no_unknown] no listed track has the language [unknown]
    (in any case, the missing tag included); under [only_unknown] every
    listed track has. *)
Theorem unknown_filters a t :
  t ∈ (get_audio_track_info ffprobe a).1 ->
  (no_unknown a = true -> PyStr.lower (Language t) <> "unknown")
  /\ (only_unknown a = true -> PyStr.lower (Language t) = "unknown").
Proof.
  intros (f & info & _ & _ & _ & _ & _ & s & _ & Hs)
    %get_audio_track_info_gates.
  by eapply stream_track_unknown.
Qed.

(** X4: two filters that contradict each other are both applied, and
    nothing is listed: [exclude_same] with [only_same], or [no_unknown]
    with [only_unknown]. *)
Theorem contradictory_filters_list_nothing a :
  exclude_same a && only_same a || no_unknown a && only_unknown a = true ->
  (get_audio_track_info ffprobe a).1 = [].
Proof.
  intros H.
  destruct (get_audio_track_info ffprobe a).1 as [|t l] eqn:Hout;
    [done|exfalso].
  assert (t ∈ (get_audio_track_info ffprobe a).1) as Ht.
  { rewrite Hout. apply elem_of_cons. by left. }
  destruct (get_audio_track_info_gates _ _ Ht)
    as (f & info & _ & _ & _ & He & Ho & s & _ & Hs).
  destruct (stream_track_unknown _ _ _ _ _ Hs) as [Hnu Hou].
  apply orb_true_iff in H
    as [[H1 H2]%andb_true_iff|[H1 H2]%andb_true_iff].
  - specialize (He H1). specialize (Ho H2). congruence.
  - by apply Hnu, Hou.
Qed.

Lemma take_length n (s : string) :
  (String.length (PyStr.take n s) <= n)%nat.
Proof.
  revert n. induction s as [|c s IH]; intros [|n]; simpl;
    [lia|lia|lia|specialize (IH n); lia].
Qed.

(** X5: every listed track names a file of [movie_files], under [File]
    and under [FullFilePath] alike, and carries at most the first 40
    characters of the stream's title tag. *)
Theorem listed_track_fields a t :
  t ∈ (get_audio_track_info ffprobe a).1 ->
  File t = FullFilePath t
  /\ FullFilePath t ∈ movie_files a
  /\ (String.length (Title t) <= 40)%nat.
Proof.
  intros (f & info & Hin & _ & _ & _ & _ & s & _ & Hs)
    %get_audio_track_info_gates.
  destruct (stream_track_inv _ _ _ _ _ Hs)
    as (? & ? & ? & ? & ? & ? & ? & _ & _ & _ & _ & _ & _ & ->).
  cbn [File FullFilePath Title]. split; [done|]. split; [done|].
  apply take_length.
Qed.

(** X6: when a stream of a file raises (a missing key, a number that
    does not parse), the tracks of the streams before it stay in the
    output, those after it are not looked at, and one error line is
    added for the file. Stated for a file that passes the file gates. *)
Theorem raising_stream_keeps_earlier_tracks
    a movie_file info before s after e tracks errors :
  ffprobe movie_file = inr info ->
  audio_streams_of info = before ++ s :: after ->
  foreign_only a = false -> track_number a = None ->
  exclude_same a = false -> only_same a = false ->
  (stream_tracks a movie_file (duration info) before []).2 = None ->
  stream_track a movie_file (duration info) s = Raise e ->
  file_step ffprobe a (tracks, errors) movie_file
  = (tracks ++ (stream_tracks a movie_file (duration info) before []).1,
     errors ++ [error_line movie_file (str_exn e)]).
Proof.
  intros Hp Hss Hfo Htn Hex Hon Hbefore Hs.
  unfold file_step. rewrite Hp, Hss, Hfo, Htn, Hex, Hon. cbn [andb negb orb].
  assert (forall acc,
    stream_tracks a movie_file (duration info) (before ++ s :: after) acc
    = (acc ++ (stream_tracks a movie_file (duration info) before []).1,
       Some e)) as ->; [|done].
  clear Hss. induction before as [|b before IH]; intros acc.
  - simpl. rewrite Hs. simpl. by rewrite app_nil_r.
  - simpl in *.
    destruct (stream_track a movie_file (duration info) b)
      as [[t|]|e'] eqn:Hb.
    + rewrite stream_tracks_acc in Hbefore. simpl in Hbefore.
      rewrite IH by done.
      rewrite (stream_tracks_acc _ _ _ before [t]). simpl.
      by rewrite <- app_assoc.
    + by apply IH.
    + done.
Qed.

End FilterFacts.

Lemma track_number_counts_audio_streams_witness :
  track_number (Cases.filters false false (Some 1) false false
                  [Sample.film; Sample.amelie]) = Some 1
  /\ Sample.amelie_track
       ∈ (Extractor.get_audio_track_info Sample.ffprobe
            (Cases.filters false false (Some 1) false false
               [Sample.film; Sample.amelie])).1
  /\ exists info,
       Sample.ffprobe (FullFilePath Sample.amelie_track) = inr info
       /\ 1 <= Z.of_nat (length (Extractor.audio_streams_of info)).
Proof.
  assert (Hin : Sample.amelie_track
                  ∈ (Extractor.get_audio_track_info Sample.ffprobe
                       (Cases.filters false false (Some 1) false false
                          [Sample.film; Sample.amelie])).1).
  { vm_compute. apply list_elem_of_further, list_elem_of_further.
    apply list_elem_of_here. }
  split; [reflexivity|]. split; [exact Hin|].
  exact (track_number_counts_audio_streams Sample.ffprobe
           (Cases.filters false false (Some 1) false false
              [Sample.film; Sample.amelie])
           1 Sample.amelie_track eq_refl Hin).
Defined.

Lemma same_language_filters_witness :
  Sample.amelie_track
    ∈ (Extractor.get_audio_track_info Sample.ffprobe
         (Cases.filters false true None false false
            [Sample.film; Sample.amelie])).1
  /\ exists info,
       Sample.ffprobe (FullFilePath Sample.amelie_track) = inr info
       /\ (exclude_same (Cases.filters false true None false false
                           [Sample.film; Sample.amelie]) = true ->
           Extractor.all_same_language (Extractor.audio_streams_of info)
           = false)
       /\ (only_same (Cases.filters false true None false false
                        [Sample.film; Sample.amelie]) = true ->
           Extractor.all_same_language (Extractor.audio_streams_of info)
           = true).
Proof.
  assert (Hin : Sample.amelie_track
                  ∈ (Extractor.get_audio_track_info Sample.ffprobe
                       (Cases.filters false true None false false
                          [Sample.film; Sample.amelie])).1).
  { vm_compute. apply list_elem_of_here. }
  split; [exact Hin|].
  exact (same_language_filters Sample.ffprobe
           (Cases.filters false true None false false
              [Sample.film; Sample.amelie])
           Sample.amelie_track Hin).
Defined.

Lemma unknown_filters_witness :
  Sample.amelie_track
    ∈ (Extractor.get_audio_track_info Sample.ffprobe
         (Cases.filters false false None true false [Sample.amelie])).1
  /\ (no_unknown (Cases.filters false false None true false
                    [Sample.amelie]) = true ->
      PyStr.lower (Language Sample.amelie_track) <> "unknown")
  /\ (only_unknown (Cases.filters false false None true false
                      [Sample.amelie]) = true ->
      PyStr.lower (Language Sample.amelie_track) = "unknown").
Proof.
  assert (Hin : Sample.amelie_track
                  ∈ (Extractor.get_audio_track_info Sample.ffprobe
                       (Cases.filters false false None true false
                          [Sample.amelie])).1).
  { vm_compute. apply list_elem_of_here. }
  split; [exact Hin|].
  exact (unknown_filters Sample.ffprobe
           (Cases.filters false false None true false [Sample.amelie])
           Sample.amelie_track Hin).
Defined.

Lemma contradictory_filters_list_nothing_witness :
  exclude_same (Cases.filters true true None false false
                  [Sample.film; Sample.amelie])
  && only_same (Cases.filters true true None false false
                  [Sample.film; Sample.amelie])
  || no_unknown (Cases.filters true true None false false
                   [Sample.film; Sample.amelie])
     && only_unknown (Cases.filters true true None false false
                        [Sample.film; Sample.amelie]) = true
  /\ (Extractor.get_audio_track_info Sample.ffprobe
        (Cases.filters true true None false false
           [Sample.film; Sample.amelie])).1 = [].
Proof.
  split; [reflexivity|].
  apply (contradictory_filters_list_nothing Sample.ffprobe
           (Cases.filters true true None false false
              [Sample.film; Sample.amelie])).
  reflexivity.
Defined.

Lemma listed_track_fields_witness :
  Sample.amelie_track
    ∈ (Extractor.get_audio_track_info Sample.ffprobe
         (Sample.no_filter [Sample.amelie])).1
  /\ File Sample.amelie_track = FullFilePath Sample.amelie_track
  /\ FullFilePath Sample.amelie_track
       ∈ movie_files (Sample.no_filter [Sample.amelie])
  /\ (String.length (Title Sample.amelie_track) <= 40)%nat.
Proof.
  assert (Hin : Sample.amelie_track
                  ∈ (Extractor.get_audio_track_info Sample.ffprobe
                       (Sample.no_filter [Sample.amelie])).1).
  { vm_compute. apply list_elem_of_here. }
  split; [exact Hin|].
  exact (listed_track_fields Sample.ffprobe
           (Sample.no_filter [Sample.amelie]) Sample.amelie_track Hin).
Defined.

Lemma raising_stream_keeps_earlier_tracks_witness :
  Cases.ffprobe Cases.damaged = inr Cases.damaged_probe
  /\ Extractor.audio_streams_of Cases.damaged_probe
     = [Sample.audio 1 (Some "eng") "aac" None]
         ++ Cases.nameless :: [Sample.audio 3 (Some "fre") "aac" None]
  /\ Extractor.stream_track (Sample.no_filter [Cases.damaged])
       Cases.damaged (duration Cases.damaged_probe) Cases.nameless
     = Raise (KeyError "codec_name")
  /\ Extractor.file_step Cases.ffprobe (Sample.no_filter [Cases.damaged])
       ([], []) Cases.damaged
     = ([] ++ (Extractor.stream_tracks (Sample.no_filter [Cases.damaged])
                 Cases.damaged (duration Cases.damaged_probe)
                 [Sample.audio 1 (Some "eng") "aac" None] []).1,
        [] ++ [Extractor.error_line Cases.damaged
                 (str_exn (KeyError "codec_name"))]).
Proof.
  split; [reflexivity|]. split; [reflexivity|]. split; [reflexivity|].
  apply (raising_stream_keeps_earlier_tracks Cases.ffprobe
           (Sample.no_filter [Cases.damaged]) Cases.damaged
           Cases.damaged_probe
           [Sample.audio 1 (Some "eng") "aac" None] Cases.nameless
           [Sample.audio 3 (Some "fre") "aac" None]
           (KeyError "codec_name") [] []);
    reflexivity.
Defined.

(** ** The directory scan *)

Section FinderFacts.

Import Finder.

Lemma string_cons_app c (s t : string) :
  String c s +:+ t = String c (s +:+ t).
Proof. reflexivity. Qed.

Lemma endswith_spec suffix s :
  endswith suffix s = true <-> exists stem, s = stem +:+ suffix.
Proof.
  induction s as [|c s IH]; simpl.
  - rewrite orb_false_r, bool_decide_eq_true. split.
    + intros <-. by exists "".
    + intros ([|??] & H); [done|]. by rewrite string_cons_app in H.
  - rewrite orb_true_iff, bool_decide_eq_true, IH. split.
    + intros [<-|(stem & ->)]; [by exists ""|].
      by exists (String c stem).
    + intros ([|c' stem] & H); [by left|].
      rewrite string_cons_app in H. right. exists stem. congruence.
Qed.

Lemma endswith_both a b s :
  endswith a s = true -> endswith b s = true ->
  endswith a b || endswith b a = true.
Proof.
  induction s as [|c s IH]; simpl.
  - rewrite !orb_false_r, !bool_decide_eq_true. intros <- <-. done.
  - rewrite !orb_true_iff, !bool_decide_eq_true.
    intros [<-|Ha] [<-|Hb].
    + left. simpl. rewrite bool_decide_eq_true_2; done.
    + right. simpl. by rewrite Hb, orb_true_r.
    + left. simpl. by rewrite Ha, orb_true_r.
    + rewrite <- orb_true_iff. by apply IH.
Qed.

Lemma bind_ret_fmap {A B} (g : A -> B) (l : list A) :
  (x ← l; [g x]) = g <$> l.
Proof.
  induction l as [|x l IH]; [done|].
  rewrite bind_cons, IH. done.
Qed.

Lemma collect_unfold walk extensions :
  collect walk extensions
  = (e ← walk;
     extension ← extensions;
     PyStr.path_join (root e) <$> fnmatch_filter (filenames e) extension).
Proof.
  unfold collect.
  apply list_bind_ext; [|done]. intros e.
  apply list_bind_ext; [|done]. intros extension.
  apply bind_ret_fmap.
Qed.

(** X7: the scan returns, and writes nothing but its two lines; a path is
    in its result exactly when it joins a directory of the walk with one
    of its file names that ends with a dot and one of the extensions. The
    match is case-sensitive, and directory names are not looked at. *)
Theorem get_movie_files_members os_walk path extensions w p :
  exists movie_files,
    get_movie_files os_walk path extensions w
    = (Ok movie_files,
       {| fs := fs w; stdin := stdin w;
          stdout := stdout w
                    ++ ["Scanning directory for movie files: " +:+ path;
                        "Found "
                          +:+ PyStr.str (Z.of_nat (length movie_files))
                          +:+ " movie files."];
          shell := shell w |})
    /\ (p ∈ movie_files <->
        exists e extension stem,
          e ∈ os_walk path /\ extension ∈ extensions
          /\ stem +:+ "." +:+ extension ∈ filenames e
          /\ p = PyStr.path_join (root e) (stem +:+ "." +:+ extension)).
Proof.
  exists (collect (os_walk path) extensions). split.
  - unfold get_movie_files, Os.print, mbind, M_bind, mret, M_ret. simpl.
    by rewrite <- app_assoc.
  - rewrite collect_unfold, list_elem_of_bind. split.
    + intros (e & (extension & Hp & Hext)%list_elem_of_bind & He).
      apply list_elem_of_fmap in Hp as (filename & -> & Hf).
      apply list_elem_of_filter in Hf as [Hend Hf].
      apply Is_true_true, endswith_spec in Hend as (stem & ->).
      by exists e, extension, stem.
    + intros (e & extension & stem & He & Hext & Hf & ->).
      exists e. split; [|done].
      apply list_elem_of_bind. exists extension. split; [|done].
      apply list_elem_of_fmap. eexists. split; [done|].
      apply list_elem_of_filter. split; [|done].
      apply Is_true_true, endswith_spec. by exists stem.
Qed.

Lemma filter_disjoint_union {A} (p q : A -> bool) (l : list A) :
  (forall x, p x = true -> q x = false) ->
  filter (fun x => p x || q x) l ≡ₚ filter p l ++ filter q l.
Proof.
  intros Hpq. induction l as [|x l IH]; [done|].
  rewrite !filter_cons.
  destruct (p x) eqn:Hp; [rewrite (Hpq x Hp)|destruct (q x) eqn:Hq];
    simpl.
  - by rewrite IH.
  - rewrite IH. apply Permutation_middle.
  - done.
Qed.

Lemma incompatible_exclusive x rest filename :
  forallb (fun y => negb (endswith ("." +:+ x) ("." +:+ y)
                         || endswith ("." +:+ y) ("." +:+ x))) rest = true ->
  endswith ("." +:+ x) filename = true ->
  has_extension rest filename = false.
Proof.
  intros Hall Hx. unfold has_extension.
  induction rest as [|y rest IH]; [done|].
  cbn [forallb existsb] in *. apply andb_true_iff in Hall as [Hy Hall].
  rewrite (IH Hall), orb_false_r.
  destruct (endswith ("." +:+ y) filename) eqn:Hyf; [|done].
  pose proof (endswith_both _ _ _ Hx Hyf) as Hboth.
  apply negb_true_iff in Hy. congruence.
Qed.

Lemma fnmatch_filter_once extensions (g : string -> string) names :
  incompatible extensions = true ->
  (extension ← extensions; g <$> fnmatch_filter names extension)
  ≡ₚ g <$> filter (fun filename => has_extension extensions filename) names.
Proof.
  induction extensions as [|x rest IH]; intros Hinc.
  - simpl. induction names as [|n names IHn]; [done|].
    rewrite filter_cons. simpl. done.
  - simpl in Hinc. apply andb_true_iff in Hinc as [Hx Hrest].
    rewrite bind_cons, (IH Hrest). unfold fnmatch_filter.
    rewrite <- fmap_app. apply fmap_Permutation.
    symmetry.
    apply (filter_disjoint_union
             (fun filename => endswith ("." +:+ x) filename)
             (has_extension rest)).
    intros filename. by apply incompatible_exclusive.
Qed.

(** X8: with the extensions of [main], every file whose name ends with a
    dot and one of them is found exactly once: the result is a
    rearrangement, within each directory, of the movie files of the walk.
    (A name cannot end with two of the nine extensions.) *)
Theorem movie_files_found_once walk :
  collect walk Main.movie_extensions
  ≡ₚ (e ← walk;
      PyStr.path_join (root e)
        <$> filter (fun filename =>
                      has_extension Main.movie_extensions filename)
                   (filenames e)).
Proof.
  rewrite collect_unfold.
  induction walk as [|e walk IH]; [done|].
  rewrite !bind_cons, IH.
  apply Permutation_app; [|done].
  apply fnmatch_filter_once. vm_compute. reflexivity.
Qed.

End FinderFacts.

(** ** Movie identifiers *)

Section IdentFacts.

Import Ident.

Lemma startswith_spec prefix s :
  startswith prefix s = true <-> exists t, s = prefix +:+ t.
Proof.
  revert s. induction prefix as [|a prefix IH]; intros s.
  - split; [intros _; by exists s|done].
  - destruct s as [|b s]; simpl.
    + split; [done|]. intros (t & H). by rewrite string_cons_app in H.
    + rewrite andb_true_iff, Ascii.eqb_eq, IH. split.
      * intros [-> (t & ->)]. by exists t.
      * intros (t & H). rewrite string_cons_app in H.
        split; [congruence|]. exists t. congruence.
Qed.

Lemma drop_app_length (a b : string) :
  PyStr.drop (String.length a) (a +:+ b) = b.
Proof. induction a as [|c a IH]; [by destruct b|done]. Qed.

Lemma span_digits_spec s :
  s = (span_digits s).1 +:+ (span_digits s).2
  /\ PyStr.all_digits (span_digits s).1 = true.
Proof.
  induction s as [|c s [IH1 IH2]]; [done|]. simpl.
  case_bool_decide as Hc; simpl.
  - rewrite string_cons_app, <- IH1, IH2.
    by rewrite bool_decide_eq_true_2.
  - done.
Qed.

Lemma span_digits_app digits rest :
  PyStr.all_digits digits = true ->
  startswith "}" rest = true ->
  span_digits (digits +:+ rest) = (digits, rest).
Proof.
  intros Hd Hr. apply (startswith_spec "}") in Hr as (post & ->).
  induction digits as [|c digits IH].
  - reflexivity.
  - simpl in Hd. apply andb_true_iff in Hd as [Hc Hd].
    rewrite string_cons_app. simpl. rewrite Hc, (IH Hd). done.
Qed.

Lemma ascii_digits_spec s :
  PyStr.ascii_digits s = true <-> s <> "" /\ PyStr.all_digits s = true.
Proof.
  destruct s; simpl.
  - split; [done|by intros []].
  - split; [done|by intros [_ ?]].
Qed.

Lemma match_at_Some opening s digits :
  match_at opening s = Some digits ->
  PyStr.ascii_digits digits = true
  /\ exists post, s = opening +:+ digits +:+ "}" +:+ post.
Proof.
  unfold match_at.
  destruct (startswith opening s) eqn:Hs; [|done].
  apply startswith_spec in Hs as (t & ->).
  rewrite drop_app_length.
  destruct (span_digits_spec t) as [Ht Hd].
  destruct (span_digits t) as [ds rest]. cbn [fst snd] in *.
  case_bool_decide as Hne; cbn [negb andb]; [done|].
  destruct (startswith "}" rest) eqn:Hr; [|done].
  intros [= <-]. split; [by apply ascii_digits_spec|].
  apply (startswith_spec "}") in Hr as (post & ->).
  exists post. congruence.
Qed.

Lemma match_at_token opening digits post :
  PyStr.ascii_digits digits = true ->
  match_at opening (opening +:+ digits +:+ "}" +:+ post) = Some digits.
Proof.
  intros [Hne Hd]%ascii_digits_spec. unfold match_at.
  rewrite (proj2 (startswith_spec opening _)) by by eexists.
  rewrite drop_app_length, span_digits_app by done.
  by rewrite bool_decide_eq_false_2.
Qed.

Lemma search_Some opening s digits :
  search opening s = Some digits ->
  PyStr.ascii_digits digits = true
  /\ exists pre post, s = pre +:+ opening +:+ digits +:+ "}" +:+ post.
Proof.
  induction s as [|c s IH]; simpl.
  - destruct (match_at opening "") eqn:Hm; [|done].
    intros [= <-]. apply match_at_Some in Hm as [? [post ?]].
    split; [done|]. by exists "", post.
  - destruct (match_at opening (String c s)) eqn:Hm.
    + intros [= <-]. apply match_at_Some in Hm as [? [post ?]].
      split; [done|]. by exists "", post.
    + intros [? (pre & post & ->)]%IH. split; [done|].
      by exists (String c pre), post.
Qed.

Lemma search_token opening pre digits post :
  PyStr.ascii_digits digits = true ->
  is_Some (search opening (pre +:+ opening +:+ digits +:+ "}" +:+ post)).
Proof.
  intros Hd. induction pre as [|c pre IH].
  - change ("" +:+ opening +:+ digits +:+ "}" +:+ post)
      with (opening +:+ digits +:+ "}" +:+ post).
    destruct (opening +:+ digits +:+ "}" +:+ post) eqn:Hs; simpl;
      rewrite <- Hs, match_at_token by done; by eexists.
  - rewrite string_cons_app. simpl.
    destruct (match_at opening _); [by eexists|done].
Qed.

Lemma search_has_token opening s :
  is_Some (search opening s) <-> has_token opening s.
Proof.
  split.
  - intros [digits (? & pre & post & ?)%search_Some].
    by exists pre, digits, post.
  - intros (pre & digits & post & ? & ->). by apply search_token.
Qed.

(** X9: the source reported for a name is [imdb] exactly when the name
    holds a token [{imdb-tt<digits>}], wherever a [{tmdb-<digits>}] token
    may stand; it is [tmdb] exactly when the name holds a token of that
    form and none of the first; no identifier is reported exactly when
    the name holds neither. *)
Theorem extract_movie_id_source file_name :
  ((extract_movie_id file_name).1 = Some "imdb"
   <-> has_token "{imdb-tt" file_name)
  /\ ((extract_movie_id file_name).1 = Some "tmdb"
      <-> ~ has_token "{imdb-tt" file_name /\ has_token "{tmdb-" file_name)
  /\ (extract_movie_id file_name = (None, None)
      <-> ~ has_token "{imdb-tt" file_name
          /\ ~ has_token "{tmdb-" file_name).
Proof.
  rewrite <- !search_has_token. unfold extract_movie_id.
  destruct (search "{imdb-tt" file_name) as [i|],
           (search "{tmdb-" file_name) as [t|]; simpl.
  all: repeat split; intros;
    repeat match goal with
           | H : _ /\ _ |- _ => destruct H
           | H : is_Some None |- _ => by destruct H
           | H : ~ is_Some (Some _) |- _ => by destruct H; eexists
           | H : ~ is_Some None |- _ => clear H
           end;
    try done; try (by eexists); try (by intros []).
Qed.

(** X10: an identifier that is reported is written in the name between
    the braces, after the source and a dash; it is [tt] and decimal
    digits for [imdb], decimal digits for [tmdb]. *)
Theorem extract_movie_id_in_name file_name source movie_id :
  extract_movie_id file_name = (Some source, Some movie_id) ->
  (exists pre post,
     file_name = pre +:+ "{" +:+ source +:+ "-" +:+ movie_id +:+ "}"
                     +:+ post)
  /\ (source = "imdb"
      /\ (exists digits, movie_id = "tt" +:+ digits
                         /\ PyStr.ascii_digits digits = true)
      \/ source = "tmdb" /\ PyStr.ascii_digits movie_id = true).
Proof.
  unfold extract_movie_id.
  destruct (search "{imdb-tt" file_name) as [i|] eqn:Hi.
  - intros [= <- <-].
    apply search_Some in Hi as (Hd & pre & post & ->).
    split; [by exists pre, post|]. left. split; [done|]. by exists i.
  - destruct (search "{tmdb-" file_name) as [t|] eqn:Ht; [|done].
    intros [= <- <-].
    apply search_Some in Ht as (Hd & pre & post & ->).
    split; [by exists pre, post|]. by right.
Qed.

Lemma match_at_other c opening a s :
  Ascii.eqb a c = false ->
  match_at (String c opening) (String a s) = None.
Proof.
  intros Ha. unfold match_at. cbn [startswith].
  by rewrite Ascii.eqb_sym, Ha.
Qed.

Lemma search_skip c opening pre s :
  contains c pre = false ->
  search (String c opening) (pre +:+ s) = search (String c opening) s.
Proof.
  induction pre as [|a pre IH]; [done|].
  cbn [contains]. intros [Ha Hpre]%orb_false_iff.
  change (String a pre +:+ s) with (String a (pre +:+ s)).
  cbn [search]. rewrite match_at_other by done. by apply IH.
Qed.

Lemma search_no_opening c opening s :
  contains c s = false -> search (String c opening) s = None.
Proof.
  induction s as [|a s IH]; [done|].
  cbn [contains]. intros [Ha Hs]%orb_false_iff.
  cbn [search]. rewrite match_at_other by done. by apply IH.
Qed.

Lemma contains_app c (a b : string) :
  contains c (a +:+ b) = contains c a || contains c b.
Proof.
  induction a as [|x a IH]; [done|].
  change (String x a +:+ b) with (String x (a +:+ b)).
  cbn [contains]. by rewrite IH, orb_assoc.
Qed.

Lemma contains_digits digits :
  PyStr.all_digits digits = true -> contains "{" digits = false.
Proof.
  induction digits as [|c digits IH]; [done|].
  cbn [PyStr.all_digits contains].
  intros [Hc Hd]%andb_true_iff. rewrite (IH Hd), orb_false_r.
  apply bool_decide_eq_true in Hc.
  destruct (Ascii.eqb_spec c "{") as [->|]; [by destruct Hc|done].
Qed.

Lemma search_first c opening digits post :
  PyStr.ascii_digits digits = true ->
  search (String c opening)
         (String c opening +:+ digits +:+ "}" +:+ post) = Some digits.
Proof.
  intros Hd.
  change (String c opening +:+ digits +:+ "}" +:+ post)
    with (String c (opening +:+ digits +:+ "}" +:+ post)).
  cbn [search].
  change (String c (opening +:+ digits +:+ "}" +:+ post))
    with (String c opening +:+ digits +:+ "}" +:+ post).
  by rewrite match_at_token.
Qed.

(** X11: a name made of a title, a token and a tail, the title and the
    tail holding no opening brace, is identified by the token: the
    source and the digits come back as they were written. *)
Theorem extract_movie_id_of_token title digits tail :
  PyStr.ascii_digits digits = true ->
  contains "{" title = false ->
  contains "{" tail = false ->
  extract_movie_id (title +:+ "{imdb-tt" +:+ digits +:+ "}" +:+ tail)
  = (Some "imdb", Some ("tt" +:+ digits))
  /\ extract_movie_id (title +:+ "{tmdb-" +:+ digits +:+ "}" +:+ tail)
     = (Some "tmdb", Some digits).
Proof.
  intros Hd Htitle Htail. unfold extract_movie_id. split.
  - rewrite (search_skip "{" "imdb-tt") by done.
    by rewrite search_first.
  - rewrite (search_skip "{" "imdb-tt"), (search_skip "{" "tmdb-") by done.
    rewrite search_first by done.
    change ("{tmdb-" +:+ digits +:+ "}" +:+ tail)
      with (String "{" ("tmdb-" +:+ digits +:+ "}" +:+ tail)).
    cbn [search]. change (match_at "{imdb-tt" _) with (@None string).
    rewrite search_no_opening; [done|].
    apply ascii_digits_spec in Hd as [_ Hd].
    rewrite !contains_app, (contains_digits _ Hd), Htail. done.
Qed.

End IdentFacts.

Lemma extract_movie_id_in_name_witness :
  Ident.extract_movie_id Sample.film = (Some "tmdb", Some "949")
  /\ (exists pre post,
        Sample.film = pre +:+ "{" +:+ "tmdb" +:+ "-" +:+ "949" +:+ "}"
                          +:+ post)
  /\ ("tmdb" = "imdb"
      /\ (exists digits, "949" = "tt" +:+ digits
                         /\ PyStr.ascii_digits digits = true)
      \/ "tmdb" = "tmdb" /\ PyStr.ascii_digits "949" = true).
Proof.
  split; [reflexivity|].
  apply (extract_movie_id_in_name Sample.film "tmdb" "949").
  reflexivity.
Defined.

Lemma extract_movie_id_of_token_witness :
  PyStr.ascii_digits "133093" = true
  /\ Ident.contains "{" "The Matrix (1999) " = false
  /\ Ident.contains "{" ".mkv" = false
  /\ Ident.extract_movie_id
       ("The Matrix (1999) " +:+ "{imdb-tt" +:+ "133093" +:+ "}" +:+ ".mkv")
     = (Some "imdb", Some ("tt" +:+ "133093"))
  /\ Ident.extract_movie_id
       ("The Matrix (1999) " +:+ "{tmdb-" +:+ "133093" +:+ "}" +:+ ".mkv")
     = (Some "tmdb", Some "133093").
Proof.
  split; [reflexivity|]. split; [reflexivity|]. split; [reflexivity|].
  apply (extract_movie_id_of_token "The Matrix (1999) " "133093" ".mkv");
    reflexivity.
Defined.

(** ** Frame conditions of the interactive code *)

Section FrameFacts.

Lemma read_only_ret {A} (a : A) : read_only (mret a).
Proof. by intros w. Qed.

Lemma read_only_lift {A} (r : result A) : read_only (lift r).
Proof. by intros w. Qed.

Lemma read_only_print line : read_only (Os.print line).
Proof. by intros w. Qed.

Lemma read_only_input prompt : read_only (Os.input prompt).
Proof. intros w. unfold Os.input. by destruct (stdin w). Qed.

Lemma read_only_bind {A B} (m : M A) (f : A -> M B) :
  read_only m -> (forall a, read_only (f a)) -> read_only (m ≫= f).
Proof.
  intros Hm Hf w. unfold mbind, M_bind. destruct (Hm w) as [Hfs Hsh].
  destruct (m w) as [[a|e] w']; simpl in *; [|done].
  destruct (Hf a w'). split; congruence.
Qed.

Lemma read_only_stdin {A} (f : list string -> M A) :
  (forall lines, read_only (f lines)) ->
  read_only (fun w => f (stdin w) w).
Proof. intros Hf w. apply Hf. Qed.

Lemma printed_nil w : printed w [] = w.
Proof. destruct w. unfold printed. simpl. by rewrite app_nil_r. Qed.

Lemma printed_app w l1 l2 : printed (printed w l1) l2 = printed w (l1 ++ l2).
Proof. unfold printed. simpl. by rewrite app_assoc. Qed.

Lemma prints_only_ret {A} (a : A) : prints_only (mret a).
Proof. intros w. exists a, []. by rewrite printed_nil. Qed.

Lemma prints_only_print line : prints_only (Os.print line).
Proof. intros w. by exists tt, [line]. Qed.

Lemma prints_only_bind {A B} (m : M A) (f : A -> M B) :
  prints_only m -> (forall a, prints_only (f a)) -> prints_only (m ≫= f).
Proof.
  intros Hm Hf w. unfold mbind, M_bind.
  destruct (Hm w) as (a & l1 & ->).
  destruct (Hf a (printed w l1)) as (b & l2 & ->).
  exists b, (l1 ++ l2). by rewrite printed_app.
Qed.

Lemma prints_only_read_only {A} (m : M A) : prints_only m -> read_only m.
Proof. intros Hm w. by destruct (Hm w) as (a & l & ->). Qed.

End FrameFacts.

Ltac frame :=
  repeat first
    [ apply read_only_ret
    | apply read_only_print
    | apply read_only_input
    | apply read_only_lift
    | solve [eauto]
    | match goal with
      | |- read_only (if ?b then _ else _) => destruct b
      | |- read_only (match ?x with _ => _ end) => destruct x
      | |- read_only (_ ≫= _) => apply read_only_bind; [|intros ?]
      | |- read_only (fun w => _ (stdin w) w) =>
          apply read_only_stdin; intros ?
      | |- read_only (fun w => _ (stdin w) _ w) =>
          apply (read_only_stdin (fun lines => _ lines _)); intros ?
      end ].

Ltac chatter :=
  repeat first
    [ apply prints_only_ret
    | apply prints_only_print
    | solve [eauto]
    | match goal with
      | |- prints_only (if ?b then _ else _) => destruct b
      | |- prints_only (match ?x with _ => _ end) => destruct x
      | |- prints_only (_ ≫= _) => apply prints_only_bind; [|intros ?]
      end ].

(** ** The answers to the plan of the metadata mode *)

Section PlanAnswerFacts.

Import Executor.

Variable ffmpeg : string -> gmap string Z -> Z * gmap string Z.

Lemma print_summaries_prints file_summary i :
  prints_only (print_summaries file_summary i).
Proof.
  revert i. induction file_summary as [|s rest IH]; intros i;
    cbn [print_summaries]; chatter.
Qed.

Lemma apply_summaries_skipped audio_tracks ffmpeg_folder skipped_files
    file_summary i total w :
  (forall k, i <= k < i + Z.of_nat (length file_summary) ->
             k ∈ skipped_files) ->
  exists lines,
    apply_summaries ffmpeg audio_tracks ffmpeg_folder skipped_files
                    file_summary i total w
    = (Ok total, printed w lines).
Proof.
  revert i w. induction file_summary as [|s rest IH]; intros i w Hall.
  - exists []. by rewrite printed_nil.
  - cbn [apply_summaries].
    rewrite bool_decide_eq_false_2.
    2:{ intros Hi. apply Hi, Hall. simpl. lia. }
    unfold mbind, M_bind, Os.print.
    destruct (IH (i + 1) (printed w [nl +:+ "Skipping modifications for "
                                       +:+ file_name s]))
      as (lines & Hrest).
    { intros k Hk. apply Hall. simpl. lia. }
    exists ((nl +:+ "Skipping modifications for " +:+ file_name s)
              :: lines).
    unfold printed in *. simpl in *. rewrite Hrest.
    by rewrite <- app_assoc.
Qed.

(** X12: when the answer to the plan is [n] or [N], the metadata mode
    ends there: no command is run, no file changes, and only that one
    line is read. *)
Theorem declined_plan_changes_nothing movie_data_list audio_tracks
    ffmpeg_folder w action rest file_summary :
  Planner.plan_files audio_tracks movie_data_list [] = Ok file_summary ->
  stdin w = action :: rest ->
  PyStr.lower action = "n" ->
  exists w',
    tmdb_delete_track ffmpeg movie_data_list audio_tracks ffmpeg_folder w
    = (Ok tt, w')
    /\ fs w' = fs w /\ shell w' = shell w /\ stdin w' = rest
    /\ last (stdout w') = Some "No modifications made. Exiting.".
Proof.
  intros Hplan Hin Hn. unfold tmdb_delete_track.
  unfold mbind at 1, M_bind at 1, lift. rewrite Hplan.
  unfold mbind at 1, M_bind at 1.
  destruct (print_summaries_prints file_summary 1 w) as ([] & lines & ->).
  unfold mbind, M_bind, Os.input. cbn [stdin printed]. rewrite Hin.
  rewrite bool_decide_eq_true_2 by done.
  eexists. split; [reflexivity|]. cbn [fs shell stdin stdout].
  repeat split. by rewrite last_snoc.
Qed.

(** X13: an answer that is neither [y] nor [n] is read as the positions
    to skip; when one of its words is not an integer (as in [yes] or
    [1,2]) the conversion raises, before any command is run and with
    every file as it was. *)
Theorem unreadable_answer_raises movie_data_list audio_tracks
    ffmpeg_folder w action rest file_summary e :
  Planner.plan_files audio_tracks movie_data_list [] = Ok file_summary ->
  stdin w = action :: rest ->
  PyStr.lower action <> "n" -> PyStr.lower action <> "y" ->
  traverse PyStr.int (PyStr.split action) = Raise e ->
  exists w',
    tmdb_delete_track ffmpeg movie_data_list audio_tracks ffmpeg_folder w
    = (Raise e, w')
    /\ fs w' = fs w /\ shell w' = shell w.
Proof.
  intros Hplan Hin Hn Hy He. unfold tmdb_delete_track.
  unfold mbind at 1, M_bind at 1, lift. rewrite Hplan.
  unfold mbind at 1, M_bind at 1.
  destruct (print_summaries_prints file_summary 1 w) as ([] & lines & ->).
  unfold mbind, M_bind, Os.input. cbn [stdin printed]. rewrite Hin.
  rewrite bool_decide_eq_false_2 by done.
  rewrite bool_decide_eq_true_2 by done. rewrite He.
  eexists. split; [reflexivity|]. done.
Qed.

(** X14: when the answer lists the position of every planned file, each
    of them is skipped: no command is run, no file changes, and the
    total reported is zero. *)
Theorem skipping_every_line_changes_nothing movie_data_list audio_tracks
    ffmpeg_folder w action rest file_summary skipped_files :
  Planner.plan_files audio_tracks movie_data_list [] = Ok file_summary ->
  stdin w = action :: rest ->
  PyStr.lower action <> "n" -> PyStr.lower action <> "y" ->
  traverse PyStr.int (PyStr.split action) = Ok skipped_files ->
  (forall i, 1 <= i <= Z.of_nat (length file_summary) ->
             i ∈ skipped_files) ->
  exists w',
    tmdb_delete_track ffmpeg movie_data_list audio_tracks ffmpeg_folder w
    = (Ok tt, w')
    /\ fs w' = fs w /\ shell w' = shell w
    /\ total_line 0 ∈ stdout w'.
Proof.
  intros Hplan Hin Hn Hy Hskip Hall. unfold tmdb_delete_track.
  unfold mbind at 1, M_bind at 1, lift. rewrite Hplan.
  unfold mbind at 1, M_bind at 1.
  destruct (print_summaries_prints file_summary 1 w) as ([] & lines & ->).
  unfold mbind at 1, M_bind at 1, Os.input. cbn [stdin printed].
  rewrite Hin.
  rewrite bool_decide_eq_false_2 by done.
  rewrite bool_decide_eq_true_2 by done. rewrite Hskip.
  unfold mbind at 1, M_bind at 1.
  unfold mbind at 1, M_bind at 1.
  match goal with
  | |- context [apply_summaries _ _ _ _ _ _ _ ?w0] =>
      destruct (apply_summaries_skipped audio_tracks ffmpeg_folder
                  skipped_files file_summary 1 0 w0) as (lines' & ->);
        [intros k Hk; apply Hall; lia|]
  end.
  unfold mbind, M_bind, Os.print.
  eexists. split; [reflexivity|]. cbn [fs shell stdin stdout printed].
  repeat split.
  apply elem_of_app. left. apply elem_of_app. right.
  apply list_elem_of_singleton. done.
Qed.

End PlanAnswerFacts.

Lemma declined_plan_changes_nothing_witness :
  stdin (Sample.world_with ["N"]) = "N" :: []
  /\ PyStr.lower "N" = "n"
  /\ exists w',
       Executor.tmdb_delete_track Sample.working_ffmpeg [Sample.film_data]
         Sample.film_tracks "/ff" (Sample.world_with ["N"])
       = (Ok tt, w')
       /\ fs w' = fs (Sample.world_with ["N"])
       /\ shell w' = shell (Sample.world_with ["N"])
       /\ stdin w' = []
       /\ last (stdout w') = Some "No modifications made. Exiting.".
Proof.
  split; [reflexivity|]. split; [reflexivity|].
  eapply (declined_plan_changes_nothing Sample.working_ffmpeg
            [Sample.film_data] Sample.film_tracks "/ff"
            (Sample.world_with ["N"]) "N" []);
    reflexivity.
Defined.

Lemma unreadable_answer_raises_witness :
  stdin (Sample.world_with ["yes"]) = "yes" :: []
  /\ PyStr.lower "yes" <> "n" /\ PyStr.lower "yes" <> "y"
  /\ Executor.traverse PyStr.int (PyStr.split "yes")
     = Raise (ValueError "invalid literal for int() with base 10: 'yes'")
  /\ exists w',
       Executor.tmdb_delete_track Sample.working_ffmpeg [Sample.film_data]
         Sample.film_tracks "/ff" (Sample.world_with ["yes"])
       = (Raise (ValueError
                   "invalid literal for int() with base 10: 'yes'"), w')
       /\ fs w' = fs (Sample.world_with ["yes"])
       /\ shell w' = shell (Sample.world_with ["yes"]).
Proof.
  split; [reflexivity|]. split; [discriminate|]. split; [discriminate|].
  split; [reflexivity|].
  eapply (unreadable_answer_raises Sample.working_ffmpeg
            [Sample.film_data] Sample.film_tracks "/ff"
            (Sample.world_with ["yes"]) "yes" []);
    [reflexivity|reflexivity|discriminate|discriminate|reflexivity].
Defined.

Lemma skipping_every_line_changes_nothing_witness :
  stdin (Sample.world_with ["1"]) = "1" :: []
  /\ PyStr.lower "1" <> "n" /\ PyStr.lower "1" <> "y"
  /\ Executor.traverse PyStr.int (PyStr.split "1") = Ok [1]
  /\ exists w',
       Executor.tmdb_delete_track Sample.working_ffmpeg [Sample.film_data]
         Sample.film_tracks "/ff" (Sample.world_with ["1"])
       = (Ok tt, w')
       /\ fs w' = fs (Sample.world_with ["1"])
       /\ shell w' = shell (Sample.world_with ["1"])
       /\ Executor.total_line 0 ∈ stdout w'.
Proof.
  split; [reflexivity|]. split; [discriminate|]. split; [discriminate|].
  split; [reflexivity|].
  eapply (skipping_every_line_changes_nothing Sample.working_ffmpeg
            [Sample.film_data] Sample.film_tracks "/ff"
            (Sample.world_with ["1"]) "1" [] _ [1]);
    [reflexivity|reflexivity|discriminate|discriminate|reflexivity|].
  intros i Hi. simpl in Hi. assert (i = 1) as -> by lia.
  apply list_elem_of_here.
Defined.

(** ** The metadata mode *)

Section MetadataFacts.

Import Metadata.

Variable ffmpeg : string -> gmap string Z -> Z * gmap string Z.
Variable test_api_key : string -> bool.
Variable languages_get : option string -> result (option string).
Variable external : string -> result (list Z).
Variable details : Z + string -> result (option string).

Lemma ask_proceed_read_only lines : read_only (ask_proceed lines).
Proof. induction lines as [|l lines IH]; cbn [ask_proceed]; frame. Qed.

Lemma ask_api_key_read_only lines api_key :
  read_only (ask_api_key test_api_key lines api_key).
Proof.
  revert api_key.
  induction lines as [|l lines IH]; intros api_key; cbn [ask_api_key];
    frame.
Qed.

Lemma print_wrong_read_only wrong : read_only (print_wrong wrong).
Proof. induction wrong as [|m wrong IH]; cbn [print_wrong]; frame. Qed.

Lemma not_processed_before (x y : string) (processed : gset string) :
  x ∉ processed ∪ {[ y ]} -> x ∉ processed.
Proof. intros Hn Hx. apply Hn, elem_of_union. by left. Qed.

Lemma not_processed_after (x y : string) (processed : gset string) :
  x ∉ processed -> x <> y -> x ∉ processed ∪ {[ y ]}.
Proof.
  intros Hn Hne [Hx|Hx%elem_of_singleton]%elem_of_union; done.
Qed.

Lemma not_processed_self (x : string) (processed : gset string) :
  x ∉ processed ∪ {[ x ]} -> False.
Proof.
  intros Hn. apply Hn, elem_of_union. right. by apply elem_of_singleton.
Qed.

Lemma collect_movie_data_spec audio_tracks processed acc w :
  exists new lines,
    collect_movie_data audio_tracks processed acc w
    = (Ok (acc ++ new), printed w lines)
    /\ NoDup (md_FullFilePath <$> new)
    /\ (forall md, md ∈ new ->
          (md_FullFilePath md ∉ processed)
          /\ md_File md = PyStr.basename (md_FullFilePath md)
          /\ md_original_language md = None
          /\ (exists source,
                Ident.extract_movie_id (md_FullFilePath md)
                = (Some source, Some (md_movie_id md)))
          /\ md_FullFilePath md ∈ File <$> audio_tracks)
    /\ (forall t source movie_id,
          t ∈ audio_tracks -> File t ∉ processed ->
          Ident.extract_movie_id (File t) = (Some source, Some movie_id) ->
          File t ∈ md_FullFilePath <$> new).
Proof.
  revert processed acc w.
  induction audio_tracks as [|t rest IH]; intros processed acc w.
  { exists [], []. rewrite app_nil_r, printed_nil.
    split; [done|]. split; [constructor|].
    split; [by intros md ?%elem_of_nil|].
    by intros t s i ?%elem_of_nil. }
  cbn [collect_movie_data]. case_bool_decide as Hp.
  { destruct (IH processed acc w) as (new & lines & -> & Hnd & Hin & Hall).
    exists new, lines. split; [done|]. split; [done|]. split.
    - intros md Hmd. destruct (Hin md Hmd) as (? & ? & ? & ? & ?).
      repeat split; try done. rewrite fmap_cons. by right.
    - intros t' s i [->|Ht']%elem_of_cons Hnp He; [done|]. by eapply Hall. }
  assert (forall w0 : world,
    (forall source movie_id,
       Ident.extract_movie_id (File t) <> (Some source, Some movie_id)) ->
    exists new lines,
      collect_movie_data rest (processed ∪ {[File t]}) acc w0
      = (Ok (acc ++ new), printed w0 lines)
      /\ NoDup (md_FullFilePath <$> new)
      /\ (forall md, md ∈ new ->
            (md_FullFilePath md ∉ processed)
            /\ md_File md = PyStr.basename (md_FullFilePath md)
            /\ md_original_language md = None
            /\ (exists source,
                  Ident.extract_movie_id (md_FullFilePath md)
                  = (Some source, Some (md_movie_id md)))
            /\ md_FullFilePath md ∈ (File <$> t :: rest))
      /\ (forall t' source movie_id,
            t' ∈ t :: rest -> File t' ∉ processed ->
            Ident.extract_movie_id (File t')
            = (Some source, Some movie_id) ->
            File t' ∈ md_FullFilePath <$> new)) as Hskip.
  { intros w0 Hno.
    destruct (IH (processed ∪ {[File t]}) acc w0)
      as (new & lines & -> & Hnd & Hin & Hall).
    exists new, lines. split; [done|]. split; [done|]. split.
    - intros md Hmd. destruct (Hin md Hmd) as (Hn & ? & ? & ? & ?).
      split; [by eapply not_processed_before|]. repeat split; try done.
      rewrite fmap_cons. by right.
    - intros t' s i [->|Ht']%elem_of_cons Hnp He; [by destruct (Hno s i)|].
      destruct (decide (File t' = File t)) as [Heq|Hne].
      + rewrite Heq in He. by destruct (Hno s i).
      + eapply Hall; [done| |done]. by apply not_processed_after. }
  destruct (Ident.extract_movie_id (File t)) as [[source|] [movie_id|]]
    eqn:Hid.
  2,3,4: unfold mbind, M_bind, Os.print;
    match goal with
    | |- context [collect_movie_data _ _ _ ?w0] =>
        destruct (Hskip w0) as (new & lines & -> & ?); [done|]
    end;
    eexists new, (_ :: lines); split; [|done];
    unfold printed; simpl; by rewrite <- app_assoc.
  clear Hskip.
  destruct (IH (processed ∪ {[File t]})
              (acc ++ [{| md_File := PyStr.basename (File t);
                          md_FullFilePath := File t;
                          md_movie_id := movie_id;
                          md_original_language := None |}]) w)
    as (new & lines & -> & Hnd & Hin & Hall).
  exists ({| md_File := PyStr.basename (File t);
             md_FullFilePath := File t;
             md_movie_id := movie_id;
             md_original_language := None |} :: new), lines.
  split; [by rewrite <- app_assoc|]. split; [|split].
  - rewrite fmap_cons. apply NoDup_cons. split; [|done].
    intros (md & Hmd & Hm)%list_elem_of_fmap.
    destruct (Hin md Hm) as (Hn & _).
    cbn [md_FullFilePath] in Hmd. rewrite <- Hmd in Hn.
    by apply not_processed_self in Hn.
  - intros md [->|Hmd]%elem_of_cons.
    + cbn [md_File md_FullFilePath md_movie_id md_original_language].
      repeat split; try done; [by exists source|].
      rewrite fmap_cons. by left.
    + destruct (Hin md Hmd) as (Hn & ? & ? & ? & ?).
      split; [by eapply not_processed_before|]. repeat split; try done.
      rewrite fmap_cons. by right.
  - intros t' s i [->|Ht']%elem_of_cons Hnp He.
    + rewrite fmap_cons. by left.
    + rewrite fmap_cons.
      destruct (decide (File t' = File t)) as [Heq|Hne].
      * rewrite Heq. by left.
      * right. eapply Hall; [done| |done]. by apply not_processed_after.
Qed.

Lemma collect_movie_data_read_only audio_tracks processed acc :
  read_only (collect_movie_data audio_tracks processed acc).
Proof.
  intros w.
  by destruct (collect_movie_data_spec audio_tracks processed acc w)
    as (new & lines & -> & _).
Qed.

(** X15: with [wrong_language] the metadata mode only reports: whatever
    is typed, whatever the services answer and whether it returns or
    raises, no command is run and no file changes. *)
Theorem wrong_language_report_is_read_only audio_tracks ffmpeg_folder :
  read_only
    (TMDB_pull_language ffmpeg test_api_key languages_get external details
       audio_tracks ffmpeg_folder true).
Proof.
  unfold TMDB_pull_language, report_wrong.
  pose proof ask_proceed_read_only.
  pose proof ask_api_key_read_only.
  pose proof print_wrong_read_only.
  pose proof collect_movie_data_read_only.
  frame.
Qed.

(** X16: the list of the files to look up has one entry per distinct
    [File] of the tracks that carries an identifier: no path twice, every
    entry built from a track's path (its base name, the identifier found
    in the path, no language yet), and no such path left out. Collecting
    returns and changes nothing but standard output. *)
Theorem movie_data_one_per_file audio_tracks w :
  exists movie_data_list lines,
    collect_movie_data audio_tracks ∅ [] w
    = (Ok movie_data_list, printed w lines)
    /\ NoDup (md_FullFilePath <$> movie_data_list)
    /\ (forall md, md ∈ movie_data_list ->
          md_File md = PyStr.basename (md_FullFilePath md)
          /\ md_original_language md = None
          /\ (exists source,
                Ident.extract_movie_id (md_FullFilePath md)
                = (Some source, Some (md_movie_id md)))
          /\ md_FullFilePath md ∈ File <$> audio_tracks)
    /\ (forall t source movie_id,
          t ∈ audio_tracks ->
          Ident.extract_movie_id (File t) = (Some source, Some movie_id) ->
          File t ∈ md_FullFilePath <$> movie_data_list).
Proof.
  destruct (collect_movie_data_spec audio_tracks ∅ [] w)
    as (new & lines & Hrun & Hnd & Hin & Hall).
  exists new, lines. split; [done|]. split; [done|]. split.
  - intros md Hmd. by destruct (Hin md Hmd) as (_ & ? & ? & ? & ?).
  - intros t s i Ht He. eapply Hall; [done|apply not_elem_of_empty|done].
Qed.

End MetadataFacts.

(** ** The language lookups of the metadata mode *)

Section LookupFacts.

Import Metadata.

Variable ffmpeg : string -> gmap string Z -> Z * gmap string Z.
Variable test_api_key : string -> bool.
Variable languages_get : option string -> result (option string).
Variable external : string -> result (list Z).
Variable details : Z + string -> result (option string).

Lemma ask_proceed_yes w answer rest :
  stdin w = answer :: rest -> PyStr.lower answer = "y" ->
  ask_proceed (stdin w) w
  = (Ok "y", {| fs := fs w; stdin := rest;
                stdout := stdout w ++ ["Do you want to proceed? (y/n): "];
                shell := shell w |}).
Proof.
  intros Hin Hy. rewrite Hin at 1. cbn [ask_proceed].
  unfold mbind, M_bind, Os.input. rewrite Hin, Hy.
  rewrite bool_decide_eq_true_2 by apply list_elem_of_here. done.
Qed.

Lemma ask_api_key_valid lines api_key w :
  test_api_key api_key = true ->
  ask_api_key test_api_key lines api_key w = (Ok (Some api_key), w).
Proof. intros H. destruct lines; cbn [ask_api_key]; by rewrite H. Qed.

Lemma fetch_languages_keeps movie_data_list :
  (forall source movie_id, exists l,
     Resolver.get_original_language languages_get external details
       source movie_id = Ok l) ->
  exists fetched,
    fetch_languages languages_get external details movie_data_list
    = Ok fetched
    /\ forall md, md ∈ movie_data_list ->
         Ident.extract_movie_id (md_File md) = (None, None) ->
         md ∈ fetched.
Proof.
  intros Htotal. unfold fetch_languages.
  induction movie_data_list as [|md0 rest (fetched & IH & Hkeep)].
  { exists []. split; [done|]. by intros md ?%elem_of_nil. }
  cbn [Executor.traverse]. rewrite IH. unfold fetch_language at 1.
  destruct (Ident.extract_movie_id (md_File md0)) as [source movie_id]
    eqn:Hid.
  destruct (Ident.nonempty source && Ident.nonempty movie_id) eqn:Hne.
  - destruct (Htotal (default "" source) (default "" movie_id))
      as [l ->].
    eexists. split; [reflexivity|].
    intros md [->|Hmd]%elem_of_cons He.
    + rewrite He in Hid. by simplify_eq.
    + apply elem_of_cons. right. by apply Hkeep.
  - exists (md0 :: fetched). split; [done|].
    intros md [->|Hmd]%elem_of_cons He.
    + apply elem_of_cons. by left.
    + apply elem_of_cons. right. by apply Hkeep.
Qed.

Lemma plan_files_KeyError audio_tracks movie_data_list acc md :
  md ∈ movie_data_list -> md_original_language md = None ->
  Planner.plan_files audio_tracks movie_data_list acc
  = Raise (KeyError "original_language").
Proof.
  intros Hin Hnone. revert acc.
  induction movie_data_list as [|md0 rest IH]; intros acc;
    [by apply elem_of_nil in Hin|].
  cbn [Planner.plan_files].
  pose proof (plan_file_cases audio_tracks md0) as Hc.
  unfold Planner.plan_file in *.
  destruct (md_original_language md0) as [ol|] eqn:Hol; [|done].
  apply elem_of_cons in Hin as [->|Hin]; [congruence|].
  cbn [getitem mbind result_bind] in *.
  destruct (Planner.partition_tracks ol _ [] []) as [del keep].
  destruct keep; cbn [mbind result_bind]; by apply IH.
Qed.

Lemma wrong_files_KeyError audio_tracks movie_data_list acc md :
  md ∈ movie_data_list -> md_original_language md = None ->
  wrong_files audio_tracks movie_data_list acc
  = Raise (KeyError "original_language").
Proof.
  intros Hin Hnone. revert acc.
  induction movie_data_list as [|md0 rest IH]; intros acc;
    [by apply elem_of_nil in Hin|].
  cbn [wrong_files]. unfold wrong_file.
  destruct (md_original_language md0) as [ol|] eqn:Hol; [|done].
  apply elem_of_cons in Hin as [->|Hin]; [congruence|].
  cbn [getitem mbind result_bind].
  destruct (wrong_tracks ol _); cbn [mbind result_bind]; by apply IH.
Qed.

(** X17: the identifier is looked for in the whole path when the files
    to look up are collected, but in the base name when the languages
    are fetched. A file whose identifier stands in a directory name is
    therefore collected and never gets a language, and the metadata mode
    raises [KeyError: 'original_language'], in the report and in the
    deletion alike, before any command is run. Stated for services that
    answer. *)
Theorem directory_identifier_raises_KeyError audio_tracks ffmpeg_folder
    wrong_language w answer key rest t source movie_id :
  stdin w = answer :: key :: rest ->
  PyStr.lower answer = "y" ->
  test_api_key (PyStr.strip key) = true ->
  t ∈ audio_tracks ->
  Ident.extract_movie_id (File t) = (Some source, Some movie_id) ->
  Ident.extract_movie_id (PyStr.basename (File t)) = (None, None) ->
  (forall source movie_id, exists l,
     Resolver.get_original_language languages_get external details
       source movie_id = Ok l) ->
  exists w',
    TMDB_pull_language ffmpeg test_api_key languages_get external details
      audio_tracks ffmpeg_folder wrong_language w
    = (Raise (KeyError "original_language"), w')
    /\ fs w' = fs w /\ shell w' = shell w.
Proof.
  intros Hin Hy Hkey Ht Hid Hbase Htotal.
  unfold TMDB_pull_language.
  unfold mbind at 1, M_bind at 1, Os.print at 1.
  unfold mbind at 1, M_bind at 1.
  erewrite (ask_proceed_yes _ answer (key :: rest)) by done.
  rewrite bool_decide_eq_false_2 by done.
  unfold mbind at 1, M_bind at 1, Os.input at 1. cbn [stdin].
  unfold mbind at 1, M_bind at 1. cbn [stdin].
  rewrite ask_api_key_valid by done.
  unfold mbind at 1, M_bind at 1.
  match goal with
  | |- context [collect_movie_data audio_tracks ∅ [] ?w0] =>
      destruct (collect_movie_data_spec audio_tracks ∅ [] w0)
        as (mds & lines & -> & _ & Hmds & Hall)
  end.
  cbn [app].
  destruct (proj1 (list_elem_of_fmap _ _ _)
              (Hall t source movie_id Ht (not_elem_of_empty _) Hid))
    as (md & Hpath & Hmd).
  destruct (Hmds md Hmd) as (_ & Hfile & Hnone & _).
  destruct (fetch_languages_keeps mds Htotal) as (fetched & Hf & Hkeep).
  assert (md ∈ fetched) as Hfetched.
  { apply Hkeep; [done|]. by rewrite Hfile, <- Hpath. }
  unfold mbind at 1, M_bind at 1, lift at 1. rewrite Hf.
  destruct wrong_language.
  - unfold mbind at 1, M_bind at 1. unfold mbind at 1, M_bind at 1.
    unfold lift. rewrite (wrong_files_KeyError _ _ _ md) by done.
    eexists. split; [reflexivity|]. done.
  - unfold mbind at 1, M_bind at 1. unfold Executor.tmdb_delete_track.
    unfold mbind at 1, M_bind at 1, lift.
    rewrite (plan_files_KeyError _ _ _ md) by done.
    eexists. split; [reflexivity|]. done.
Qed.

Lemma get_original_language_not_zho source movie_id l :
  Resolver.get_original_language languages_get external details
    source movie_id = Ok l ->
  l <> Some "zho".
Proof.
  assert (forall iso,
    Resolver.convert_iso_639_1_to_639_3 languages_get iso = Ok l ->
    l <> Some "zho") as Hconv.
  { intros iso. unfold Resolver.convert_iso_639_1_to_639_3.
    destruct (languages_get iso) as [[alpha_3|]|e];
      cbn [mbind result_bind]; [|by intros [= <-]|done].
    case_bool_decide; intros [= <-]; [done|congruence]. }
  unfold Resolver.get_original_language. case_bool_decide.
  - destruct (external movie_id) as [[|tmdb_id ?]|e];
      cbn [mbind result_bind]; [by intros [= <-]| |done].
    destruct (details (inl tmdb_id)) as [iso|e];
      cbn [mbind result_bind]; [apply Hconv|done].
  - destruct (details (inr movie_id)) as [iso|e];
      cbn [mbind result_bind]; [apply Hconv|done].
Qed.

(** X18: the language fetched for a file is never [zho], which is turned
    into [chi]; so when a file is planned, each of its tracks tagged
    [zho] is among the tracks to delete, whatever the original language
    of the film. *)
Theorem zho_tracks_are_planned_for_deletion audio_tracks md fetched s
    track :
  fetch_language languages_get external details md = Ok fetched ->
  md_original_language md = None ->
  Planner.plan_file audio_tracks fetched = Ok (Some s) ->
  track ∈ Planner.tracks_of_file audio_tracks fetched ->
  Language track = "zho" ->
  Planner.label track ∈ tracks_to_delete s.
Proof.
  intros Hfetch Hnone Hplan Htrack Hzho.
  pose proof (plan_file_cases audio_tracks fetched) as Hc.
  rewrite Hplan in Hc. destruct Hc as (_ & Hol & -> & _).
  apply list_elem_of_fmap. exists track. split; [done|].
  apply list_elem_of_filter. split; [|done].
  rewrite Hzho. intros Heq.
  unfold fetch_language in Hfetch.
  destruct (Ident.extract_movie_id (md_File md)) as [source movie_id].
  destruct (Ident.nonempty source && Ident.nonempty movie_id).
  - destruct (Resolver.get_original_language _ _ _ _ _) as [l|e] eqn:Hl;
      [|done].
    cbn [mbind result_bind] in Hfetch. injection Hfetch as <-.
    cbn [md_original_language set_original_language] in Hol.
    apply get_original_language_not_zho in Hl. congruence.
  - injection Hfetch as <-. congruence.
Qed.

End LookupFacts.

Lemma sample_services_answer source movie_id :
  exists l,
    Resolver.get_original_language Cases.languages_get Cases.external
      Cases.details source movie_id = Ok l.
Proof.
  unfold Resolver.get_original_language, Cases.external, Cases.details,
    Resolver.convert_iso_639_1_to_639_3, Cases.languages_get.
  repeat (case_bool_decide; cbn [mbind result_bind option_bind]);
    by eexists.
Qed.

Lemma directory_identifier_raises_KeyError_witness :
  stdin (Sample.world_with ["y"; "secret"]) = "y" :: "secret" :: []
  /\ PyStr.lower "y" = "y"
  /\ Cases.test_api_key (PyStr.strip "secret") = true
  /\ Cases.track Cases.alien 1 "eng" ∈ [Cases.track Cases.alien 1 "eng"]
  /\ Ident.extract_movie_id (File (Cases.track Cases.alien 1 "eng"))
     = (Some "tmdb", Some "348")
  /\ Ident.extract_movie_id
       (PyStr.basename (File (Cases.track Cases.alien 1 "eng")))
     = (None, None)
  /\ exists w',
       Metadata.TMDB_pull_language Sample.working_ffmpeg
         Cases.test_api_key Cases.languages_get Cases.external
         Cases.details [Cases.track Cases.alien 1 "eng"] "/ff" false
         (Sample.world_with ["y"; "secret"])
       = (Raise (KeyError "original_language"), w')
       /\ fs w' = fs (Sample.world_with ["y"; "secret"])
       /\ shell w' = shell (Sample.world_with ["y"; "secret"]).
Proof.
  split; [reflexivity|]. split; [reflexivity|]. split; [reflexivity|].
  split; [apply list_elem_of_here|]. split; [reflexivity|].
  split; [reflexivity|].
  apply (directory_identifier_raises_KeyError Sample.working_ffmpeg
           Cases.test_api_key Cases.languages_get Cases.external
           Cases.details [Cases.track Cases.alien 1 "eng"] "/ff" false
           (Sample.world_with ["y"; "secret"]) "y" "secret" []
           (Cases.track Cases.alien 1 "eng") "tmdb" "348");
    [reflexivity|reflexivity|reflexivity|apply list_elem_of_here
    |reflexivity|reflexivity|apply sample_services_answer].
Defined.

Lemma zho_tracks_are_planned_for_deletion_witness :
  Metadata.fetch_language Cases.languages_get Cases.external Cases.details
    Cases.hero_data
  = Ok (Metadata.set_original_language Cases.hero_data (Some "chi"))
  /\ md_original_language Cases.hero_data = None
  /\ Planner.plan_file Cases.hero_tracks
       (Metadata.set_original_language Cases.hero_data (Some "chi"))
     = Ok (Some {| file_name := "Hero {tmdb-79}.mkv";
                   original_language := Some "chi";
                   tracks_to_delete := ["1(zho)"];
                   tracks_to_keep := ["2(chi)"] |})
  /\ Cases.track Cases.hero 1 "zho"
       ∈ Planner.tracks_of_file Cases.hero_tracks
           (Metadata.set_original_language Cases.hero_data (Some "chi"))
  /\ Language (Cases.track Cases.hero 1 "zho") = "zho"
  /\ Planner.label (Cases.track Cases.hero 1 "zho")
       ∈ tracks_to_delete
           {| file_name := "Hero {tmdb-79}.mkv";
              original_language := Some "chi";
              tracks_to_delete := ["1(zho)"];
              tracks_to_keep := ["2(chi)"] |}.
Proof.
  assert (Hin : Cases.track Cases.hero 1 "zho"
                  ∈ Planner.tracks_of_file Cases.hero_tracks
                      (Metadata.set_original_language Cases.hero_data
                         (Some "chi"))).
  { vm_compute. apply list_elem_of_here. }
  split; [reflexivity|]. split; [reflexivity|]. split; [reflexivity|].
  split; [exact Hin|]. split; [reflexivity|].
  exact (zho_tracks_are_planned_for_deletion Cases.languages_get
           Cases.external Cases.details Cases.hero_tracks Cases.hero_data
           (Metadata.set_original_language Cases.hero_data (Some "chi"))
           _ (Cases.track Cases.hero 1 "zho")
           eq_refl eq_refl eq_refl Hin eq_refl).
Defined.

(** ** Edge cases of the remux *)

Section RemuxEdgeFacts.

Import Executor.

Variable ffmpeg : string -> gmap string Z -> Z * gmap string Z.
Variable pretty_table : list audio_track -> string.


(** X20: manual mode. The exit status is not read there, but a remux that
    leaves no temporary file does not cost the original: the size read of
    line 413 raises [FileNotFoundError] before the original is removed. *)
Theorem missing_output_spares_the_original ffmpeg_folder first others
    tracks_to_delete w options returncode fs' initial_size :
  let input_file_path := FullFilePath first in
  let temp_output_file_path := temp_path input_file_path in
  let cmd := ffmpeg_command ffmpeg_folder input_file_path
               (PyStr.join " " options) temp_output_file_path in
  traverse manual_map_option tracks_to_delete = Ok options ->
  ffmpeg cmd (fs w) = (returncode, fs') ->
  fs' !! input_file_path = Some initial_size ->
  fs' !! temp_output_file_path = None ->
  exists w',
    remux_selected ffmpeg ffmpeg_folder (first :: others) tracks_to_delete w
    = (Raise (FileNotFoundError temp_output_file_path), w')
    /\ fs w' = fs' /\ fs w' !! input_file_path = Some initial_size.
Proof.
  intros input_file_path temp_output_file_path cmd Hopt Hrun Hin Htmp.
  unfold remux_selected, run.
  unfold mbind, M_bind, mret, M_ret, lift, Os.print, Os.getsize.
  rewrite Hopt. cbn [first_track fs stdin stdout shell].
  fold input_file_path. fold temp_output_file_path. fold cmd.
  rewrite Hrun. cbn [fs stdin stdout shell]. rewrite Hin.
  cbn [fs stdin stdout shell]. rewrite Htmp.
  eexists. split; [reflexivity|]. done.
Qed.

Lemma delete_loop_skips ffmpeg_folder groups idx len total answers rest w :
  stdin w = answers ++ rest ->
  length answers = length groups ->
  Forall (fun answer => "s" ∈ PyStr.split answer
                        /\ Forall readable (PyStr.split answer))
         answers ->
  delete_loop ffmpeg pretty_table ffmpeg_folder groups idx len total w
  = (Ok total,
     {| fs := fs w; stdin := rest;
        stdout := stdout w
                  ++ (g ← groups;
                      [pretty_table
                         ((fun track => set_File track (display_name track))
                            <$> g.2);
                       select_prompt; "File will be skipped."]);
        shell := shell w |}).
Proof.
  revert answers idx w.
  induction groups as [|[file_key file_audio_tracks] groups IH];
    intros answers idx w Hin Hlen Hall.
  { destruct answers; [|done]. cbn [delete_loop].
    unfold mret, M_ret. destruct w. simpl in *. subst.
    by rewrite app_nil_r. }
  destruct answers as [|answer answers]; [done|].
  apply Forall_cons in Hall as [[Hs Hr] Hall].
  cbn [delete_loop]. unfold delete_tracks_of_file.
  unfold mbind at 1, M_bind at 1. unfold mbind at 1, M_bind at 1.
  rewrite (select_tracks_accepted _ _ _ answer (answers ++ rest))
    by (done || by apply accepted_skip).
  rewrite bool_decide_eq_true_2 by done.
  unfold mbind at 1, M_bind at 1, Os.print at 1, mret at 1, M_ret at 1.
  rewrite (IH answers) by (done || by injection Hlen).
  rewrite bind_cons. cbn [asked fs stdin stdout shell snd].
  by rewrite <- !app_assoc.
Qed.

(** X21: when each file is answered with a selection that holds the
    token [s] and whose tokens are all readable (a token that [isdigit]
    passes is one that [int] reads), the manual mode goes through all
    the files without running a command or changing a file: it reads one
    line per file, writes for each file its table, the prompt and the
    skip notice, and never asks whether to proceed; the total reported
    is zero. *)
Theorem skipping_every_file_changes_nothing audio_tracks path
    ffmpeg_folder answers rest w :
  stdin w = answers ++ rest ->
  length answers = length audio_tracks ->
  Forall (fun answer => "s" ∈ PyStr.split answer
                        /\ Forall readable (PyStr.split answer))
         answers ->
  delete_tracks_from_files ffmpeg pretty_table audio_tracks path
    ffmpeg_folder w
  = (Ok tt,
     {| fs := fs w; stdin := rest;
        stdout := stdout w
                  ++ (g ← audio_tracks;
                      [pretty_table
                         ((fun track => set_File track (display_name track))
                            <$> g.2);
                       select_prompt; "File will be skipped."])
                  ++ [total_line 0];
        shell := shell w |}).
Proof.
  intros Hin Hlen Hall. unfold delete_tracks_from_files.
  unfold mbind, M_bind.
  rewrite (delete_loop_skips _ _ _ _ _ answers rest) by done.
  unfold Os.print. cbn [fs stdin stdout shell].
  by rewrite <- app_assoc.
Qed.

End RemuxEdgeFacts.


Lemma missing_output_spares_the_original_witness :
  Executor.traverse Executor.manual_map_option ["3"] = Ok ["-map -0:a:2"]
  /\ Cases.absent_ffmpeg (Sample.film_command "-map -0:a:2")
       (fs (Sample.world_with [])) = (127, fs (Sample.world_with []))
  /\ fs (Sample.world_with []) !! Sample.film = Some (100 * Sample.mib)
  /\ fs (Sample.world_with []) !! Sample.film_temp = None
  /\ exists w',
       Executor.remux_selected Cases.absent_ffmpeg "/ff"
         (Cases.film_eng :: [Cases.film_fre]) ["3"] (Sample.world_with [])
       = (Raise (FileNotFoundError Sample.film_temp), w')
       /\ fs w' = fs (Sample.world_with [])
       /\ fs w' !! Sample.film = Some (100 * Sample.mib).
Proof.
  split; [reflexivity|]. split; [reflexivity|]. split; [reflexivity|].
  split; [reflexivity|].
  apply (missing_output_spares_the_original Cases.absent_ffmpeg "/ff"
           Cases.film_eng [Cases.film_fre] ["3"] (Sample.world_with [])
           ["-map -0:a:2"] 127 (fs (Sample.world_with []))
           (100 * Sample.mib));
    reflexivity.
Defined.

Lemma skipping_every_file_changes_nothing_witness :
  stdin (Sample.world_with ["s"; "2 s"; "y"]) = ["s"; "2 s"] ++ ["y"]
  /\ Forall (fun answer => "s" ∈ PyStr.split answer
                           /\ Forall readable (PyStr.split answer))
            ["s"; "2 s"]
  /\ Executor.delete_tracks_from_files Sample.working_ffmpeg Sample.table
       [(Sample.film, [Cases.film_eng; Cases.film_fre]);
        (Sample.amelie, [Sample.amelie_track])] "/m" "/ff"
       (Sample.world_with ["s"; "2 s"; "y"])
     = (Ok tt,
        {| fs := fs (Sample.world_with ["s"; "2 s"; "y"]);
           stdin := ["y"];
           stdout := stdout (Sample.world_with ["s"; "2 s"; "y"])
                     ++ (g ← [(Sample.film,
                               [Cases.film_eng; Cases.film_fre]);
                              (Sample.amelie, [Sample.amelie_track])];
                         [Sample.table
                            ((fun track =>
                                Executor.set_File track
                                  (Executor.display_name track)) <$> g.2);
                          Executor.select_prompt;
                          "File will be skipped."])
                     ++ [Executor.total_line 0];
           shell := shell (Sample.world_with ["s"; "2 s"; "y"]) |}).
Proof.
  assert (Hs : readable "s").
  { intros Hd. vm_compute in Hd. discriminate Hd. }
  assert (Hall : Forall (fun answer => "s" ∈ PyStr.split answer
                                       /\ Forall readable
                                                 (PyStr.split answer))
                        ["s"; "2 s"]).
  { change (PyStr.split "s") with ["s"].
    change (PyStr.split "2 s") with ["2"; "s"].
    repeat constructor; try exact Hs.
    intros _. exists 2. reflexivity. }
  split; [reflexivity|]. split; [exact Hall|].
  exact (skipping_every_file_changes_nothing Sample.working_ffmpeg
           Sample.table
           [(Sample.film, [Cases.film_eng; Cases.film_fre]);
            (Sample.amelie, [Sample.amelie_track])] "/m" "/ff"
           ["s"; "2 s"] ["y"] (Sample.world_with ["s"; "2 s"; "y"])
           eq_refl eq_refl Hall).
Defined.

(** ** The table and the grouping by file *)

Section TableFacts.

Import Executor Table.

Lemma take_length_le n (s : string) :
  (n <= String.length s)%nat -> String.length (PyStr.take n s) = n.
Proof.
  revert s. induction n as [|n IH]; intros [|c s]; simpl; try lia.
  intros Hn. rewrite IH; lia.
Qed.

(** X22: a base name of at most 70 characters is displayed as it is. A
    longer one is cut to its first [67 - len(ext)] characters, followed
    by the five characters of the ellipsis mark and the extension: the
    displayed name then has 72 characters, two more than the limit of
    line 352. Stated for an extension of at most 67 characters. *)
Theorem display_name_length track :
  let file_name := PyStr.basename (FullFilePath track) in
  let file_ext := (PyStr.splitext file_name).2 in
  (String.length file_ext <= 67)%nat ->
  ((String.length file_name <= 70)%nat -> display_name track = file_name)
  /\ ((70 < String.length file_name)%nat ->
      display_name track
      = PyStr.take (67 - String.length file_ext) file_name
          +:+ "[...]" +:+ file_ext
      /\ String.length (display_name track) = 72%nat).
Proof.
  intros file_name file_ext Hext. unfold display_name.
  fold file_name. fold file_ext. split; intros Hlen.
  - destruct (Z.ltb_spec 70 (Z.of_nat (String.length file_name)));
      [lia|done].
  - destruct (Z.ltb_spec 70 (Z.of_nat (String.length file_name)));
      [|lia].
    unfold slice_to.
    destruct (Z.ltb_spec (70 - Z.of_nat (String.length file_ext) - 3) 0);
      [lia|].
    replace (Z.to_nat (70 - Z.of_nat (String.length file_ext) - 3))
      with (67 - String.length file_ext)%nat by lia.
    split; [done|].
    rewrite !string_length_app, take_length_le by lia.
    change (String.length "[...]") with 5%nat. lia.
Qed.

Lemma add_to_group_keys {A} file_key (x : A) groups :
  (add_to_group file_key x groups).*1
  = if bool_decide (file_key ∈ groups.*1) then groups.*1
    else groups.*1 ++ [file_key].
Proof.
  induction groups as [|[k xs] groups IH]; [done|].
  cbn [add_to_group]. destruct (decide (k = file_key)) as [->|Hk].
  - rewrite (bool_decide_eq_true_2 (file_key = file_key)) by done.
    cbn [fmap list_fmap fst].
    rewrite bool_decide_eq_true_2; [done|]. by left.
  - rewrite (bool_decide_eq_false_2 (k = file_key)) by done.
    cbn [fmap list_fmap fst] in *. rewrite IH.
    destruct (decide (file_key ∈ groups.*1)) as [Hin|Hin].
    + rewrite !bool_decide_eq_true_2; [done|by right|done].
    + rewrite !bool_decide_eq_false_2; [done| |done].
      intros [?|?]%elem_of_cons; [by subst|done].
Qed.

Lemma add_to_group_elem {A} file_key (x : A) groups k xs' :
  NoDup groups.*1 ->
  (k, xs') ∈ add_to_group file_key x groups ->
  (k <> file_key /\ (k, xs') ∈ groups)
  \/ (k = file_key
      /\ exists xs, xs' = xs ++ [x]
           /\ ((file_key, xs) ∈ groups
               \/ (xs = [] /\ file_key ∉ groups.*1))).
Proof.
  induction groups as [|[k0 xs0] groups IH]; intros Hnd.
  - intros [= -> ->]%list_elem_of_singleton. right. split; [done|].
    exists []. split; [done|]. right. split; [done|]. apply not_elem_of_nil.
  - cbn [fmap list_fmap fst] in Hnd. apply NoDup_cons in Hnd as [Hk0 Hnd].
    cbn [add_to_group]. case_bool_decide as Hk.
    + subst k0. intros [[= -> ->]|Hin]%elem_of_cons.
      * right. split; [done|]. exists xs0. split; [done|]. left. by left.
      * left. split; [|by right]. intros ->. apply Hk0.
        apply list_elem_of_fmap. by exists (file_key, xs').
    + intros [[= -> ->]|Hin]%elem_of_cons.
      * left. split; [done|]. by left.
      * destruct (IH Hnd Hin) as [[Hne Hg]|(-> & xs & -> & Hg)].
        -- left. split; [done|]. by right.
        -- right. split; [done|]. exists xs. split; [done|].
           destruct Hg as [Hg|[-> Hg]]; [left; by right|right].
           split; [done|]. cbn [fmap list_fmap fst].
           intros [?|?]%elem_of_cons; [by subst|done].
Qed.

Lemma filter_none {A} (P : A -> Prop) `{forall x, Decision (P x)} l :
  (forall x, x ∈ l -> ~ P x) -> filter P l = [].
Proof.
  induction l as [|x l IH]; intros Hl; [done|].
  rewrite filter_cons_False by (apply Hl; by left).
  apply IH. intros y Hy. apply Hl. by right.
Qed.

Lemma grouped_step {A} (key : A -> string) l groups x :
  grouped key l groups ->
  grouped key (l ++ [x]) (add_to_group (key x) x groups).
Proof.
  intros (Hnd & Hgroups & Hkeys). split; [|split].
  - rewrite add_to_group_keys. case_bool_decide as Hk; [done|].
    apply NoDup_app. split; [done|]. split; [|apply NoDup_singleton].
    intros k Hin Heq%list_elem_of_singleton. by subst.
  - intros k xs' Hin.
    destruct (add_to_group_elem _ _ _ _ _ Hnd Hin)
      as [[Hne Hg]|(-> & xs & -> & Hg)].
    + destruct (Hgroups k xs' Hg) as [Hnil Hxs]. split; [done|].
      rewrite filter_app, <- Hxs, filter_cons_False by done.
      by rewrite filter_nil, app_nil_r.
    + split; [by destruct xs|].
      rewrite filter_app, filter_cons_True by done.
      rewrite filter_nil. f_equal.
      destruct Hg as [Hg|[-> Hg]]; [by apply Hgroups|].
      symmetry. apply filter_none.
      intros y Hy Heq. apply Hg. rewrite <- Heq. by apply Hkeys.
  - intros y Hy. rewrite add_to_group_keys.
    apply elem_of_app in Hy as [Hy|Hy%list_elem_of_singleton].
    + case_bool_decide; [by apply Hkeys|].
      apply elem_of_app. left. by apply Hkeys.
    + subst y. case_bool_decide; [done|].
      apply elem_of_app. right. by apply list_elem_of_singleton.
Qed.

Lemma grouped_fold {A} (key : A -> string) l0 l groups :
  grouped key l0 groups ->
  grouped key (l0 ++ l)
    (fold_left (fun groups x => add_to_group (key x) x groups) l groups).
Proof.
  revert l0 groups. induction l as [|x l IH]; intros l0 groups Hg.
  - by rewrite app_nil_r.
  - cbn [fold_left]. rewrite (cons_middle x l0 l), app_assoc.
    by apply IH, grouped_step.
Qed.


(** X23: the grouping loops of lines 337-342 and 492-497 lose and
    duplicate nothing: no key occurs twice, the group of a key is not
    empty and holds exactly the elements with that key, in their order,
    and every element's key has a group. *)
Theorem group_by_spec {A} (key : A -> string) (l : list A) :
  NoDup (group_by key l).*1
  /\ (forall k xs, (k, xs) ∈ group_by key l ->
        xs <> [] /\ xs = filter (fun x => key x = k) l)
  /\ (forall x, x ∈ l -> key x ∈ (group_by key l).*1).
Proof.
  unfold group_by.
  change (grouped key ([] ++ l)
            (fold_left (fun groups x => add_to_group (key x) x groups)
                       l [])).
  apply grouped_fold. split; [constructor|]. split.
  - by intros k xs ?%elem_of_nil.
  - by intros x ?%elem_of_nil.
Qed.

End TableFacts.

(** ** The command line *)

Section MainFacts.

Import Main.

Variable os_walk : string -> list walk_entry.
Variable ffprobe : string -> string + probe.
Variable ffmpeg : string -> gmap string Z -> Z * gmap string Z.
Variable pretty_table : list audio_track -> string.
Variable render : list (list cell) -> string.
Variable test_api_key : string -> bool.
Variable languages_get : option string -> result (option string).
Variable external : string -> result (list Z).
Variable details : Z + string -> result (option string).

Lemma bind_prints {A B} (m : M A) (f : A -> M B) w :
  prints_only m -> exists a lines, (m ≫= f) w = f a (printed w lines).
Proof.
  intros Hm. destruct (Hm w) as (a & lines & Hrun).
  exists a, lines. unfold mbind, M_bind. by rewrite Hrun.
Qed.

Lemma print_all_prints lines : prints_only (print_all lines).
Proof. induction lines as [|l lines IH]; cbn [print_all]; chatter. Qed.

Lemma get_movie_files_prints path extensions :
  prints_only (Finder.get_movie_files os_walk path extensions).
Proof. unfold Finder.get_movie_files. chatter. Qed.

Lemma get_audio_track_info_prints a ffmpeg_folder :
  work a = false ->
  prints_only
    (get_audio_track_info ffprobe ffmpeg test_api_key languages_get
       external details a ffmpeg_folder).
Proof.
  intros Hwork. unfold get_audio_track_info. rewrite Hwork.
  pose proof print_all_prints. chatter.
Qed.

Lemma print_audio_track_table_run audio_tracks w :
  Table.print_audio_track_table render audio_tracks w
  = (Ok (Table.renamed <$> audio_tracks),
     printed w [render (Table.table_rows
                          (Table.group_by FullFilePath audio_tracks) 0)]).
Proof. reflexivity. Qed.

Lemma show_output_run ns audio_tracks errors w :
  exists lines,
    show_output render ns audio_tracks errors w
    = (Ok (if arg_no_output ns then audio_tracks
           else Table.renamed <$> audio_tracks),
       printed w lines).
Proof.
  unfold show_output.
  destruct (arg_no_output ns); cbn [negb].
  - exists []. by rewrite printed_nil.
  - unfold mbind at 1, M_bind at 1.
    rewrite print_audio_track_table_run.
    match goal with
    | |- context [mbind ?f ?m ?w0] =>
        assert (prints_only m) as Hm
          by (pose proof print_all_prints; chatter);
        destruct (bind_prints m f w0 Hm) as ([] & lines & ->)
    end.
    eexists. unfold mret, M_ret. by rewrite printed_app.
Qed.


(** X25: without [work] and with [no_delete], [main] lists and stops: it
    returns, reads nothing from standard input, runs no command and
    changes no file. *)
Theorem no_delete_only_lists ns w :
  arg_work ns = false -> arg_no_delete ns = true ->
  exists lines,
    main os_walk ffprobe ffmpeg pretty_table render test_api_key
      languages_get external details ns w
    = (Ok tt, printed w lines).
Proof.
  intros Hwork Hnd. unfold main.
  match goal with
  | |- context [mbind ?f (Finder.get_movie_files _ ?p ?e) ?w0] =>
      destruct (bind_prints _ f w0 (get_movie_files_prints p e))
        as (movie_files & l1 & ->)
  end.
  match goal with
  | |- context [mbind ?f (get_audio_track_info _ _ _ _ _ _ ?a ?d) ?w0] =>
      destruct (bind_prints _ f w0 (get_audio_track_info_prints a d Hwork))
        as ([audio_tracks errors] & l2 & ->)
  end.
  rewrite Hwork, Hnd. cbn [negb].
  unfold mbind, M_bind.
  destruct (show_output_run ns audio_tracks errors
              (printed (printed w l1) l2)) as (l3 & ->).
  rewrite !printed_app.
  destruct (arg_no_output ns).
  - eexists. unfold Os.print. unfold printed.
    cbn [fs stdin stdout shell]. by rewrite <- !app_assoc.
  - by eexists.
Qed.

(** X26: without [work], when the answer to the deletion prompt is [n]
    or [N], [main] ends there: that line is the only one read, no
    command is run and no file changes. *)
Theorem declined_deletion_changes_nothing ns w answer rest :
  arg_work ns = false -> arg_no_delete ns = false ->
  stdin w = answer :: rest ->
  PyStr.lower answer = "n" ->
  exists lines,
    main os_walk ffprobe ffmpeg pretty_table render test_api_key
      languages_get external details ns w
    = (Ok tt,
       {| fs := fs w; stdin := rest;
          stdout := stdout w ++ lines; shell := shell w |}).
Proof.
  intros Hwork Hnd Hin Hn. unfold main.
  match goal with
  | |- context [mbind ?f (Finder.get_movie_files _ ?p ?e) ?w0] =>
      destruct (bind_prints _ f w0 (get_movie_files_prints p e))
        as (movie_files & l1 & ->)
  end.
  match goal with
  | |- context [mbind ?f (get_audio_track_info _ _ _ _ _ _ ?a ?d) ?w0] =>
      destruct (bind_prints _ f w0 (get_audio_track_info_prints a d Hwork))
        as ([audio_tracks errors] & l2 & ->)
  end.
  rewrite Hwork, Hnd. cbn [negb].
  unfold mbind at 1, M_bind at 1.
  destruct (show_output_run ns audio_tracks errors
              (printed (printed w l1) l2)) as (l3 & ->).
  rewrite !printed_app.
  unfold mbind at 1, M_bind at 1. cbn [stdin printed]. rewrite Hin.
  cbn [ask_delete]. unfold mbind at 1, M_bind at 1, Os.input.
  cbn [stdin printed fs stdout shell]. rewrite Hin, Hn.
  rewrite bool_decide_eq_true_2
    by (apply list_elem_of_further, list_elem_of_here).
  unfold mret at 1, M_ret at 1. rewrite Hn.
  rewrite bool_decide_eq_false_2 by done.
  eexists. unfold mret, M_ret. cbn [fs stdin stdout shell].
  rewrite <- !app_assoc. reflexivity.
Qed.

End MainFacts.

Lemma display_name_length_witness :
  (String.length
     (PyStr.splitext
        (PyStr.basename
           (FullFilePath (Cases.track Cases.long_file 1 "eng")))).2
   <= 67)%nat
  /\ ((String.length
         (PyStr.basename
            (FullFilePath (Cases.track Cases.long_file 1 "eng")))
       <= 70)%nat ->
      Executor.display_name (Cases.track Cases.long_file 1 "eng")
      = PyStr.basename
          (FullFilePath (Cases.track Cases.long_file 1 "eng")))
  /\ ((70 < String.length
              (PyStr.basename
                 (FullFilePath (Cases.track Cases.long_file 1 "eng"))))%nat ->
      Executor.display_name (Cases.track Cases.long_file 1 "eng")
      = PyStr.take
          (67 - String.length
                  (PyStr.splitext
                     (PyStr.basename
                        (FullFilePath
                           (Cases.track Cases.long_file 1 "eng")))).2)
          (PyStr.basename
             (FullFilePath (Cases.track Cases.long_file 1 "eng")))
          +:+ "[...]"
          +:+ (PyStr.splitext
                 (PyStr.basename
                    (FullFilePath
                       (Cases.track Cases.long_file 1 "eng")))).2
      /\ String.length
           (Executor.display_name (Cases.track Cases.long_file 1 "eng"))
         = 72%nat).
Proof.
  split; [vm_compute; lia|].
  apply (display_name_length (Cases.track Cases.long_file 1 "eng")).
  vm_compute. lia.
Defined.


Lemma no_delete_only_lists_witness :
  arg_work (Cases.listing false true) = false
  /\ arg_no_delete (Cases.listing false true) = true
  /\ exists lines,
       Main.main Cases.os_walk Sample.ffprobe Sample.working_ffmpeg
         Sample.table Cases.render Cases.test_api_key Cases.languages_get
         Cases.external Cases.details (Cases.listing false true)
         (Sample.world_with ["y"])
       = (Ok tt, printed (Sample.world_with ["y"]) lines).
Proof.
  split; [reflexivity|]. split; [reflexivity|].
  apply (no_delete_only_lists Cases.os_walk Sample.ffprobe
           Sample.working_ffmpeg Sample.table Cases.render
           Cases.test_api_key Cases.languages_get Cases.external
           Cases.details (Cases.listing false true)
           (Sample.world_with ["y"]));
    reflexivity.
Defined.

Lemma declined_deletion_changes_nothing_witness :
  arg_work (Cases.listing false false) = false
  /\ arg_no_delete (Cases.listing false false) = false
  /\ stdin (Sample.world_with ["N"; "3"]) = "N" :: ["3"]
  /\ PyStr.lower "N" = "n"
  /\ exists lines,
       Main.main Cases.os_walk Sample.ffprobe Sample.working_ffmpeg
         Sample.table Cases.render Cases.test_api_key Cases.languages_get
         Cases.external Cases.details (Cases.listing false false)
         (Sample.world_with ["N"; "3"])
       = (Ok tt,
          {| fs := fs (Sample.world_with ["N"; "3"]);
             stdin := ["3"];
             stdout := stdout (Sample.world_with ["N"; "3"]) ++ lines;
             shell := shell (Sample.world_with ["N"; "3"]) |}).
Proof.
  split; [reflexivity|]. split; [reflexivity|]. split; [reflexivity|].
  split; [reflexivity|].
  apply (declined_deletion_changes_nothing Cases.os_walk Sample.ffprobe
           Sample.working_ffmpeg Sample.table Cases.render
           Cases.test_api_key Cases.languages_get Cases.external
           Cases.details (Cases.listing false false)
           (Sample.world_with ["N"; "3"]) "N" ["3"]);
    reflexivity.
Defined.

(** ** The selection prompt of the manual mode *)

Section PromptFacts.

Import Executor.

Variable pretty_table : list audio_track -> string.

(** The test goes past the listed words. *)
Lemma all_valid_listed valid_tracks pre rest :
  Forall (listed valid_tracks) pre ->
  all_valid valid_tracks (pre ++ rest) = all_valid valid_tracks rest.
Proof.
  induction 1 as [|track pre (Hd & n & Hn & Hv) _ IH]; [done|].
  cbn [app all_valid]. rewrite Hd, Hn. cbn [mbind result_bind].
  by rewrite bool_decide_eq_true_2.
Qed.

(** What the test of the words returns: true when every word is listed,
    false at the first word that is not listed when that word is
    readable, and the exception of [int] when it is not. *)
Lemma all_valid_spec valid_tracks tracks_to_delete :
  match all_valid valid_tracks tracks_to_delete with
  | Ok true => Forall (listed valid_tracks) tracks_to_delete
  | Ok false =>
      ~ Forall (listed valid_tracks) tracks_to_delete
      /\ forall e, ~ meets_unreadable valid_tracks tracks_to_delete e
  | Raise e => meets_unreadable valid_tracks tracks_to_delete e
  end.
Proof.
  induction tracks_to_delete as [|track rest IH]; [by constructor|].
  cbn [all_valid].
  assert (Hhead : ~ listed valid_tracks track ->
                  readable track ->
                  ~ Forall (listed valid_tracks) (track :: rest)
                  /\ forall e,
                       ~ meets_unreadable valid_tracks (track :: rest) e).
  { intros Hnot Hr. split; [by intros [? _]%Forall_cons|].
    intros e ([|first pre] & bad & post & Heq & Hpre & Hd & He).
    - injection Heq as <- _. destruct (Hr Hd) as [n Hn]. congruence.
    - injection Heq as <- _. by apply Forall_cons in Hpre as [? _]. }
  destruct (PyStr.isdigit track) eqn:Hd.
  - destruct (PyStr.int track) as [n|e] eqn:Hn; cbn [mbind result_bind].
    + case_bool_decide as Hv.
      * assert (Hl : listed valid_tracks track) by (split; eauto).
        destruct (all_valid valid_tracks rest) as [[]|e].
        -- by constructor.
        -- destruct IH as [Hnot Hnone]. split.
           ++ by intros [_ ?]%Forall_cons.
           ++ intros e ([|first pre] & bad & post & Heq & Hpre & Hbad
                        & He).
              ** injection Heq as <- _. congruence.
              ** injection Heq as <- ->.
                 apply Forall_cons in Hpre as [_ Hpre].
                 apply (Hnone e). by exists pre, bad, post.
        -- destruct IH as (pre & bad & post & -> & Hpre & Hbad & He).
           exists (track :: pre), bad, post.
           split; [done|]. split; [by constructor|done].
      * apply Hhead.
        -- intros (_ & m & Hm & Hin). congruence.
        -- intros _. by exists n.
    + exists [], track, rest. by repeat split.
  - apply Hhead.
    + intros [Hd' _]. congruence.
    + intros Hd'. congruence.
Qed.

(** X27: the test of line 391 raises exactly when it meets a word that
    [isdigit] passes and [int] refuses (a superscript digit, a number of
    more than 4300 digits) after listed words only, and it then raises
    the exception of [int]. An answer is accepted exactly when each of
    its words is digits whose value is the number of a listed track, or
    when one of its words is [s] and the test does not raise. When
    every word is readable the test returns, and the answer is accepted
    exactly when one of its words is [s] or each of them is listed. The
    empty answer is accepted. *)
Theorem accepted_spec valid_tracks tracks_to_delete :
  (forall e, accepted valid_tracks tracks_to_delete = Raise e
             <-> meets_unreadable valid_tracks tracks_to_delete e)
  /\ (accepted valid_tracks tracks_to_delete = Ok true
      <-> Forall (listed valid_tracks) tracks_to_delete
          \/ ("s" ∈ tracks_to_delete
              /\ forall e,
                   ~ meets_unreadable valid_tracks tracks_to_delete e))
  /\ (Forall readable tracks_to_delete ->
      (exists ok, accepted valid_tracks tracks_to_delete = Ok ok)
      /\ (accepted valid_tracks tracks_to_delete = Ok true
          <-> "s" ∈ tracks_to_delete
              \/ Forall (listed valid_tracks) tracks_to_delete))
  /\ accepted valid_tracks [] = Ok true.
Proof.
  assert (Hraise : forall e,
             meets_unreadable valid_tracks tracks_to_delete e ->
             all_valid valid_tracks tracks_to_delete = Raise e).
  { intros e (pre & bad & post & -> & Hpre & Hbad & He).
    rewrite (all_valid_listed _ _ _ Hpre). cbn [all_valid].
    by rewrite Hbad, He. }
  assert (Hreadable : Forall readable tracks_to_delete ->
                      forall e,
                        ~ meets_unreadable valid_tracks tracks_to_delete e).
  { intros Hr e (pre & bad & post & -> & _ & Hbad & He).
    apply Forall_app in Hr as [_ [Hr _]%Forall_cons].
    destruct (Hr Hbad) as [n Hn]. congruence. }
  pose proof (all_valid_spec valid_tracks tracks_to_delete) as Hspec.
  unfold accepted.
  destruct (all_valid valid_tracks tracks_to_delete) as [[]|e0] eqn:Hall;
    cbn [mbind result_bind orb].
  - split; [|split; [|split; [|done]]].
    + intros e. split; [done|]. by intros ?%Hraise.
    + split; [by left|done].
    + intros _. split; [by eexists|]. split; [by right|done].
  - destruct Hspec as [Hnot Hnone].
    split; [|split; [|split; [|done]]].
    + intros e. split; [done|]. by intros ?%Hraise.
    + split.
      * intros [= Hs]. right. by apply bool_decide_eq_true in Hs.
      * intros [?|[Hs _]]; [done|]. by rewrite bool_decide_eq_true_2.
    + intros _. split; [by eexists|]. split.
      * intros [= Hs]. left. by apply bool_decide_eq_true in Hs.
      * intros [Hs|?]; [|done]. by rewrite bool_decide_eq_true_2.
  - split; [|split; [|split; [|done]]].
    + intros e. split; [by intros [= <-]|].
      intros He%Hraise. congruence.
    + split; [done|].
      intros [Hl|[_ Hnone]]; [|by destruct (Hnone e0)].
      pose proof (all_valid_listed valid_tracks tracks_to_delete []
                    Hl) as Hgo.
      rewrite app_nil_r in Hgo. cbn in Hgo. congruence.
    + intros Hr. by destruct (Hreadable Hr e0).
Qed.

(** X28: an answer that is not accepted changes nothing and runs
    nothing: the notice is written and the file is asked about again,
    with its table, from the next line of standard input. *)
Theorem rejected_selection_asks_again file_audio_tracks w line rest :
  stdin w = line :: rest ->
  accepted (Track <$> file_audio_tracks) (PyStr.split line) = Ok false ->
  select_tracks pretty_table file_audio_tracks w
  = select_tracks pretty_table file_audio_tracks
      (printed (asked pretty_table file_audio_tracks w rest)
         ["Invalid input. Please enter valid track numbers "
            +:+ "or 's' to skip."]).
Proof.
  intros Hin Hacc. unfold select_tracks at 1. rewrite Hin.
  cbn [ask_tracks]. unfold mbind, M_bind, Os.print, Os.input, lift.
  cbn [stdin stdout fs shell]. rewrite Hin, Hacc.
  unfold select_tracks, printed, asked. cbn [stdin stdout fs shell].
  by rewrite <- !app_assoc.
Qed.

End PromptFacts.

Lemma rejected_selection_asks_again_witness :
  stdin (Sample.world_with ["9"; "3"]) = "9" :: ["3"]
  /\ Executor.accepted (Track <$> [Cases.film_eng; Cases.film_fre])
       (PyStr.split "9") = Ok false
  /\ Executor.select_tracks Sample.table [Cases.film_eng; Cases.film_fre]
       (Sample.world_with ["9"; "3"])
     = Executor.select_tracks Sample.table
         [Cases.film_eng; Cases.film_fre]
         (printed (Executor.asked Sample.table
                     [Cases.film_eng; Cases.film_fre]
                     (Sample.world_with ["9"; "3"]) ["3"])
            ["Invalid input. Please enter valid track numbers "
               +:+ "or 's' to skip."]).
Proof.
  split; [reflexivity|]. split; [reflexivity|].
  apply (rejected_selection_asks_again Sample.table
           [Cases.film_eng; Cases.film_fre]
           (Sample.world_with ["9"; "3"]) "9" ["3"]);
    reflexivity.
Defined.

Lemma accepted_spec_witness :
  Executor.accepted [2; 3] (PyStr.split Cases.superscript_answer)
  = Raise (ValueError ("invalid literal for int() with base 10: '"
                         +:+ Cases.superscript_two +:+ "'"))
  /\ Executor.accepted [2; 3] (PyStr.split "9 s") = Ok true.
Proof.
  split.
  - apply (proj1 (accepted_spec [2; 3]
                    (PyStr.split Cases.superscript_answer))).
    exists [], Cases.superscript_two, ["s"].
    split; [reflexivity|]. split; [constructor|].
    split; reflexivity.
  - apply (proj1 (proj2 (accepted_spec [2; 3]
                           (PyStr.split "9 s")))).
    right. split.
    + apply (bool_decide_unpack _). vm_compute. exact I.
    + intros e ([|first pre] & bad & post & Heq & Hpre & Hd & He).
      * injection Heq as <- _. vm_compute in He. discriminate He.
      * injection Heq as <- Heq.
        apply Forall_cons in Hpre as [(_ & n & Hn & Hin) _].
        vm_compute in Hn. injection Hn as <-.
        apply (bool_decide_pack _) in Hin. vm_compute in Hin.
        exact (Hin).
Defined.

(** ** The extractor as a whole *)

Section ExtractionFacts.

Import Extractor.

Variable ffprobe : string -> string + probe.
Variable ffmpeg : string -> gmap string Z -> Z * gmap string Z.
Variable test_api_key : string -> bool.
Variable languages_get : option string -> result (option string).
Variable external : string -> result (list Z).
Variable details : Z + string -> result (option string).



End ExtractionFacts.



(** ** The metadata mode on files of the same name *)

(** C3, at two copies of a film that have the same base name, the
    metadata mode run from the track list with the answers [y], the key
    and [y]. Both copies are looked up and get the original language
    [eng]. The plan leaves the first copy out, whose only track is
    French, and holds one entry, for the second copy, which keeps the
    English track. But the loop that applies the plan selects the tracks
    by base name and takes the path of the first one: the command is run
    on the first copy, the copy left out, with the exclusion planned for
    the second, and its result replaces that copy. The second copy is
    not touched. *)
Theorem C3_plan_is_applied_to_a_file_left_out :
  Metadata.collect_movie_data Cases.copies_tracks ∅ []
    (Cases.copies_world [])
  = (Ok [{| md_File := "Heat {tmdb-949}.mkv";
            md_FullFilePath := Cases.copy1;
            md_movie_id := "949";
            md_original_language := None |};
         {| md_File := "Heat {tmdb-949}.mkv";
            md_FullFilePath := Cases.copy2;
            md_movie_id := "949";
            md_original_language := None |}],
     Cases.copies_world [])
  /\ Metadata.fetch_languages Cases.languages_get Cases.external
       Cases.details
       [{| md_File := "Heat {tmdb-949}.mkv";
           md_FullFilePath := Cases.copy1;
           md_movie_id := "949";
           md_original_language := None |};
        {| md_File := "Heat {tmdb-949}.mkv";
           md_FullFilePath := Cases.copy2;
           md_movie_id := "949";
           md_original_language := None |}]
     = Ok [Cases.copy_data Cases.copy1; Cases.copy_data Cases.copy2]
  /\ Planner.tracks_of_file Cases.copies_tracks
       (Cases.copy_data Cases.copy1)
     = [Cases.track Cases.copy1 1 "fre"]
  /\ Planner.plan_file Cases.copies_tracks (Cases.copy_data Cases.copy1)
     = Ok None
  /\ Planner.plan_files Cases.copies_tracks
       [Cases.copy_data Cases.copy1; Cases.copy_data Cases.copy2] []
     = Ok [{| file_name := "Heat {tmdb-949}.mkv";
              original_language := Some "eng";
              tracks_to_delete := ["1(fre)"];
              tracks_to_keep := ["2(eng)"] |}]
  /\ exists w',
       Metadata.TMDB_pull_language Cases.copies_ffmpeg Cases.test_api_key
         Cases.languages_get Cases.external Cases.details
         Cases.copies_tracks "/ff" false
         (Cases.copies_world ["y"; "secret"; "y"])
       = (Ok (Some true), w')
       /\ shell w'
          = [Cases.copy_command Cases.copy1 Cases.copy1_temp
               "-map -0:a:0"]
       /\ fs w' !! Cases.copy1 = Some (40 * Sample.mib)
       /\ fs w' !! Cases.copy1_temp = None
       /\ fs w' !! Cases.copy2 = Some (120 * Sample.mib)
       /\ stdin w' = [].
Proof.
  do 5 (split; [vm_compute; reflexivity|]).
  eexists. split; [vm_compute; reflexivity|].
  repeat split; vm_compute; reflexivity.
Qed.
